(** * rename-media-date: a shallow embedding of [rename-media-date.py]

    The script copies media files to names that carry their capture time.
    This development embeds its functions and the library calls they rely
    on, and states the properties of the renaming pipeline.

    Conventions of the embedding:
    - a Python [str] is the list of its code points; what the Unicode
      database of the interpreter says about the code points above ASCII
      (which are decimal digits, which are printable, their lower case) is
      a parameter, the class [Unicode];
    - paths follow [posixpath];
    - a Python [int] is a [Z];
    - a call that can raise returns a [result]; code that touches the
      file system or standard output runs in the monad [M] over [world]. *)

From Stdlib Require Import ZArith NArith Ascii String List Bool Lia.
From stdpp Require Import base option list gmap.
Import ListNotations.

Set Default Proof Using "Type".

(** ** Strings *)

(** A character is its code point. *)
Abbreviation char := N.
Abbreviation str := (list char).

(** The code point of an ASCII character, and the [str] of a literal. *)
Definition ch (a : ascii) : char := N_of_ascii a.
Definition lit (s : string) : str := map ch (list_ascii_of_string s).

(** ** The Unicode database

    [\d] in a [str] pattern, [str.lower] and [repr] consult the Unicode
    database of the interpreter. On ASCII its answers are the same in
    every version, and they are written out in [Str]; on the other code
    points they are the fields of this class. *)

Class Unicode : Type := mk_unicode {
  (** [c.isdecimal()]: the general category of [c] is Nd *)
  uni_isdecimal : char -> bool;
  (** [c.isprintable()] *)
  uni_isprintable : char -> bool;
  (** the lower case of [c] where it stands, after [before] and before
      [after] (the capital sigma depends on them) *)
  uni_lower : forall (before : str) (c : char) (after : str), str
}.

Module Str.

Definition squote : char := 39%N.
Definition dquote : char := 34%N.
Definition backslash : char := 92%N.
Definition newline : char := 10%N.

Definition is_ascii (c : char) : bool := (c <? 128)%N.

Definition is_ascii_digit (c : char) : bool := (48 <=? c)%N && (c <=? 57)%N.

(** [c.lower()] on an ASCII character. *)
Definition lower_ascii (c : char) : char :=
  if (65 <=? c)%N && (c <=? 90)%N then (c + 32)%N else c.

(** The digit of [d < 16] among [0123456789abcdef]. *)
Definition hex_digit (d : N) : char := if (d <? 10)%N then (48 + d)%N else (87 + d)%N.

(** The [w] lowest hexadecimal digits of [n]. *)
Fixpoint hex (w : nat) (n : N) : str :=
  match w with
  | O => []
  | S w' => hex w' (n / 16)%N ++ [hex_digit (n mod 16)%N]
  end.

Section unicode.
Context {ucd : Unicode}.

(** [c.isdecimal()]: what [\d] matches in a [str] pattern. *)
Definition is_digit (c : char) : bool :=
  if is_ascii c then is_ascii_digit c else uni_isdecimal c.

(** [c.isprintable()] *)
Definition isprintable (c : char) : bool :=
  if is_ascii c then (32 <=? c)%N && (c <? 127)%N else uni_isprintable c.

(** [s.lower()] from the position after [before]: character by
    character. *)
Fixpoint lower_from (before s : str) : str :=
  match s with
  | [] => []
  | c :: s' =>
      (if is_ascii c then [lower_ascii c] else uni_lower before c s')
      ++ lower_from (before ++ [c]) s'
  end.

(** [s.lower()] *)
Definition lower (s : str) : str := lower_from [] s.

(** What [repr] writes for the character [c] between quotes [q]. *)
Definition repr_char (q c : char) : str :=
  if (c =? q)%N || (c =? backslash)%N then [backslash; c]
  else if (c =? 9)%N then [backslash; ch "t"]
  else if (c =? 10)%N then [backslash; ch "n"]
  else if (c =? 13)%N then [backslash; ch "r"]
  else if isprintable c then [c]
  else if (c <? 256)%N then [backslash; ch "x"] ++ hex 2 c
  else if (c <? 65536)%N then [backslash; ch "u"] ++ hex 4 c
  else [backslash; ch "U"] ++ hex 8 c.

(** [repr(s)]: between double quotes when [s] holds a single quote and
    no double quote, between single quotes otherwise. *)
Definition repr (s : str) : str :=
  let q :=
    if existsb (N.eqb squote) s && negb (existsb (N.eqb dquote) s)
    then dquote else squote in
  [q] ++ flat_map (repr_char q) s ++ [q].

End unicode.

Definition eqb (a b : str) : bool := bool_decide (a = b).

(** [s.startswith(p)] *)
Fixpoint startswith (p s : str) : bool :=
  match p, s with
  | [], _ => true
  | a :: p', b :: s' => N.eqb a b && startswith p' s'
  | _ :: _, [] => false
  end.

(** [s.endswith(p)] *)
Definition endswith (p s : str) : bool := startswith (rev p) (rev s).

(** [s.rfind(c) + 1]: one past the last occurrence of [c], [0] when
    there is none. *)
Fixpoint rfind1 (c : char) (s : str) : nat :=
  match s with
  | [] => 0
  | x :: s' =>
      match rfind1 c s' with
      | 0 => if N.eqb x c then 1 else 0
      | S k => S (S k)
      end
  end.

(** [s.rstrip(c)] for a one-character [c]. *)
Fixpoint rstrip (c : char) (s : str) : str :=
  match s with
  | [] => []
  | x :: s' =>
      match rstrip c s' with
      | [] => if N.eqb x c then [] else [x]
      | r => x :: r
      end
  end.

(** [s.split(sep)] for a one-character separator. *)
Fixpoint split (sep : char) (s : str) : list str :=
  match s with
  | [] => [[]]
  | c :: s' =>
      if N.eqb c sep then [] :: split sep s'
      else match split sep s' with
           | [] => [[c]]
           | w :: ws => (c :: w) :: ws
           end
  end.

(** [sep.join(parts)] *)
Fixpoint join (sep : str) (parts : list str) : str :=
  match parts with
  | [] => []
  | p :: ps =>
      match ps with
      | [] => p
      | _ :: _ => p ++ sep ++ join sep ps
      end
  end.

(** Decimal digits of a non-negative integer, most significant first. *)
Definition digit_char (d : Z) : char := (48 + Z.to_N d)%N.

Fixpoint dec_digits (fuel : nat) (n : Z) : str :=
  match fuel with
  | O => [digit_char (n mod 10)]
  | S f =>
      if (n <? 10)%Z then [digit_char n]
      else dec_digits f (n / 10) ++ [digit_char (n mod 10)]
  end.

(** [str(n)] for an [int]. *)
Definition of_int (n : Z) : str :=
  if (n <? 0)%Z then ch "-" :: dec_digits (Z.to_nat (Z.log2 (- n))) (- n)
  else dec_digits (Z.to_nat (Z.log2 n)) n.

(** ["%0wd" % n] for [n >= 0]: zero padding on the left up to width [w]. *)
Definition fmt_0d (w : nat) (n : Z) : str :=
  let d := of_int n in
  repeat (ch "0") (w - length d) ++ d.

End Str.

(** ** The two regular expressions of the script

    Both patterns are a start anchor followed by a fixed sequence of
    one-character classes, or a single class substituted everywhere. *)

Module Re.

Inductive cls : Type :=
| Digit
| Chr (c : char).

Section unicode.
Context {ucd : Unicode}.

Definition cls_match (k : cls) (c : char) : bool :=
  match k with
  | Digit => Str.is_digit c
  | Chr a => N.eqb a c
  end.

(** Match a sequence of classes at the start of [s]; the result is what
    follows the match. *)
Fixpoint match_seq (pat : list cls) (s : str) : option str :=
  match pat with
  | [] => Some s
  | k :: pat' =>
      match s with
      | [] => None
      | c :: s' => if cls_match k c then match_seq pat' s' else None
      end
  end.

(** [re.search("^" + pat, s) is not None] *)
Definition search_anchored (pat : list cls) (s : str) : bool :=
  match match_seq pat s with Some _ => true | None => false end.

(** [re.sub("^" + pat, repl, s)]: an anchored pattern matches at most
    once, at position 0. *)
Definition sub_anchored (pat : list cls) (repl s : str) : str :=
  match match_seq pat s with
  | Some rest => repl ++ rest
  | None => s
  end.

End unicode.

(** [re.sub("[" + chars + "]", repl, s)] *)
Definition sub_class (chars : list char) (repl s : str) : str :=
  flat_map (fun c => if existsb (N.eqb c) chars then repl else [c]) s.

(** [^\d{4}-\d{2}-\d{2}T\d{2}-\d{2}-\d{2}_] *)
Definition timestamp_pattern : list cls :=
  [Digit; Digit; Digit; Digit; Chr (ch "-"); Digit; Digit; Chr (ch "-");
   Digit; Digit; Chr (ch "T"); Digit; Digit; Chr (ch "-"); Digit; Digit;
   Chr (ch "-"); Digit; Digit; Chr (ch "_")].

End Re.

(** ** [posixpath] *)

Module PosixPath.

Definition sep : char := ch "/".
Definition extsep : char := ch ".".

(** [os.path.split(p)] *)
Definition split (p : str) : str * str :=
  let i := Str.rfind1 sep p in
  let head := firstn i p in
  let tail := skipn i p in
  let head :=
    if negb (Str.eqb head []) && negb (forallb (N.eqb sep) head)
    then Str.rstrip sep head else head in
  (head, tail).

(** [os.path.basename(p)] *)
Definition basename (p : str) : str := snd (split p).

(** [os.path.splitext(p)]: the extension starts at the last dot of the
    last component, unless only dots precede it there. *)
Definition splitext (p : str) : str * str :=
  let sepIndex1 := Str.rfind1 sep p in
  let dotIndex1 := Str.rfind1 extsep p in
  if (sepIndex1 <? dotIndex1)%nat &&
     negb (forallb (N.eqb extsep)
             (firstn (dotIndex1 - 1 - sepIndex1) (skipn sepIndex1 p)))
  then (firstn (dotIndex1 - 1) p, skipn (dotIndex1 - 1) p)
  else (p, []).

(** [os.path.join(a, b)] *)
Definition join (a b : str) : str :=
  if Str.startswith [sep] b then b
  else if Str.eqb a [] || Str.endswith [sep] a then a ++ b
  else a ++ [sep] ++ b.

End PosixPath.

(** ** Exceptions

    Every exception of the embedding is an instance of Python's
    [Exception]; it carries its class name and its message. *)

Record exn : Type := Exception { exn_class : str; exn_msg : str }.

Inductive result (A : Type) : Type :=
| Ok (a : A)
| Raise (e : exn).
Arguments Ok {A} a.
Arguments Raise {A} e.

Definition OverflowError (msg : string) : exn := Exception (lit "OverflowError") (lit msg).
Definition ValueError (msg : string) : exn := Exception (lit "ValueError") (lit msg).
Definition TypeError (msg : string) : exn := Exception (lit "TypeError") (lit msg).

(** ** The [datetime] module: naive [datetime], [timedelta], their sum and
    [isoformat] *)

Module Datetime.

Local Open Scope Z_scope.

Record datetime : Type := mk_datetime {
  year : Z; month : Z; day : Z;
  hour : Z; minute : Z; second : Z; microsecond : Z
}.

Record timedelta : Type := mk_td {
  td_days : Z; td_seconds : Z; td_microseconds : Z
}.

Definition _DAYS_IN_MONTH : list Z :=
  [-1; 31; 28; 31; 30; 31; 30; 31; 31; 30; 31; 30; 31].

Definition _DAYS_BEFORE_MONTH : list Z :=
  [-1; 0; 31; 59; 90; 120; 151; 181; 212; 243; 273; 304; 334].

Definition _is_leap (y : Z) : bool :=
  (y mod 4 =? 0) && (negb (y mod 100 =? 0) || (y mod 400 =? 0)).

Definition _days_before_year (year : Z) : Z :=
  let y := year - 1 in y * 365 + y / 4 - y / 100 + y / 400.

Definition _days_in_month (year month : Z) : Z :=
  if (month =? 2) && _is_leap year then 29
  else nth (Z.to_nat month) _DAYS_IN_MONTH (-1).

Definition _days_before_month (year month : Z) : Z :=
  nth (Z.to_nat month) _DAYS_BEFORE_MONTH (-1)
  + (if (2 <? month) && _is_leap year then 1 else 0).

Definition _ymd2ord (year month day : Z) : Z :=
  _days_before_year year + _days_before_month year month + day.

Definition _MAXORDINAL : Z := 3652059.
Definition _DI400Y : Z := 146097.
Definition _DI100Y : Z := 36524.
Definition _DI4Y : Z := 1461.

Definition _ord2ymd (n : Z) : Z * Z * Z :=
  let n := n - 1 in
  let n400 := n / _DI400Y in
  let n := n mod _DI400Y in
  let year := n400 * 400 + 1 in
  let n100 := n / _DI100Y in
  let n := n mod _DI100Y in
  let n4 := n / _DI4Y in
  let n := n mod _DI4Y in
  let n1 := n / 365 in
  let n := n mod 365 in
  let year := year + (n100 * 100 + n4 * 4 + n1) in
  if (n1 =? 4) || (n100 =? 4) then (year - 1, 12, 31)
  else
    let leapyear := (n1 =? 3) && (negb (n4 =? 24) || (n100 =? 3)) in
    let month := Z.shiftr (n + 50) 5 in
    let preceding :=
      nth (Z.to_nat month) _DAYS_BEFORE_MONTH (-1)
      + (if (2 <? month) && leapyear then 1 else 0) in
    if n <? preceding then
      let month := month - 1 in
      let preceding :=
        preceding
        - (nth (Z.to_nat month) _DAYS_IN_MONTH (-1)
           + (if (month =? 2) && leapyear then 1 else 0)) in
      (year, month, n - preceding + 1)
    else (year, month, n - preceding + 1).

(** What the constructors of [datetime] check; every [datetime] object
    of a Python program satisfies it. *)
Definition datetime_ok (d : datetime) : Prop :=
  1 <= year d <= 9999 /\ 1 <= month d <= 12 /\
  1 <= day d <= _days_in_month (year d) (month d) /\
  0 <= hour d < 24 /\ 0 <= minute d < 60 /\ 0 <= second d < 60 /\
  0 <= microsecond d < 1000000.

Definition datetime_okb (d : datetime) : bool :=
  (1 <=? year d) && (year d <=? 9999) && (1 <=? month d) && (month d <=? 12) &&
  (1 <=? day d) && (day d <=? _days_in_month (year d) (month d)) &&
  (0 <=? hour d) && (hour d <? 24) && (0 <=? minute d) && (minute d <? 60) &&
  (0 <=? second d) && (second d <? 60) &&
  (0 <=? microsecond d) && (microsecond d <? 1000000).

(** [timedelta(days, seconds, microseconds)] on [int] arguments: the
    fields are normalised, and more than 999999999 days overflow. *)
Definition new_timedelta (days seconds microseconds : Z) : result timedelta :=
  let s := seconds + microseconds / 1000000 in
  let us := microseconds mod 1000000 in
  let d := days + s / 86400 in
  let s := s mod 86400 in
  if 999999999 <? Z.abs d
  then Raise (OverflowError "timedelta # of days is too large")
  else Ok (mk_td d s us).

(** [timedelta(hours=h)] *)
Definition timedelta_hours (h : Z) : result timedelta :=
  new_timedelta 0 (h * 3600) 0.

(** [self.toordinal()] *)
Definition toordinal (d : datetime) : Z := _ymd2ord (year d) (month d) (day d).

(** [datetime.__add__(self, other)] *)
Definition add (self : datetime) (other : timedelta) : result datetime :=
  match new_timedelta (toordinal self)
          (hour self * 3600 + minute self * 60 + second self)
          (microsecond self) with
  | Raise e => Raise e
  | Ok delta =>
      match new_timedelta (td_days delta + td_days other)
              (td_seconds delta + td_seconds other)
              (td_microseconds delta + td_microseconds other) with
      | Raise e => Raise e
      | Ok delta =>
          let hour := td_seconds delta / 3600 in
          let rem := td_seconds delta mod 3600 in
          let minute := rem / 60 in
          let second := rem mod 60 in
          if (0 <? td_days delta) && (td_days delta <=? _MAXORDINAL) then
            let '(y, m, d) := _ord2ymd (td_days delta) in
            Ok (mk_datetime y m d hour minute second (td_microseconds delta))
          else Raise (OverflowError "result out of range")
      end
  end.

(** [self.isoformat()] of a naive [datetime] *)
Definition isoformat (d : datetime) : str :=
  Str.fmt_0d 4 (year d) ++ lit "-" ++ Str.fmt_0d 2 (month d) ++ lit "-"
  ++ Str.fmt_0d 2 (day d) ++ lit "T"
  ++ Str.fmt_0d 2 (hour d) ++ lit ":" ++ Str.fmt_0d 2 (minute d) ++ lit ":"
  ++ Str.fmt_0d 2 (second d)
  ++ (if microsecond d =? 0 then [] else lit "." ++ Str.fmt_0d 6 (microsecond d)).

End Datetime.

(** ** The calendar, stated directly

    The proleptic Gregorian calendar as a successor function on civil
    dates, with no day numbering: this is what "T plus N hours, with
    roll-over of the day, the month and the year" means. The years are
    unbounded here. *)

Module Civil.

Local Open Scope Z_scope.
Import Datetime.

Definition leap_year (y : Z) : bool :=
  if y mod 400 =? 0 then true
  else if y mod 100 =? 0 then false
  else y mod 4 =? 0.

Definition month_length (y m : Z) : Z :=
  if m =? 2 then (if leap_year y then 29 else 28)
  else if (m =? 4) || (m =? 6) || (m =? 9) || (m =? 11) then 30
  else 31.

(** The hour that follows [d]. *)
Definition next_hour (d : datetime) : datetime :=
  let 'mk_datetime y mo da h mi s us := d in
  if h <? 23 then mk_datetime y mo da (h + 1) mi s us
  else if da <? month_length y mo then mk_datetime y mo (da + 1) 0 mi s us
  else if mo <? 12 then mk_datetime y (mo + 1) 1 0 mi s us
  else mk_datetime (y + 1) 1 1 0 mi s us.

(** The hour that precedes [d]. *)
Definition prev_hour (d : datetime) : datetime :=
  let 'mk_datetime y mo da h mi s us := d in
  if 0 <? h then mk_datetime y mo da (h - 1) mi s us
  else if 1 <? da then mk_datetime y mo (da - 1) 23 mi s us
  else if 1 <? mo then mk_datetime y (mo - 1) (month_length y (mo - 1)) 23 mi s us
  else mk_datetime (y - 1) 12 31 23 mi s us.

(** [d] moved by [n] hours, one hour at a time. *)
Definition plus_hours (d : datetime) (n : Z) : datetime :=
  if 0 <=? n then Nat.iter (Z.to_nat n) next_hour d
  else Nat.iter (Z.to_nat (- n)) prev_hour d.

End Civil.

(** ** The file system and standard output

    A directory is named by its path with the trailing separators removed
    ([dir_key]); it holds named nodes, which are files with their bytes or
    subdirectories. Links, [.] and [..] inside a path are not modelled. *)

Inductive node : Type :=
| File (bytes : list Byte.byte)
| Directory.

Record dir : Type := mk_dir {
  dir_writable : bool;
  dir_entries : gmap str node
}.

Abbreviation fs := (gmap str dir).

Record world : Type := mk_world {
  w_fs : fs;
  w_stdout : list str;           (* one element for each call of [print] *)
  w_copies : list (str * str)    (* the calls of [shutil.copy2] that wrote a file *)
}.

Definition M (A : Type) : Type := world -> result A * world.

Global Instance M_ret : MRet M := fun A a w => (Ok a, w).
Global Instance M_bind : MBind M := fun A B k m w =>
  match m w with
  | (Ok a, w') => k a w'
  | (Raise e, w') => (Raise e, w')
  end.

Definition raise {A} (e : exn) : M A := fun w => (Raise e, w).

(** [try: body  except Exception as e: handler(e)] *)
Definition try_except {A} (body : M A) (handler : exn -> M A) : M A := fun w =>
  match body w with
  | (Ok a, w') => (Ok a, w')
  | (Raise e, w') => handler e w'
  end.

Definition lift {A} (r : result A) : M A := fun w => (r, w).

(** [print(s)] *)
Definition print (s : str) : M unit := fun w =>
  (Ok tt, mk_world (w_fs w) (w_stdout w ++ [s]) (w_copies w)).

Module Os.

(** The name under which a directory path is stored. *)
Definition dir_key (d : str) : str :=
  if Str.eqb d [] then lit "."
  else if forallb (N.eqb PosixPath.sep) d then [PosixPath.sep]
  else Str.rstrip PosixPath.sep d.

(** Directory and entry name a path refers to. *)
Definition locate (p : str) : str * str :=
  let '(h, t) := PosixPath.split p in (dir_key h, t).

Definition stat (f : fs) (p : str) : option node :=
  if Str.eqb p [] then None
  else
    let '(k, t) := locate p in
    if Str.eqb t [] then (_ ← f !! k; Some Directory)
    else (d ← f !! k; dir_entries d !! t).

(** [os.path.exists(p)] *)
Definition path_exists (p : str) : M bool := fun w =>
  (Ok (bool_decide (is_Some (stat (w_fs w) p))), w).

(** [os.path.isdir(p)] *)
Definition isdir (f : fs) (p : str) : bool :=
  match stat f p with
  | Some Directory => true
  | _ => false
  end.

(** [os.path.samefile(a, b)], with [False] where it raises because one
    of the two does not exist. *)
Definition samefile (f : fs) (a b : str) : bool :=
  bool_decide (is_Some (stat f a)) && bool_decide (is_Some (stat f b))
  && bool_decide (locate (dir_key a) = locate (dir_key b)).

(** A file stands at [p] or at one of the directories above [p]. *)
Fixpoint through_file (n : nat) (f : fs) (p : str) : bool :=
  match stat f p with
  | Some (File _) => true
  | _ =>
      match n with
      | O => false
      | S n' =>
          let h := fst (PosixPath.split p) in
          if Str.eqb h [] || Str.eqb h p then false else through_file n' f h
      end
  end.

Definition write_file (f : fs) (k t : str) (x : dir) (bytes : list Byte.byte) : fs :=
  <[k := mk_dir (dir_writable x) (<[t := File bytes]> (dir_entries x))]> f.

Section unicode.
Context {ucd : Unicode}.

(** The exceptions of the system calls: [str(e)] is
    [[Errno n] text: repr(path)]. *)
Definition FileNotFoundError (p : str) : exn :=
  Exception (lit "FileNotFoundError")
    (lit "[Errno 2] No such file or directory: " ++ Str.repr p).
Definition PermissionError (p : str) : exn :=
  Exception (lit "PermissionError") (lit "[Errno 13] Permission denied: " ++ Str.repr p).
Definition NotADirectoryError (p : str) : exn :=
  Exception (lit "NotADirectoryError") (lit "[Errno 20] Not a directory: " ++ Str.repr p).
Definition IsADirectoryError (p : str) : exn :=
  Exception (lit "IsADirectoryError") (lit "[Errno 21] Is a directory: " ++ Str.repr p).

(** [shutil.SameFileError("{!r} and {!r} are the same file".format(src, dst))] *)
Definition SameFileError (src dst : str) : exn :=
  Exception (lit "SameFileError")
    (Str.repr src ++ lit " and " ++ Str.repr dst ++ lit " are the same file").

(** What a system call raises for a path that leads nowhere:
    [NotADirectoryError] when a file stands on the way,
    [FileNotFoundError] otherwise. *)
Definition unreachable (f : fs) (p : str) : exn :=
  if through_file (length p) f p then NotADirectoryError p else FileNotFoundError p.

(** [os.listdir(d)] *)
Definition listdir (d : str) : M (list str) := fun w =>
  if Str.eqb d [] then (Raise (FileNotFoundError d), w)
  else match w_fs w !! dir_key d with
       | Some x => (Ok (map fst (map_to_list (dir_entries x))), w)
       | None => (Raise (unreachable (w_fs w) d), w)
       end.

(** [open(p, 'rb')]: the bytes that will be read. *)
Definition open_rb (f : fs) (p : str) : result (list Byte.byte) :=
  match stat f p with
  | Some (File bytes) => Ok bytes
  | Some Directory => Raise (IsADirectoryError p)
  | None => Raise (unreachable f p)
  end.

(** [open(p, 'wb')]: the directory and the entry that will hold the
    file. A path that ends with a separator and names no directory is
    answered as a directory when the directory above it exists. *)
Definition open_wb (f : fs) (p : str) : result (str * str * dir) :=
  if Str.eqb p [] then Raise (FileNotFoundError p)
  else
    let '(k, t) := locate p in
    match f !! k with
    | Some x =>
        if Str.eqb t [] then Raise (IsADirectoryError p)
        else
          match dir_entries x !! t with
          | Some Directory => Raise (IsADirectoryError p)
          | Some (File _) => Ok (k, t, x)
          | None => if dir_writable x then Ok (k, t, x) else Raise (PermissionError p)
          end
    | None =>
        if Str.eqb t [] && bool_decide (is_Some (f !! fst (locate (dir_key p))))
        then Raise (IsADirectoryError p)
        else Raise (unreachable f p)
    end.

(** [shutil.copy2(src, dst)]: a destination that is a directory stands
    for the entry of that directory with the base name of the source;
    then [copyfile] refuses to copy a file onto itself, opens the source,
    opens the destination, and turns the [IsADirectoryError] of a
    destination that does not exist into a [FileNotFoundError]. *)
Definition copy2 (src dst : str) : M unit := fun w =>
  let f := w_fs w in
  let dst := if isdir f dst then PosixPath.join dst (PosixPath.basename src) else dst in
  if samefile f src dst then (Raise (SameFileError src dst), w)
  else
    match open_rb f src with
    | Raise e => (Raise e, w)
    | Ok bytes =>
        match open_wb f dst with
        | Ok (k, t, x) =>
            (Ok tt, mk_world (write_file f k t x bytes) (w_stdout w)
                      (w_copies w ++ [(src, dst)]))
        | Raise e =>
            if Str.eqb (exn_class e) (lit "IsADirectoryError")
               && negb (bool_decide (is_Some (stat f dst)))
            then (Raise (Exception (lit "FileNotFoundError")
                           (lit "Directory does not exist: " ++ dst)), w)
            else (Raise e, w)
        end
    end.

End unicode.

End Os.

(** ** The libraries the script calls

    What [hachoir], [PIL], [strptime] and [glob] answer is not computed
    here: an environment gives their answers. A library call sees the path
    it is given and the node stored there. *)

Inductive pyval : Type :=
| PyNone
| PyStr (s : str)
| PyDatetime (d : Datetime.datetime)
| PyObject (truthy : bool).

(** [bool(v)] *)
Definition truthy (v : pyval) : bool :=
  match v with
  | PyNone => false
  | PyStr s => negb (Str.eqb s [])
  | PyDatetime _ => true
  | PyObject b => b
  end.

Record Env : Type := mk_env {
  parser : Type;
  metadata : Type;
  image : Type;
  (** [hachoir.parser.createParser]; [None] stands for a false result *)
  createParser : str -> option node -> result (option parser);
  (** [hachoir.metadata.extractMetadata] *)
  extractMetadata : parser -> result (option metadata);
  (** [metadata.get(key)] *)
  metadata_get : metadata -> str -> result pyval;
  (** [PIL.Image.open] *)
  Image_open : str -> option node -> result image;
  (** [image._getexif()] *)
  _getexif : image -> result (option (gmap Z pyval));
  (** [datetime.datetime.strptime] on a [str] *)
  strptime_str : str -> str -> result Datetime.datetime;
  (** [glob.glob] *)
  glob : fs -> str -> list str
}.

(** [datetime.datetime.strptime(v, format)] *)
Definition strptime (E : Env) (v : pyval) (format : str) : result Datetime.datetime :=
  match v with
  | PyStr s => strptime_str E s format
  | _ => Raise (TypeError "strptime() argument 1 must be str")
  end.

(** ** The script *)

Import Datetime.

Section script.
Context {ucd : Unicode}.

(** The node a path refers to, as a library call that opens it sees it. *)
Definition node_at (p : str) : M (option node) := fun w => (Ok (Os.stat (w_fs w) p), w).

(** [re.sub(r"^\d{4}-\d{2}-\d{2}T\d{2}-\d{2}-\d{2}_", "", name)] *)
Definition without_timestamp (name : str) : str :=
  Re.sub_anchored Re.timestamp_pattern [] name.

Definition filename_has_match (directory filename : str) : M bool :=
  let filename_without_timestamp := without_timestamp filename in
  files ← Os.listdir directory;
  mret (existsb
          (fun file => Str.eqb filename_without_timestamp (without_timestamp file))
          files).

Definition EXIF_DateTimeOriginal : Z := 36867.

(** The [try] block of [get_media_creation_date]. *)
Definition get_media_creation_date_try (E : Env) (media_path : str) : M (option datetime) :=
  if Str.endswith (lit ".mp4") (Str.lower media_path) then
    nd ← node_at media_path;
    parser ← lift (createParser E media_path nd);
    match parser with
    | None => raise (ValueError "Unable to parse the MP4 file.")
    | Some parser =>
        metadata ← lift (extractMetadata E parser);
        match metadata with
        | None => raise (ValueError "Unable to extract metadata from the MP4 file.")
        | Some metadata =>
            media_creation_date ← lift (metadata_get E metadata (lit "creation_date"));
            if negb (truthy media_creation_date)
            then raise (ValueError "Media creation date not found in the metadata.")
            else
              match media_creation_date with
              | PyDatetime d => mret (Some d)
              | v =>
                  d ← lift (strptime E v (lit "%Y-%m-%dT%H:%M:%S"));
                  mret (Some d)
              end
        end
    end
  else
    nd ← node_at media_path;
    image ← lift (Image_open E media_path nd);
    exif_data ← lift (_getexif E image);
    match exif_data with
    | Some exif =>
        match exif !! EXIF_DateTimeOriginal with
        | Some date_taken =>
            d ← lift (strptime E date_taken (lit "%Y:%m:%d %H:%M:%S"));
            mret (Some d)
        | None => mret None
        end
    | None => mret None
    end.

Definition get_media_creation_date (E : Env) (media_path : str) : M (option datetime) :=
  try_except (get_media_creation_date_try E media_path)
    (fun e => print (lit "Error: " ++ exn_msg e);; mret None).

Definition has_timestamp_in_filename (filename : str) : bool :=
  Re.search_anchored Re.timestamp_pattern filename.

(** The nine characters of the class that [sanitize_filename] replaces:
    less-than, greater-than, colon, double quote, slash, backslash, bar,
    question mark and star. *)
Definition invalid_chars : list char :=
  [ch "<"; ch ">"; ch ":"; Str.dquote; ch "/"; Str.backslash; ch "|"; ch "?"; ch "*"].

Definition sanitize_filename (filename : str) : str :=
  Re.sub_class invalid_chars (lit "-") filename.

(** [media_creation_date + datetime.timedelta(hours=adjust_hours)] *)
Definition adjust (media_creation_date : datetime) (adjust_hours : Z) : result datetime :=
  match timedelta_hours adjust_hours with
  | Ok td => add media_creation_date td
  | Raise e => Raise e
  end.

(** Lines 76 to 90 of [save_media_with_datetime]: the name of the copy. *)
Definition sanitized_new_filename (original_path : str) (adjusted_datetime : datetime) : str :=
  let '(original_dir, original_filename) := PosixPath.split original_path in
  let '(filename, extension) := PosixPath.splitext original_filename in
  let filename :=
    if has_timestamp_in_filename filename
    then Str.join (lit "_") (tl (Str.split (ch "_") filename))
    else filename in
  let new_filename := isoformat adjusted_datetime ++ lit "_" ++ filename ++ extension in
  sanitize_filename new_filename.

(** Lines 74 to 90: the Filename Deriver, from the path, the extracted
    time and the hour offset to the name of the copy. *)
Definition derive (original_path : str) (media_creation_date : datetime)
    (adjust_hours : Z) : result str :=
  match adjust media_creation_date adjust_hours with
  | Ok adjusted_datetime => Ok (sanitized_new_filename original_path adjusted_datetime)
  | Raise e => Raise e
  end.

(** [s] has none of the characters that [sanitize_filename] replaces. *)
Definition clean (s : str) : bool :=
  forallb (fun c => negb (existsb (N.eqb c) invalid_chars)) s.

(** Lines 76 to 78 and 92 to 95: the directory the copy goes to. *)
Definition target_dir_of (original_path : str) (destination_dir : option str) : str :=
  let '(original_dir, original_filename) := PosixPath.split original_path in
  let original_dir := if Str.eqb original_dir [] then lit "." else original_dir in
  match destination_dir with
  | None => original_dir
  | Some d => d
  end.

Definition save_media_with_datetime (original_path : str)
    (media_creation_date : option datetime) (destination_dir : option str)
    (adjust_hours : Z) (simulate force : bool) : M bool :=
  match media_creation_date with
  | None =>
      print (original_path ++ lit " - File does not contain creation date in metadata.");;
      mret false
  | Some media_creation_date =>
      adjusted_datetime ← lift (adjust media_creation_date adjust_hours);
      let sanitized_new_filename := sanitized_new_filename original_path adjusted_datetime in
      let target_dir := target_dir_of original_path destination_dir in
      let new_path := PosixPath.join target_dir sanitized_new_filename in
      skip ← ((if negb force then
                  e ← Os.path_exists new_path;
                  if (e : bool) then mret true
                  else filename_has_match target_dir sanitized_new_filename
                else mret false) : M bool);
      if (skip : bool) then mret false
      else
        ((if negb simulate then
            Os.copy2 original_path new_path;;
            print (original_path ++ lit " -> " ++ new_path ++ lit " - Copied")
          else
            print (original_path ++ lit " -> " ++ new_path ++ lit " - Simulated Copy")) : M unit);;
        mret true
  end.

Record counters : Type := mk_counters {
  total_media_requested : Z;
  total_media_processed : Z;
  total_media_without_dates : Z
}.

(** The body of the [for] loop of [process_media], for one file. *)
Definition process_one (E : Env) (media_file : str) (destination_dir : option str)
    (adjust_hours : Z) (simulate force : bool) (c : counters) : M counters :=
  let c := mk_counters (total_media_requested c + 1) (total_media_processed c)
             (total_media_without_dates c) in
  media_creation_date ← get_media_creation_date E media_file;
  match media_creation_date with
  | Some d =>
      saved ← save_media_with_datetime media_file (Some d) destination_dir
                adjust_hours simulate force;
      if (saved : bool)
      then mret (mk_counters (total_media_requested c) (total_media_processed c + 1)
                   (total_media_without_dates c))
      else mret c
  | None =>
      print (media_file ++ lit " - File does not contain the creation date in metadata");;
      mret (mk_counters (total_media_requested c) (total_media_processed c)
              (total_media_without_dates c + 1))
  end.

(** The [for] loop of [process_media]. *)
Fixpoint process_files (E : Env) (media_files : list str) (destination_dir : option str)
    (adjust_hours : Z) (simulate force : bool) (c : counters) : M counters :=
  match media_files with
  | [] => mret c
  | media_file :: rest =>
      c ← process_one E media_file destination_dir adjust_hours simulate force c;
      process_files E rest destination_dir adjust_hours simulate force c
  end.

Definition summary_line (c : counters) : str :=
  [Str.newline] ++ lit "Input Media: " ++ Str.of_int (total_media_requested c)
  ++ lit ", Processed: " ++ Str.of_int (total_media_processed c)
  ++ lit ", Already Copied: "
  ++ Str.of_int (total_media_requested c - total_media_processed c
                 - total_media_without_dates c)
  ++ lit ", No Creation Date: " ++ Str.of_int (total_media_without_dates c).

Definition process_media (E : Env) (file_spec : str) (destination_dir : option str)
    (adjust_hours : Z) (simulate force : bool) : M unit := fun w =>
  let media_files := glob E (w_fs w) file_spec in
  if (length media_files =? 0)%nat then print (lit "No matching media files found.") w
  else
    (c ← process_files E media_files destination_dir adjust_hours simulate force
           (mk_counters 0 0 0);
     print (summary_line c)) w.

End script.

(** ** Reading a timestamp back from a string

    [read_fields] reads decimal fields of fixed widths, each followed by
    its separator; it serves to read the timestamp a file name carries and
    as the [strptime] of the example environment. *)

Module Read.

Local Open Scope Z_scope.

Definition digit_value (c : char) : Z := Z.of_N c - 48.

(** The number written by the first [w] characters, which must be ASCII
    digits, and what follows them. *)
Fixpoint read_dec (w : nat) (acc : Z) (s : str) : option (Z * str) :=
  match w with
  | O => Some (acc, s)
  | S w' =>
      match s with
      | c :: s' =>
          if Str.is_ascii_digit c then read_dec w' (10 * acc + digit_value c) s'
          else None
      | [] => None
      end
  end.

Definition read_char (c : char) (s : str) : option str :=
  match s with
  | x :: s' => if N.eqb x c then Some s' else None
  | [] => None
  end.

(** Year, month, day, hour, minute and second written as
    [YYYY a MM a DD b HH c MM c SS], and the rest of the string. *)
Definition read_timestamp (a b c : char) (s : str)
  : option (Z * Z * Z * Z * Z * Z * str) :=
  '(y, s) ← read_dec 4 0 s; s ← read_char a s;
  '(mo, s) ← read_dec 2 0 s; s ← read_char a s;
  '(d, s) ← read_dec 2 0 s; s ← read_char b s;
  '(h, s) ← read_dec 2 0 s; s ← read_char c s;
  '(mi, s) ← read_dec 2 0 s; s ← read_char c s;
  '(se, s) ← read_dec 2 0 s;
  Some (y, mo, d, h, mi, se, s).

(** The timestamp at the head of a derived file name
    [YYYY-MM-DDTHH-MM-SS...]. *)
Definition embedded_timestamp (name : str) : option (Z * Z * Z * Z * Z * Z) :=
  '(y, mo, d, h, mi, se, _) ← read_timestamp (ch "-") (ch "T") (ch "-") name;
  Some (y, mo, d, h, mi, se).

End Read.

(** ** The timestamp prefix of a file name, written out

    [stamp d] is the text [YYYY-MM-DDTHH-MM-SS] for the date and time of
    [d], digit by digit. *)

Module Stamp.

Local Open Scope Z_scope.

Definition two_digits (n : Z) : str :=
  [Str.digit_char (n / 10); Str.digit_char (n mod 10)].

Definition four_digits (n : Z) : str :=
  [Str.digit_char (n / 1000); Str.digit_char (n / 100 mod 10);
   Str.digit_char (n / 10 mod 10); Str.digit_char (n mod 10)].

Definition stamp (d : datetime) : str :=
  four_digits (year d) ++ lit "-" ++ two_digits (month d) ++ lit "-"
  ++ two_digits (day d) ++ lit "T" ++ two_digits (hour d) ++ lit "-"
  ++ two_digits (minute d) ++ lit "-" ++ two_digits (second d).

(** What [isoformat] appends for the microseconds. *)
Definition fraction (d : datetime) : str :=
  if microsecond d =? 0 then [] else lit "." ++ Str.fmt_0d 6 (microsecond d).

End Stamp.

(** ** An example environment

    In the example a file of one byte [n] carries the capture time
    [demo_date [n]], both as EXIF tag 36867 and as container creation
    date; any other file carries none. The example [glob] knows the
    patterns [*suffix], [dir/*suffix] and [*/*suffix], where [suffix] and
    [dir] hold no wildcard, and finds nothing for any other pattern. The
    example Unicode database knows the code points up to U+00FF and the
    Arabic-Indic digits U+0660 to U+0669, and takes every other code point
    for unassigned. *)

Module Demo.

Definition arabic_indic_digit (c : char) : bool := (1632 <=? c)%N && (c <=? 1641)%N.

Definition unicode : Unicode := {|
  uni_isdecimal := arabic_indic_digit;
  uni_isprintable := fun c =>
    ((160 <? c)%N && (c <? 256)%N && negb (c =? 173)%N) || arabic_indic_digit c;
  uni_lower := fun _ c _ =>
    if (192 <=? c)%N && (c <=? 222)%N && negb (c =? 215)%N then [(c + 32)%N] else [c]
|}.

Definition demo_date (bytes : list Byte.byte) : option datetime :=
  match bytes with
  | [Byte.x01] => Some (mk_datetime 2023 5 10 14 30 0 0)
  | [Byte.x02] => Some (mk_datetime 2023 12 31 23 59 59 0)
  | [Byte.x03] => Some (mk_datetime 2023 5 10 14 30 0 500000)
  | _ => None
  end.

Definition exif_string (d : datetime) : str :=
  Str.fmt_0d 4 (year d) ++ lit ":" ++ Str.fmt_0d 2 (month d) ++ lit ":"
  ++ Str.fmt_0d 2 (day d) ++ lit " " ++ Str.fmt_0d 2 (hour d) ++ lit ":"
  ++ Str.fmt_0d 2 (minute d) ++ lit ":" ++ Str.fmt_0d 2 (second d).

Definition demo_strptime (s format : str) : result datetime :=
  let r :=
    if Str.eqb format (lit "%Y:%m:%d %H:%M:%S")
    then Read.read_timestamp (ch ":") (ch " ") (ch ":") s
    else if Str.eqb format (lit "%Y-%m-%dT%H:%M:%S")
    then Read.read_timestamp (ch "-") (ch "T") (ch ":") s
    else None in
  match r with
  | Some (y, mo, d, h, mi, se, []) =>
      let t := mk_datetime y mo d h mi se 0 in
      if datetime_okb t then Ok t else Raise (ValueError "day is out of range for month")
  | _ => Raise (ValueError "time data does not match format")
  end.

Definition hidden (name : str) : bool := Str.startswith (lit ".") name.

(** [s] holds one of the wildcard characters of [glob]. *)
Definition has_magic (s : str) : bool :=
  existsb (fun c => existsb (N.eqb c) (lit "*?[")) s.

Definition names_in (f : fs) (k suffix : str) : list str :=
  match f !! k with
  | Some x =>
      List.filter (fun n => negb (hidden n) && Str.endswith suffix n)
        (map fst (map_to_list (dir_entries x)))
  | None => []
  end.

(** The directories that the current directory lists and [*] matches. *)
Definition subdirs (f : fs) : list str :=
  match f !! lit "." with
  | Some x =>
      map fst
        (List.filter
           (fun e => negb (hidden (fst e))
                     && match snd e with Directory => true | File _ => false end)
           (map_to_list (dir_entries x)))
  | None => []
  end.

Definition demo_glob (f : fs) (spec : str) : list str :=
  let '(h, t) := PosixPath.split spec in
  match t with
  | c :: suffix =>
      if negb (N.eqb c (ch "*")) || has_magic suffix then []
      else if Str.eqb h [] then names_in f (lit ".") suffix
      else if Str.eqb h (lit "*") then
        flat_map (fun k => map (PosixPath.join k) (names_in f k suffix)) (subdirs f)
      else if has_magic h then []
      else map (PosixPath.join h) (names_in f (Os.dir_key h) suffix)
  | [] => []
  end.

Section unicode.
Context {ucd : Unicode}.

Definition open_bytes (p : str) (nd : option node) : result (list Byte.byte) :=
  match nd with
  | Some (File b) => Ok b
  | Some Directory => Raise (Os.IsADirectoryError p)
  | None => Raise (Os.FileNotFoundError p)
  end.

Definition env : Env := {|
  parser := list Byte.byte;
  metadata := list Byte.byte;
  image := list Byte.byte;
  createParser := fun p nd =>
    match open_bytes p nd with
    | Ok b => Ok (match demo_date b with Some _ => Some b | None => None end)
    | Raise e => Raise e
    end;
  extractMetadata := fun b => Ok (Some b);
  metadata_get := fun b key =>
    Ok (match demo_date b with Some d => PyDatetime d | None => PyNone end);
  Image_open := open_bytes;
  _getexif := fun b =>
    Ok (match demo_date b with
        | Some d => Some {[ EXIF_DateTimeOriginal := PyStr (exif_string d) ]}
        | None => None
        end);
  strptime_str := demo_strptime;
  glob := demo_glob
|}.

End unicode.

Definition files (l : list (string * Byte.byte)) : gmap str node :=
  list_to_map (map (fun '(n, b) => (lit n, File [b])) l).

(** The current directory, with the subdirectories [ds] and the files
    [l]. *)
Definition cwd (ds : list string) (l : list (string * Byte.byte)) : string * dir :=
  ("."%string, mk_dir true (foldr (fun d m => <[lit d := Directory]> m) (files l) ds)).

Definition world_of (l : list (string * dir)) : world :=
  mk_world (list_to_map (map (fun '(k, d) => (lit k, d)) l)) [] [].

End Demo.

(** ** Definitions for the statements and the proofs *)

Section statements.
Context {ucd : Unicode}.

Local Open Scope Z_scope.

(** [P] holds of [0], [1], ..., [n - 1]. *)
Definition all_below (P : Z -> bool) (n : nat) : bool :=
  fst (Nat.iter n (fun bi => (fst bi && P (snd bi), snd bi + 1)) (true, 0)).

(** The ranges of the fields that the shape of the stamp depends on. *)
Definition fields_in_range (d : datetime) : Prop :=
  0 <= year d < 10000 /\ 0 <= month d < 100 /\ 0 <= day d < 100 /\
  0 <= hour d < 100 /\ 0 <= minute d < 100 /\ 0 <= second d < 100.

(** A month and a day of that month, in any year. *)
Definition date_ok (y m d : Z) : Prop := 1 <= m <= 12 /\ 1 <= d <= _days_in_month y m.

Definition days_in_year (y : Z) : Z := if _is_leap y then 366 else 365.

(** The end of [_ord2ymd]: month and day for the day [n] of a year,
    counted from 0, given whether the year is a leap year. *)
Definition month_day (n : Z) (leapyear : bool) : Z * Z :=
  let month := Z.shiftr (n + 50) 5 in
  let preceding :=
    nth (Z.to_nat month) _DAYS_BEFORE_MONTH (-1)
    + (if (2 <? month) && leapyear then 1 else 0) in
  if n <? preceding then
    let month := month - 1 in
    let preceding :=
      preceding
      - (nth (Z.to_nat month) _DAYS_IN_MONTH (-1)
         + (if (month =? 2) && leapyear then 1 else 0)) in
    (month, n - preceding + 1)
  else (month, n - preceding + 1).

Definition month_day_check (leapyear : bool) (n : Z) : bool :=
  let '(m, d) := month_day n leapyear in
  (1 <=? m) && (m <=? 12) && (1 <=? d)
  && (d <=? (if (m =? 2) && leapyear then 29 else nth (Z.to_nat m) _DAYS_IN_MONTH (-1)))
  && (nth (Z.to_nat m) _DAYS_BEFORE_MONTH (-1)
      + (if (2 <? m) && leapyear then 1 else 0) + d =? n + 1).

(** A date of the calendar, in any year, with an hour of the day. *)
Definition civil_ok (d : datetime) : Prop :=
  date_ok (year d) (month d) (day d) /\ 0 <= hour d < 24.

(** The hours since the start of the day before 0001-01-01. *)
Definition hour_index (d : datetime) : Z :=
  _ymd2ord (year d) (month d) (day d) * 24 + hour d.

Definition same_minute (a b : datetime) : Prop :=
  minute a = minute b /\ second a = second b /\ microsecond a = microsecond b.

(** Every [datetime] the libraries of [E] return is well formed. *)
Definition env_dates_ok (E : Env) : Prop :=
  (forall s f d, strptime_str E s f = Ok d -> datetime_ok d) /\
  (forall m k d, metadata_get E m k = Ok (PyDatetime d) -> datetime_ok d).

Definition log_error (e : exn) (w : world) : world :=
  mk_world (w_fs w) (w_stdout w ++ [lit "Error: " ++ exn_msg e]) (w_copies w).

Local Close Scope Z_scope.

(** Every directory of [f] is in [f'], with at least the same entries. *)
Definition fs_le (f f' : fs) : Prop :=
  forall k x, f !! k = Some x ->
    exists x', f' !! k = Some x' /\ dir_entries x ⊆ dir_entries x'.

(** The world after [print(s)]. *)
Definition printed (w : world) (s : str) : world :=
  mk_world (w_fs w) (w_stdout w ++ [s]) (w_copies w).

(** The path of the copy. *)
Definition new_path_of (original_path : str) (destination_dir : option str)
    (adjusted_datetime : datetime) : str :=
  PosixPath.join (target_dir_of original_path destination_dir)
    (sanitized_new_filename original_path adjusted_datetime).

Definition copied_line (original_path new_path : str) : str :=
  original_path ++ lit " -> " ++ new_path ++ lit " - Copied".

Definition simulated_line (original_path new_path : str) : str :=
  original_path ++ lit " -> " ++ new_path ++ lit " - Simulated Copy".

Local Open Scope Z_scope.

(** The four outcomes of the orchestrator for one file. *)
Inductive outcome : Type :=
| Copied
| SimulatedCopy
| SkippedDuplicate
| SkippedNoDate.

(** The outcome, from the extracted time, the [simulate] flag and the
    value [save_media_with_datetime] returns. *)
Definition outcome_of (media_creation_date : option datetime) (simulate saved : bool)
  : outcome :=
  match media_creation_date with
  | None => SkippedNoDate
  | Some _ =>
      if saved then (if simulate then SimulatedCopy else Copied) else SkippedDuplicate
  end.

Definition no_date_line (media_file : str) : str :=
  media_file ++ lit " - File does not contain the creation date in metadata".

(** Worlds of the examples: [photo.jpg] was taken on 2023-05-10 at
    14:30:00; in [w_done] its copy is already in [out]. *)
Definition w_fresh : world :=
  Demo.world_of
    [Demo.cwd ["out"%string] [("photo.jpg"%string, Byte.x01)];
     ("out"%string, mk_dir true ∅)].

Definition w_done : world :=
  Demo.world_of
    [Demo.cwd ["out"%string] [("photo.jpg"%string, Byte.x01)];
     ("out"%string,
      mk_dir true (Demo.files [("2023-05-10T14-30-00_photo.jpg"%string, Byte.x01)]))].

Definition t_photo : datetime := mk_datetime 2023 5 10 14 30 0 0.

Definition w_clip : world :=
  Demo.world_of [Demo.cwd [] [("clip.mp4"%string, Byte.x03)]].

Definition t_clip : datetime := mk_datetime 2023 5 10 14 30 0 500000.

Definition count_requested (c : counters) : counters :=
  mk_counters (total_media_requested c + 1) (total_media_processed c)
    (total_media_without_dates c).

Definition count_processed (c : counters) : counters :=
  mk_counters (total_media_requested c + 1) (total_media_processed c + 1)
    (total_media_without_dates c).

Definition count_no_date (c : counters) : counters :=
  mk_counters (total_media_requested c + 1) (total_media_processed c)
    (total_media_without_dates c + 1).


(** The loop body returns without copying, whatever the counters. *)
Definition quiet (E : Env) (dest : option str) (n : Z) (sim : bool) (f : str)
    (w : world) : Prop :=
  forall c, exists c' w',
    process_one E f dest n sim false c w = (Ok c', w') /\
    w_fs w' = w_fs w /\ w_copies w' = w_copies w.

Definition w_two_dirs : world :=
  Demo.world_of
    [Demo.cwd ["src"%string; "out"%string] [];
     ("src"%string, mk_dir true (Demo.files [("clip.mp4"%string, Byte.x03)]));
     ("out"%string, mk_dir true ∅)].

(** Both are files, or both are directories. *)
Definition same_kind (a b : node) : Prop :=
  match a, b with
  | File _, File _ => True
  | Directory, Directory => True
  | _, _ => False
  end.

(** Every directory of [f] is in [f'], and every entry of it is still
    there, as a file if it was a file, as a directory if it was one. *)
Definition fs_keeps (f f' : fs) : Prop :=
  forall k x, f !! k = Some x ->
    exists x', f' !! k = Some x' /\
      forall t nd, dir_entries x !! t = Some nd ->
        exists nd', dir_entries x' !! t = Some nd' /\ same_kind nd nd'.

(** [photo.jpg] in the current directory, and in [out] a copy of it made
    under another timestamp. *)
Definition w_other_stamp : world :=
  Demo.world_of
    [Demo.cwd ["out"%string] [("photo.jpg"%string, Byte.x01)];
     ("out"%string,
      mk_dir true (Demo.files [("2020-01-01T00-00-00_photo.jpg"%string, Byte.x01)]))].

(** A file that already carries the timestamp of its creation date. *)
Definition w_tagged : world :=
  Demo.world_of [Demo.cwd [] [("2023-05-10T14-30-00_photo.jpg"%string, Byte.x01)]].

(** [s] with its ASCII digits replaced by the Arabic-Indic digits. *)
Definition arabic_indic (s : str) : str :=
  map (fun c => if Str.is_ascii_digit c then (c + 1584)%N else c) s.

(** [photo.jpg] in the current directory, and in [out] a copy of it made
    under a timestamp that is written with Arabic-Indic digits. *)
Definition w_arabic_indic : world :=
  Demo.world_of
    [Demo.cwd ["out"%string] [("photo.jpg"%string, Byte.x01)];
     ("out"%string,
      mk_dir true
        {[ arabic_indic (lit "2020-01-01T00-00-00_") ++ lit "photo.jpg"
           := File [Byte.x01] ]})].

(** [photo.jpg] in the current directory, and no directory [out]. *)
Definition w_no_out : world :=
  Demo.world_of [Demo.cwd [] [("photo.jpg"%string, Byte.x01)]].

Local Close Scope Z_scope.

End statements.

(** * Properties

    The properties are stated and proved for every Unicode database. *)

Import Stamp.

Section properties.
Context {ucd : Unicode}.

Local Arguments N.eqb : simpl never.

(** * Strings *)

Lemma char_eqb_eq (a b : char) : N.eqb a b = true <-> a = b.
Proof. apply N.eqb_eq. Qed.

Lemma str_eqb_eq (a b : str) : Str.eqb a b = true <-> a = b.
Proof. unfold Str.eqb. apply bool_decide_eq_true. Qed.

Lemma str_eqb_refl (a : str) : Str.eqb a a = true.
Proof. by apply str_eqb_eq. Qed.

Lemma rfind1_split (c : char) (s : str) (k : nat) :
  Str.rfind1 c s = S k ->
  exists a b, s = a ++ c :: b /\ length a = k /\ Str.rfind1 c b = 0%nat.
Proof.
  revert k. induction s as [|x s IH]; intros k H; simpl in H; [discriminate|].
  destruct (Str.rfind1 c s) as [|j] eqn:E.
  - destruct (N.eqb x c) eqn:Ex; [|discriminate].
    apply N.eqb_eq in Ex. subst x. injection H as <-.
    exists [], s. auto.
  - injection H as <-. destruct (IH j eq_refl) as (a & b & -> & Hl & Hb).
    exists (x :: a), b. simpl. auto.
Qed.

Lemma rfind1_zero_notin (c : char) (s : str) :
  Str.rfind1 c s = 0%nat <-> ~ In c s.
Proof.
  induction s as [|x s IH]; simpl; [tauto|].
  destruct (Str.rfind1 c s) as [|j].
  - destruct (N.eqb x c) eqn:Ex.
    + apply N.eqb_eq in Ex. split; [discriminate|]. intros H. exfalso. apply H. auto.
    + apply N.eqb_neq in Ex. split; [|done]. intros _ [H|H]; [done|]. by apply IH.
  - split; [discriminate|]. intros H. exfalso.
    assert (Hn : ~ In c s) by tauto. apply IH in Hn. discriminate.
Qed.

Lemma rfind1_le (c : char) (s : str) : (Str.rfind1 c s <= length s)%nat.
Proof.
  induction s as [|x s IH]; simpl; [lia|].
  destruct (Str.rfind1 c s); [destruct (N.eqb x c)|]; lia.
Qed.

(** [split] then [join] on the same separator gives the string back. *)
Lemma split_nonempty (c : char) (s : str) : Str.split c s <> [].
Proof.
  destruct s as [|x s]; simpl; [done|].
  destruct (N.eqb x c); [done|]. by destruct (Str.split c s).
Qed.

Lemma join_split (c : char) (s : str) : Str.join [c] (Str.split c s) = s.
Proof.
  induction s as [|x s IH]; simpl; [done|].
  destruct (N.eqb x c) eqn:Ex.
  - apply N.eqb_eq in Ex. subst x.
    pose proof (split_nonempty c s) as Hne.
    destruct (Str.split c s) as [|w ws] eqn:E; [done|].
    simpl. simpl in IH. by rewrite IH.
  - pose proof (split_nonempty c s) as Hne.
    destruct (Str.split c s) as [|w ws] eqn:E; [done|].
    simpl in *. destruct ws; simpl in *; by rewrite <- IH.
Qed.

(** When [c] does not occur in [a], splitting [a ++ c :: b] puts [a]
    first and the segments of [b] after it. *)
Lemma split_app_sep (c : char) (a b : str) :
  ~ In c a -> Str.split c (a ++ c :: b) = a :: Str.split c b.
Proof.
  induction a as [|x a IH]; intros Hn; simpl.
  - by rewrite N.eqb_refl.
  - destruct (N.eqb x c) eqn:Ex.
    + apply N.eqb_eq in Ex. subst. exfalso. apply Hn. by left.
    + rewrite IH; [done|]. intros H. apply Hn. by right.
Qed.

Lemma pop_first_segment (c : char) (a b : str) :
  ~ In c a -> Str.join [c] (tl (Str.split c (a ++ c :: b))) = b.
Proof. intros Hn. rewrite split_app_sep by done. simpl. apply join_split. Qed.

(** * The anchored pattern *)

Lemma match_seq_prefix (pat : list Re.cls) (s r : str) :
  Re.match_seq pat s = Some r ->
  exists p, s = p ++ r /\ length p = length pat.
Proof.
  revert s. induction pat as [|k pat IH]; intros s H; simpl in H.
  - injection H as ->. by exists [].
  - destruct s as [|c s]; [discriminate|].
    destruct (Re.cls_match k c); [|discriminate].
    destruct (IH _ H) as (p & -> & Hl). exists (c :: p). simpl. auto.
Qed.

Lemma match_seq_app (pat : list Re.cls) (s r e : str) :
  Re.match_seq pat s = Some r -> Re.match_seq pat (s ++ e) = Some (r ++ e).
Proof.
  revert s. induction pat as [|k pat IH]; intros s H; simpl in *.
  - by injection H as ->.
  - destruct s as [|c s]; [discriminate|]. simpl.
    destruct (Re.cls_match k c); [auto|discriminate].
Qed.

(** A string that fails the pattern still fails it when extended by a
    character no class of the pattern accepts (or by nothing). *)
Lemma match_seq_none_app (pat : list Re.cls) (s e : str) :
  Re.match_seq pat s = None ->
  match e with
  | [] => True
  | c :: _ => forallb (fun k => negb (Re.cls_match k c)) pat = true
  end ->
  Re.match_seq pat (s ++ e) = None.
Proof.
  revert s. induction pat as [|k pat IH]; intros s H He; simpl in *; [discriminate|].
  destruct s as [|c s]; simpl.
  - destruct e as [|c e]; [done|].
    apply andb_true_iff in He as [Hk _]. apply negb_true_iff in Hk. by rewrite Hk.
  - destruct (Re.cls_match k c); [|done]. apply IH; [done|].
    destruct e; [done|]. by apply andb_true_iff in He as [_ ?].
Qed.

(** Where the pattern ends with a literal [c] that none of its other
    classes accepts, the match ends at the first [c] of the string. *)
Lemma match_seq_last_char (body : list Re.cls) (c : char) (s r : str) :
  forallb (fun k => negb (Re.cls_match k c)) body = true ->
  Re.match_seq (body ++ [Re.Chr c]) s = Some r ->
  exists a, s = a ++ c :: r /\ ~ In c a.
Proof.
  revert s. induction body as [|k body IH]; intros s Hb H; simpl in *.
  - destruct s as [|x s]; [discriminate|].
    destruct (N.eqb c x) eqn:Ex; [|discriminate].
    apply N.eqb_eq in Ex. subst x. injection H as ->. exists []. auto.
  - destruct s as [|x s]; [discriminate|].
    apply andb_true_iff in Hb as [Hk Hb].
    destruct (Re.cls_match k x) eqn:Ekx; [|discriminate].
    destruct (IH _ Hb H) as (a & -> & Hn). exists (x :: a). split; [done|].
    intros [->|Hi]; [|done]. rewrite Ekx in Hk. discriminate.
Qed.

Lemma timestamp_match_underscore (s r : str) :
  Re.match_seq Re.timestamp_pattern s = Some r ->
  exists a, s = a ++ (ch "_") :: r /\ ~ In (ch "_") a.
Proof.
  intros H.
  apply (match_seq_last_char (removelast Re.timestamp_pattern) (ch "_")); [|exact H].
  vm_compute. reflexivity.
Qed.

(** The way [save_media_with_datetime] drops the prefix (split on the
    underscore, drop the first segment, join) and the way
    [filename_has_match] drops it (substitution) agree. *)
Lemma strip_by_split (filename : str) :
  has_timestamp_in_filename filename = true ->
  Str.join (lit "_") (tl (Str.split (ch "_") filename)) = without_timestamp filename.
Proof.
  unfold has_timestamp_in_filename, without_timestamp, Re.search_anchored, Re.sub_anchored.
  destruct (Re.match_seq Re.timestamp_pattern filename) as [r|] eqn:E; [|discriminate].
  intros _. destruct (timestamp_match_underscore _ _ E) as (a & -> & Hn).
  simpl. change (lit "_") with [(ch "_")]. by apply pop_first_segment.
Qed.

(** * [posixpath] *)

Lemma splitext_spec (p b e : str) :
  PosixPath.splitext p = (b, e) ->
  p = b ++ e /\ (e = [] \/ exists e', e = (ch ".") :: e').
Proof.
  unfold PosixPath.splitext.
  destruct (_ && _) eqn:C; intros [= <- <-].
  - split; [by rewrite firstn_skipn|]. right.
    apply andb_true_iff in C as [C _]. apply Nat.ltb_lt in C.
    destruct (Str.rfind1 PosixPath.extsep p) as [|k] eqn:Ek; [lia|].
    destruct (rfind1_split _ _ _ Ek) as (a & t & -> & Hl & _).
    replace (S k - 1)%nat with (length a) by lia.
    rewrite skipn_app, skipn_all, Nat.sub_diag. simpl. eauto.
  - split; [by rewrite app_nil_r|]. by left.
Qed.

(** Dropping the prefix from the base name or from the whole name is the
    same, because an extension starts with a dot, which the pattern
    rejects. *)
Lemma strip_commutes_splitext (name b e : str) :
  PosixPath.splitext name = (b, e) ->
  (if has_timestamp_in_filename b
   then Str.join (lit "_") (tl (Str.split (ch "_") b)) else b) ++ e
  = without_timestamp name.
Proof.
  intros Hs. destruct (splitext_spec _ _ _ Hs) as [-> He].
  destruct (has_timestamp_in_filename b) eqn:Hb.
  - rewrite strip_by_split by done.
    unfold has_timestamp_in_filename, Re.search_anchored in Hb.
    unfold without_timestamp, Re.sub_anchored.
    destruct (Re.match_seq Re.timestamp_pattern b) as [r|] eqn:E; [|discriminate].
    by rewrite (match_seq_app _ _ _ e E).
  - unfold has_timestamp_in_filename, Re.search_anchored in Hb.
    unfold without_timestamp, Re.sub_anchored.
    destruct (Re.match_seq Re.timestamp_pattern b) as [r|] eqn:E; [discriminate|].
    rewrite match_seq_none_app; [done|done|].
    destruct He as [->|[e' ->]]; [done|]. vm_compute. reflexivity.
Qed.

(** * The file name deriver *)

Lemma sanitize_app (a b : str) :
  sanitize_filename (a ++ b) = sanitize_filename a ++ sanitize_filename b.
Proof. unfold sanitize_filename, Re.sub_class. apply flat_map_app. Qed.

(** The derived name is the sanitized concatenation of the ISO time, an
    underscore and the name without its timestamp prefix. *)
Lemma sanitized_new_filename_eq (original_path : str) (a : datetime) :
  sanitized_new_filename original_path a
  = sanitize_filename
      (isoformat a ++ lit "_" ++ without_timestamp (snd (PosixPath.split original_path))).
Proof.
  unfold sanitized_new_filename.
  destruct (PosixPath.split original_path) as [d name]. simpl.
  destruct (PosixPath.splitext name) as [b e] eqn:Hs.
  rewrite <- (strip_commutes_splitext _ _ _ Hs).
  reflexivity.
Qed.

Local Open Scope Z_scope.

(** * Decimal formatting *)

Lemma forall_below (P : Z -> bool) (n : nat) :
  all_below P n = true ->
  forall z, 0 <= z < Z.of_nat n -> P z = true.
Proof.
  unfold all_below.
  set (f := fun bi : bool * Z => (fst bi && P (snd bi), snd bi + 1)).
  assert (Hsnd : forall k, snd (Nat.iter k f (true, 0)) = Z.of_nat k).
  { induction k as [|k IH]; [done|]. rewrite Nat.iter_succ. unfold f at 1. simpl snd. lia. }
  induction n as [|n IH]; intros H z Hz; [lia|].
  rewrite Nat.iter_succ in H. unfold f at 1 in H. simpl fst in H.
  apply andb_true_iff in H as [H1 H2]. rewrite Hsnd in H2.
  destruct (Z.eq_dec z (Z.of_nat n)) as [->|Hne]; [done|].
  apply IH; [done|lia].
Qed.

Lemma fmt_2d (n : Z) :
  0 <= n < 100 -> Str.fmt_0d 2 n = [Str.digit_char (n / 10); Str.digit_char (n mod 10)].
Proof.
  intros H.
  apply (bool_decide_eq_true_1 _).
  revert n H.
  apply (forall_below
    (fun n => bool_decide (Str.fmt_0d 2 n = [Str.digit_char (n / 10); Str.digit_char (n mod 10)])) 100).
  vm_compute. reflexivity.
Qed.

Lemma fmt_4d (n : Z) :
  0 <= n < 10000 ->
  Str.fmt_0d 4 n = [Str.digit_char (n / 1000); Str.digit_char (n / 100 mod 10);
                    Str.digit_char (n / 10 mod 10); Str.digit_char (n mod 10)].
Proof.
  intros H.
  apply (bool_decide_eq_true_1 _).
  revert n H.
  apply (forall_below
    (fun n => bool_decide (Str.fmt_0d 4 n =
       [Str.digit_char (n / 1000); Str.digit_char (n / 100 mod 10);
        Str.digit_char (n / 10 mod 10); Str.digit_char (n mod 10)])) (Z.to_nat 10000)).
  vm_compute. reflexivity.
Qed.

Lemma digit_cases (d : Z) :
  0 <= d <= 9 ->
  d = 0 \/ d = 1 \/ d = 2 \/ d = 3 \/ d = 4 \/ d = 5 \/ d = 6 \/ d = 7 \/ d = 8 \/ d = 9.
Proof. lia. Qed.

Ltac each_digit H :=
  apply digit_cases in H;
  repeat (destruct H as [H|H]); subst; vm_compute; reflexivity.

Lemma digit_char_is_digit (d : Z) : 0 <= d <= 9 -> Str.is_digit (Str.digit_char d) = true.
Proof. intros H. each_digit H. Qed.

Lemma digit_char_is_ascii_digit (d : Z) :
  0 <= d <= 9 -> Str.is_ascii_digit (Str.digit_char d) = true.
Proof. intros H. each_digit H. Qed.

Lemma digit_char_value (d : Z) : 0 <= d <= 9 -> Read.digit_value (Str.digit_char d) = d.
Proof. intros H. each_digit H. Qed.

Lemma digit_char_sanitize (d : Z) :
  0 <= d <= 9 -> sanitize_filename [Str.digit_char d] = [Str.digit_char d].
Proof. intros H. each_digit H. Qed.

Lemma fmt_2d_two (n : Z) : 0 <= n < 100 -> Str.fmt_0d 2 n = two_digits n.
Proof. apply fmt_2d. Qed.

Lemma fmt_4d_four (n : Z) : 0 <= n < 10000 -> Str.fmt_0d 4 n = four_digits n.
Proof. apply fmt_4d. Qed.

Lemma two_digits_range (n : Z) :
  0 <= n < 100 -> 0 <= n / 10 <= 9 /\ 0 <= n mod 10 <= 9 /\ 10 * (n / 10) + n mod 10 = n.
Proof. intros H. repeat split; try (Z.div_mod_to_equations; lia). Qed.

Lemma four_digits_range (n : Z) :
  0 <= n < 10000 ->
  0 <= n / 1000 <= 9 /\ 0 <= n / 100 mod 10 <= 9 /\ 0 <= n / 10 mod 10 <= 9 /\
  0 <= n mod 10 <= 9 /\
  10 * (10 * (10 * (n / 1000) + n / 100 mod 10) + n / 10 mod 10) + n mod 10 = n.
Proof. intros H. repeat split; try (Z.div_mod_to_equations; lia). Qed.

Lemma match_two_digits (n : Z) (pat : list Re.cls) (s : str) :
  0 <= n < 100 ->
  Re.match_seq (Re.Digit :: Re.Digit :: pat) (two_digits n ++ s) = Re.match_seq pat s.
Proof.
  intros H. destruct (two_digits_range n H) as (H1 & H2 & _).
  unfold two_digits. cbn [app Re.match_seq Re.cls_match].
  by rewrite !digit_char_is_digit.
Qed.

Lemma match_four_digits (n : Z) (pat : list Re.cls) (s : str) :
  0 <= n < 10000 ->
  Re.match_seq (Re.Digit :: Re.Digit :: Re.Digit :: Re.Digit :: pat) (four_digits n ++ s)
  = Re.match_seq pat s.
Proof.
  intros H. destruct (four_digits_range n H) as (H1 & H2 & H3 & H4 & _).
  unfold four_digits. cbn [app Re.match_seq Re.cls_match].
  by rewrite !digit_char_is_digit.
Qed.

Lemma read_two_digits (n : Z) (s : str) :
  0 <= n < 100 -> Read.read_dec 2 0 (two_digits n ++ s) = Some (n, s).
Proof.
  intros H. destruct (two_digits_range n H) as (H1 & H2 & H3).
  unfold two_digits. cbn [app Read.read_dec].
  rewrite !digit_char_is_ascii_digit, !digit_char_value by done.
  do 2 f_equal. lia.
Qed.

Lemma read_four_digits (n : Z) (s : str) :
  0 <= n < 10000 -> Read.read_dec 4 0 (four_digits n ++ s) = Some (n, s).
Proof.
  intros H. destruct (four_digits_range n H) as (H1 & H2 & H3 & H4 & H5).
  unfold four_digits. cbn [app Read.read_dec].
  rewrite !digit_char_is_ascii_digit, !digit_char_value by done.
  do 2 f_equal. lia.
Qed.

Lemma sanitize_two_digits (n : Z) :
  0 <= n < 100 -> sanitize_filename (two_digits n) = two_digits n.
Proof.
  intros H. destruct (two_digits_range n H) as (H1 & H2 & _).
  unfold two_digits.
  change [Str.digit_char (n / 10); Str.digit_char (n mod 10)]
    with ([Str.digit_char (n / 10)] ++ [Str.digit_char (n mod 10)]).
  by rewrite sanitize_app, !digit_char_sanitize.
Qed.

Lemma sanitize_four_digits (n : Z) :
  0 <= n < 10000 -> sanitize_filename (four_digits n) = four_digits n.
Proof.
  intros H. destruct (four_digits_range n H) as (H1 & H2 & H3 & H4 & _).
  unfold four_digits.
  change [Str.digit_char (n / 1000); Str.digit_char (n / 100 mod 10);
          Str.digit_char (n / 10 mod 10); Str.digit_char (n mod 10)]
    with ([Str.digit_char (n / 1000)] ++ [Str.digit_char (n / 100 mod 10)]
          ++ [Str.digit_char (n / 10 mod 10)] ++ [Str.digit_char (n mod 10)]).
  by rewrite !sanitize_app, !digit_char_sanitize.
Qed.

Lemma days_in_month_le (y m : Z) : _days_in_month y m <= 31.
Proof.
  unfold _days_in_month. destruct (_ && _); [lia|].
  destruct (Z.to_nat m) as [|k]; [simpl; lia|].
  do 12 (destruct k as [|k]; [simpl; lia|]). simpl. destruct k; lia.
Qed.

Lemma datetime_ok_fields (d : datetime) : datetime_ok d -> fields_in_range d.
Proof.
  unfold datetime_ok, fields_in_range. intros H.
  pose proof (days_in_month_le (year d) (month d)). lia.
Qed.

(** Sanitizing the ISO text turns its two colons into hyphens. *)
Lemma sanitize_isoformat (d : datetime) :
  fields_in_range d ->
  sanitize_filename (isoformat d) = stamp d ++ sanitize_filename (fraction d).
Proof.
  intros (Hy & Hmo & Hd & Hh & Hmi & Hs).
  unfold isoformat, stamp. fold (fraction d).
  rewrite fmt_4d_four, !fmt_2d_two by done.
  rewrite !sanitize_app.
  rewrite sanitize_four_digits, !sanitize_two_digits by done.
  rewrite <- !app_assoc. reflexivity.
Qed.

Lemma match_chr (c : char) (pat : list Re.cls) (s : str) :
  Re.match_seq (Re.Chr c :: pat) (c :: s) = Re.match_seq pat s.
Proof. cbn [Re.match_seq Re.cls_match]. by rewrite N.eqb_refl. Qed.

Lemma read_char_eq (c : char) (s : str) : Read.read_char c (c :: s) = Some s.
Proof. unfold Read.read_char. by rewrite N.eqb_refl. Qed.

Ltac step := cbn [app lit map list_ascii_of_string]; rewrite match_chr.
Ltac rstep :=
  cbn [app lit map list_ascii_of_string mbind option_bind]; rewrite read_char_eq;
  cbn [mbind option_bind].

Lemma stamp_matches (d : datetime) (r : str) :
  fields_in_range d ->
  Re.match_seq Re.timestamp_pattern (stamp d ++ (ch "_") :: r) = Some r.
Proof.
  intros (Hy & Hmo & Hd & Hh & Hmi & Hs).
  unfold stamp, Re.timestamp_pattern. rewrite <- !app_assoc.
  rewrite match_four_digits by done. step.
  rewrite match_two_digits by done. step.
  rewrite match_two_digits by done. step.
  rewrite match_two_digits by done. step.
  rewrite match_two_digits by done. step.
  rewrite match_two_digits by done. step.
  reflexivity.
Qed.

Lemma stamp_reads (d : datetime) (r : str) :
  fields_in_range d ->
  Read.embedded_timestamp (stamp d ++ r)
  = Some (year d, month d, day d, hour d, minute d, second d).
Proof.
  intros (Hy & Hmo & Hd & Hh & Hmi & Hs).
  unfold Read.embedded_timestamp, Read.read_timestamp, stamp. rewrite <- !app_assoc.
  rewrite read_four_digits by done. rstep.
  rewrite read_two_digits by done. rstep.
  rewrite read_two_digits by done. rstep.
  rewrite read_two_digits by done. rstep.
  rewrite read_two_digits by done. rstep.
  rewrite read_two_digits by done.
  reflexivity.
Qed.

Lemma split_tail_no_sep (p h t : str) :
  PosixPath.split p = (h, t) -> ~ In PosixPath.sep t.
Proof.
  unfold PosixPath.split. intros [= _ <-].
  destruct (Str.rfind1 PosixPath.sep p) as [|k] eqn:E.
  - simpl. by apply rfind1_zero_notin.
  - destruct (rfind1_split _ _ _ E) as (a & b & -> & Hl & Hb).
    replace (S k) with (length (a ++ [PosixPath.sep])) by (rewrite length_app; simpl; lia).
    rewrite (app_assoc a [PosixPath.sep] b : a ++ PosixPath.sep :: b = _).
    rewrite skipn_app, skipn_all, Nat.sub_diag. simpl. by apply rfind1_zero_notin.
Qed.

Lemma split_no_sep (t : str) : ~ In PosixPath.sep t -> PosixPath.split t = ([], t).
Proof.
  intros H. apply rfind1_zero_notin in H. unfold PosixPath.split. rewrite H. reflexivity.
Qed.

Lemma clean_sanitize (s : str) : clean s = true -> sanitize_filename s = s.
Proof.
  unfold clean, sanitize_filename, Re.sub_class.
  induction s as [|c s IH]; [done|]. cbn [forallb flat_map].
  intros H. apply andb_true_iff in H as [Hc Hs]. apply negb_true_iff in Hc.
  rewrite Hc, IH by done. reflexivity.
Qed.

Lemma sanitize_clean (s : str) : clean (sanitize_filename s) = true.
Proof.
  unfold clean, sanitize_filename, Re.sub_class.
  induction s as [|c s IH]; [done|]. cbn [flat_map].
  rewrite forallb_app, IH, andb_true_r.
  destruct (existsb (N.eqb c) invalid_chars) eqn:E; [reflexivity|].
  cbn [forallb]. by rewrite E.
Qed.

Lemma sanitize_idem (s : str) : sanitize_filename (sanitize_filename s) = sanitize_filename s.
Proof. apply clean_sanitize, sanitize_clean. Qed.

Lemma sanitize_underscore : sanitize_filename (lit "_") = lit "_".
Proof. reflexivity. Qed.

(** For a time with whole seconds the derived name is the stamp, an
    underscore and the sanitized name without its own prefix. *)
Lemma derived_name_whole_seconds (original_path : str) (a : datetime) :
  datetime_ok a -> microsecond a = 0 ->
  sanitized_new_filename original_path a
  = stamp a ++ lit "_"
    ++ sanitize_filename (without_timestamp (snd (PosixPath.split original_path))).
Proof.
  intros Hok Hus. apply datetime_ok_fields in Hok.
  rewrite sanitized_new_filename_eq, !sanitize_app, sanitize_isoformat by done.
  unfold fraction. rewrite Hus. cbn [Z.eqb]. rewrite sanitize_underscore.
  change (sanitize_filename []) with (@nil char). by rewrite app_nil_r.
Qed.

Lemma without_timestamp_stamp (a : datetime) (r : str) :
  datetime_ok a -> without_timestamp (stamp a ++ lit "_" ++ r) = r.
Proof.
  intros Hok. apply datetime_ok_fields in Hok.
  unfold without_timestamp, Re.sub_anchored.
  change (lit "_" ++ r) with ((ch "_") :: r). by rewrite stamp_matches.
Qed.

(** * The calendar *)

Lemma month_cases (m : Z) :
  1 <= m <= 12 ->
  m = 1 \/ m = 2 \/ m = 3 \/ m = 4 \/ m = 5 \/ m = 6 \/
  m = 7 \/ m = 8 \/ m = 9 \/ m = 10 \/ m = 11 \/ m = 12.
Proof. lia. Qed.

Ltac each_month H := apply month_cases in H; repeat (destruct H as [H|H]); subst.

Lemma leap_year_is_leap (y : Z) : Civil.leap_year y = _is_leap y.
Proof.
  unfold Civil.leap_year, _is_leap.
  destruct (Z.eqb_spec (y mod 400) 0) as [H400|H400];
  destruct (Z.eqb_spec (y mod 100) 0) as [H100|H100];
  destruct (Z.eqb_spec (y mod 4) 0) as [H4|H4]; simpl; try reflexivity;
  exfalso; Z.div_mod_to_equations; lia.
Qed.

Lemma month_length_days_in_month (y m : Z) :
  1 <= m <= 12 -> Civil.month_length y m = _days_in_month y m.
Proof.
  intros H. unfold Civil.month_length, _days_in_month. rewrite leap_year_is_leap.
  each_month H; destruct (_is_leap y); reflexivity.
Qed.

Lemma days_before_year_succ (y : Z) :
  _days_before_year (y + 1) = _days_before_year y + days_in_year y.
Proof.
  unfold _days_before_year, days_in_year, _is_leap.
  replace (y + 1 - 1) with y by lia.
  destruct (Z.eqb_spec (y mod 400) 0) as [H400|H400];
  destruct (Z.eqb_spec (y mod 100) 0) as [H100|H100];
  destruct (Z.eqb_spec (y mod 4) 0) as [H4|H4]; simpl;
  Z.div_mod_to_equations; lia.
Qed.

Lemma days_before_year_mono (y1 y2 : Z) :
  y1 <= y2 -> _days_before_year y1 <= _days_before_year y2.
Proof.
  intros H. unfold _days_before_year. Z.div_mod_to_equations. lia.
Qed.

Lemma days_before_month_succ (y m : Z) :
  1 <= m < 12 ->
  _days_before_month y (m + 1) = _days_before_month y m + _days_in_month y m.
Proof.
  intros H. unfold _days_before_month, _days_in_month.
  assert (Hm : 1 <= m <= 12) by lia.
  each_month Hm; try lia; destruct (_is_leap y); reflexivity.
Qed.

Lemma days_before_month_first (y : Z) : _days_before_month y 1 = 0.
Proof. reflexivity. Qed.

Lemma days_before_month_last (y : Z) :
  _days_before_month y 12 + _days_in_month y 12 = days_in_year y.
Proof.
  unfold _days_before_month, _days_in_month, days_in_year.
  destruct (_is_leap y); reflexivity.
Qed.

(** The day of the year of a date lies within the year. *)
Lemma day_of_year_bounds (y m d : Z) :
  date_ok y m d -> 1 <= _days_before_month y m + d <= days_in_year y.
Proof.
  intros [Hm Hd]. revert Hd.
  unfold _days_before_month, _days_in_month, days_in_year.
  each_month Hm; destruct (_is_leap y); simpl; lia.
Qed.

Lemma ymd2ord_year_bounds (y m d : Z) :
  date_ok y m d ->
  _days_before_year y < _ymd2ord y m d <= _days_before_year (y + 1).
Proof.
  intros H. apply day_of_year_bounds in H. rewrite days_before_year_succ.
  unfold _ymd2ord. lia.
Qed.

(** Distinct dates have distinct ordinals. *)
Lemma ymd2ord_inj (y1 m1 d1 y2 m2 d2 : Z) :
  date_ok y1 m1 d1 -> date_ok y2 m2 d2 ->
  _ymd2ord y1 m1 d1 = _ymd2ord y2 m2 d2 ->
  y1 = y2 /\ m1 = m2 /\ d1 = d2.
Proof.
  intros H1 H2 E.
  pose proof (ymd2ord_year_bounds _ _ _ H1) as B1.
  pose proof (ymd2ord_year_bounds _ _ _ H2) as B2.
  assert (y1 = y2) as <-.
  { destruct (Z.lt_trichotomy y1 y2) as [L|[L|L]]; [|done|].
    - pose proof (days_before_year_mono (y1 + 1) y2). lia.
    - pose proof (days_before_year_mono (y2 + 1) y1). lia. }
  split; [done|].
  unfold _ymd2ord in E.
  destruct H1 as [Hm1 Hd1], H2 as [Hm2 Hd2].
  revert Hd1 Hd2 E. unfold _days_before_month, _days_in_month.
  each_month Hm1; each_month Hm2; destruct (_is_leap y1); simpl; lia.
Qed.

Lemma ymd2ord_year_range (y m d : Z) :
  date_ok y m d -> (1 <= y <= 9999 <-> 0 < _ymd2ord y m d <= _MAXORDINAL).
Proof.
  intros H. pose proof (ymd2ord_year_bounds _ _ _ H) as B.
  assert (E1 : _days_before_year 1 = 0) by reflexivity.
  assert (E2 : _days_before_year 10000 = _MAXORDINAL) by reflexivity.
  split.
  - intros [L U].
    pose proof (days_before_year_mono 1 y). pose proof (days_before_year_mono (y + 1) 10000). lia.
  - intros [L U]. split.
    + destruct (Z.le_gt_cases 1 y); [done|].
      pose proof (days_before_year_mono (y + 1) 1). lia.
    + destruct (Z.le_gt_cases y 9999); [done|].
      pose proof (days_before_year_mono 10000 y). lia.
Qed.

Lemma month_day_checked (leapyear : bool) (n : Z) :
  0 <= n < 365 -> month_day_check leapyear n = true.
Proof.
  destruct leapyear.
  - apply (forall_below (month_day_check true) 365). vm_compute. reflexivity.
  - apply (forall_below (month_day_check false) 365). vm_compute. reflexivity.
Qed.

Lemma month_day_correct (y n m d : Z) :
  0 <= n < 365 -> month_day n (_is_leap y) = (m, d) ->
  date_ok y m d /\ _days_before_month y m + d = n + 1.
Proof.
  intros Hn E. pose proof (month_day_checked (_is_leap y) n Hn) as C.
  unfold month_day_check in C. rewrite E in C.
  rewrite !andb_true_iff, !Z.leb_le, Z.eqb_eq in C.
  destruct C as ((((? & ?) & ?) & ?) & ?).
  unfold date_ok, _days_in_month, _days_before_month. auto.
Qed.

Lemma ord2ymd_unfold (n : Z) :
  _ord2ymd n =
  let n0 := (n - 1) mod _DI400Y in
  let n100 := n0 / _DI100Y in
  let n4 := n0 mod _DI100Y / _DI4Y in
  let n1 := n0 mod _DI100Y mod _DI4Y / 365 in
  let year := (n - 1) / _DI400Y * 400 + 1 + (n100 * 100 + n4 * 4 + n1) in
  if (n1 =? 4) || (n100 =? 4) then (year - 1, 12, 31)
  else
    let '(m, d) :=
      month_day (n0 mod _DI100Y mod _DI4Y mod 365)
        ((n1 =? 3) && (negb (n4 =? 24) || (n100 =? 3))) in
    (year, m, d).
Proof.
  unfold _ord2ymd, month_day. cbv zeta.
  destruct (_ || _); [reflexivity|].
  match goal with |- context [if ?c then _ else _] => destruct c end; reflexivity.
Qed.

(** The year that [_ord2ymd] counts, and its leap flag, for a day of the
    400-year cycle outside the last day of a leap year. *)
Lemma cycle_year (n100 n4 n1 : Z) :
  0 <= n100 <= 3 -> 0 <= n4 <= 24 -> 0 <= n1 <= 3 ->
  let y := 1 + (n100 * 100 + n4 * 4 + n1) in
  _days_before_year y = n100 * _DI100Y + n4 * _DI4Y + n1 * 365 /\
  _is_leap y = (n1 =? 3) && (negb (n4 =? 24) || (n100 =? 3)).
Proof.
  intros H100 H4 H1 y. subst y. split.
  - unfold _days_before_year, _DI100Y, _DI4Y. Z.div_mod_to_equations. lia.
  - unfold _is_leap.
    destruct (Z.eqb_spec n1 3), (Z.eqb_spec n4 24), (Z.eqb_spec n100 3); simpl;
    repeat match goal with
           | |- context [?a mod ?b =? 0] => destruct (Z.eqb_spec (a mod b) 0)
           end; simpl; try reflexivity; exfalso; Z.div_mod_to_equations; lia.
Qed.

(** The last day of a leap year of the cycle. *)
Lemma cycle_leap_end (n100 n4 : Z) :
  0 <= n100 <= 3 -> 0 <= n4 <= 23 ->
  let y := n100 * 100 + n4 * 4 + 4 in
  _days_before_year y = n100 * _DI100Y + n4 * _DI4Y + 3 * 365 /\
  _is_leap y = true.
Proof.
  intros H100 H4 y. subst y. split.
  - unfold _days_before_year, _DI100Y, _DI4Y. Z.div_mod_to_equations. lia.
  - unfold _is_leap.
    repeat match goal with
           | |- context [?a mod ?b =? 0] => destruct (Z.eqb_spec (a mod b) 0)
           end; simpl; try reflexivity; exfalso; Z.div_mod_to_equations; lia.
Qed.

Lemma ord2ymd_cycle (r y m d : Z) :
  0 <= r < _DI400Y -> _ord2ymd (r + 1) = (y, m, d) ->
  date_ok y m d /\ _ymd2ord y m d = r + 1.
Proof.
  intros Hr. rewrite ord2ymd_unfold. cbv zeta.
  replace (r + 1 - 1) with r by lia.
  rewrite (Z.div_small r _DI400Y), (Z.mod_small r _DI400Y) by exact Hr.
  set (n100 := r / _DI100Y). set (r1 := r mod _DI100Y).
  set (n4 := r1 / _DI4Y). set (r2 := r1 mod _DI4Y).
  set (n1 := r2 / 365). set (r3 := r2 mod 365).
  assert (B : r = n100 * _DI100Y + n4 * _DI4Y + n1 * 365 + r3 /\
              0 <= r1 < _DI100Y /\ r1 = n4 * _DI4Y + r2 /\
              0 <= r2 < _DI4Y /\ r2 = n1 * 365 + r3 /\ 0 <= r3 < 365 /\
              0 <= n100 <= 4 /\ 0 <= n4 <= 24 /\ 0 <= n1 <= 4).
  { subst n100 r1 n4 r2 n1 r3. unfold _DI400Y, _DI100Y, _DI4Y in *.
    Z.div_mod_to_equations. lia. }
  destruct B as (Er & Br1 & Er1 & Br2 & Er2 & Br3 & B100 & B4 & B1).
  clearbody n100 r1 n4 r2 n1 r3.
  destruct ((n1 =? 4) || (n100 =? 4)) eqn:Special.
  - intros [= <- <- <-].
    assert (Hy : 0 * 400 + 1 + (n100 * 100 + n4 * 4 + n1) - 1 = n100 * 100 + n4 * 4 + n1) by lia.
    rewrite Hy. clear Hy.
    destruct (Z.eq_dec n100 4) as [->|N100].
    + assert (r = 146096 /\ n4 = 0 /\ n1 = 0) as (-> & -> & ->)
        by (unfold _DI400Y, _DI100Y, _DI4Y in *; lia).
      vm_compute. intuition congruence.
    + assert (n1 = 4) as -> by (apply orb_true_iff in Special as [E|E]; lia).
      assert (Hn4 : 0 <= n4 <= 23) by (unfold _DI100Y, _DI4Y in *; lia).
      assert (Hn100 : 0 <= n100 <= 3) by lia.
      destruct (cycle_leap_end n100 n4 Hn100 Hn4) as [Ed El].
      unfold date_ok, _ymd2ord, _days_before_month, _days_in_month.
      rewrite Ed, El. simpl nth. simpl andb. cbv iota.
      unfold _DI100Y, _DI4Y in *. lia.
  - apply orb_false_iff in Special as [S1 S100].
    assert (Hn1 : 0 <= n1 <= 3) by lia. assert (Hn100 : 0 <= n100 <= 3) by lia.
    destruct (cycle_year n100 n4 n1 Hn100 B4 Hn1) as [Ed El]. cbv zeta in Ed, El.
    rewrite <- El.
    destruct (month_day r3 _) as [m' d'] eqn:Emd.
    intros [= <- <- <-].
    replace (0 * 400 + 1 + (n100 * 100 + n4 * 4 + n1))
      with (1 + (n100 * 100 + n4 * 4 + n1)) by lia.
    destruct (month_day_correct _ _ _ _ Br3 Emd) as [Hok Hd].
    split; [done|]. unfold _ymd2ord. rewrite Ed. lia.
Qed.

Lemma ord2ymd_period (n : Z) :
  _ord2ymd n =
  let '(y, m, d) := _ord2ymd ((n - 1) mod _DI400Y + 1) in
  (y + 400 * ((n - 1) / _DI400Y), m, d).
Proof.
  set (q := (n - 1) / _DI400Y). set (r := (n - 1) mod _DI400Y).
  assert (Hr : 0 <= r < _DI400Y) by (apply Z.mod_pos_bound; reflexivity).
  unfold _ord2ymd. fold q. fold r.
  replace (r + 1 - 1) with r by lia.
  rewrite (Z.div_small r _DI400Y), (Z.mod_small r _DI400Y) by exact Hr.
  repeat match goal with
         | |- context [if ?c then _ else _] => destruct c
         end; f_equal; try f_equal; lia.
Qed.

Lemma is_leap_period (y q : Z) : _is_leap (y + 400 * q) = _is_leap y.
Proof.
  unfold _is_leap.
  replace ((y + 400 * q) mod 4) with (y mod 4) by (Z.div_mod_to_equations; lia).
  replace ((y + 400 * q) mod 100) with (y mod 100) by (Z.div_mod_to_equations; lia).
  replace ((y + 400 * q) mod 400) with (y mod 400) by (Z.div_mod_to_equations; lia).
  reflexivity.
Qed.

Lemma ymd2ord_period (y m d q : Z) :
  _ymd2ord (y + 400 * q) m d = _ymd2ord y m d + _DI400Y * q.
Proof.
  unfold _ymd2ord, _days_before_month. rewrite is_leap_period.
  unfold _days_before_year, _DI400Y. Z.div_mod_to_equations. lia.
Qed.

Lemma days_in_month_period (y m q : Z) : _days_in_month (y + 400 * q) m = _days_in_month y m.
Proof. unfold _days_in_month. by rewrite is_leap_period. Qed.

(** [_ord2ymd] is a right inverse of [_ymd2ord], and its results are
    dates of the calendar. *)
Lemma ord2ymd_correct (n y m d : Z) :
  _ord2ymd n = (y, m, d) -> date_ok y m d /\ _ymd2ord y m d = n.
Proof.
  rewrite ord2ymd_period.
  set (q := (n - 1) / _DI400Y). set (r := (n - 1) mod _DI400Y).
  assert (Hr : 0 <= r < _DI400Y) by (apply Z.mod_pos_bound; reflexivity).
  assert (Hn : n = r + 1 + _DI400Y * q).
  { unfold q, r. pose proof (Z.div_mod (n - 1) _DI400Y). unfold _DI400Y in *. lia. }
  destruct (_ord2ymd (r + 1)) as [[y0 m0] d0] eqn:E.
  destruct (ord2ymd_cycle _ _ _ _ Hr E) as [Hok Ho].
  intros [= <- <- <-].
  split.
  - destruct Hok. split; [done|]. by rewrite days_in_month_period.
  - rewrite ymd2ord_period. lia.
Qed.

(** And a left inverse on the dates of the calendar. *)
Lemma ord2ymd_ymd2ord (y m d : Z) :
  date_ok y m d -> _ord2ymd (_ymd2ord y m d) = (y, m, d).
Proof.
  intros H. destruct (_ord2ymd (_ymd2ord y m d)) as [[y' m'] d'] eqn:E.
  destruct (ord2ymd_correct _ _ _ _ E) as [H' Ho].
  destruct (ymd2ord_inj _ _ _ _ _ _ H' H Ho) as (-> & -> & ->). reflexivity.
Qed.

Lemma datetime_ok_civil (d : datetime) : datetime_ok d -> civil_ok d.
Proof. unfold datetime_ok, civil_ok, date_ok. tauto. Qed.

Lemma hour_index_inj (a b : datetime) :
  civil_ok a -> civil_ok b -> hour_index a = hour_index b -> same_minute a b -> a = b.
Proof.
  intros [Ha Hha] [Hb Hhb] E (Em & Es & Eu).
  unfold hour_index in E.
  assert (Eo : _ymd2ord (year a) (month a) (day a) = _ymd2ord (year b) (month b) (day b)) by lia.
  destruct (ymd2ord_inj _ _ _ _ _ _ Ha Hb Eo) as (Ey & Emo & Ed).
  destruct a, b. simpl in *. f_equal; lia.
Qed.

Lemma next_hour_spec (d : datetime) :
  civil_ok d ->
  civil_ok (Civil.next_hour d) /\ hour_index (Civil.next_hour d) = hour_index d + 1 /\
  same_minute (Civil.next_hour d) d.
Proof.
  destruct d as [y mo da h mi s us]. unfold civil_ok, hour_index, same_minute, Civil.next_hour.
  cbn [year month day hour minute second microsecond].
  intros [[Hm Hd] Hh].
  destruct (Z.ltb_spec h 23); cbn [year month day hour minute second microsecond].
  { unfold date_ok. repeat split; lia. }
  rewrite month_length_days_in_month by done.
  destruct (Z.ltb_spec da (_days_in_month y mo)); cbn [year month day hour minute second microsecond].
  { unfold date_ok, _ymd2ord. repeat split; lia. }
  assert (da = _days_in_month y mo) as -> by lia.
  destruct (Z.ltb_spec mo 12); cbn [year month day hour minute second microsecond].
  - assert (Hmo : 1 <= mo < 12) by lia.
    pose proof (days_before_month_succ y mo Hmo) as E.
    assert (1 <= _days_in_month y (mo + 1)).
    { unfold _days_in_month. assert (Hm' : 1 <= mo + 1 <= 12) by lia.
      revert Hm'. generalize (mo + 1). intros m' Hm'.
      apply month_cases in Hm'. repeat (destruct Hm' as [Hm'|Hm']); subst;
        destruct (_is_leap y); simpl; lia. }
    unfold date_ok, _ymd2ord. repeat split; lia.
  - assert (mo = 12) as -> by lia.
    pose proof (days_before_year_succ y) as E.
    pose proof (days_before_month_last y) as E'.
    unfold date_ok, _ymd2ord. rewrite days_before_month_first.
    assert (_days_in_month (y + 1) 1 = 31) as -> by reflexivity.
    repeat split; lia.
Qed.

Lemma prev_hour_spec (d : datetime) :
  civil_ok d ->
  civil_ok (Civil.prev_hour d) /\ hour_index (Civil.prev_hour d) = hour_index d - 1 /\
  same_minute (Civil.prev_hour d) d.
Proof.
  destruct d as [y mo da h mi s us]. unfold civil_ok, hour_index, same_minute, Civil.prev_hour.
  cbn [year month day hour minute second microsecond].
  intros [[Hm Hd] Hh].
  destruct (Z.ltb_spec 0 h); cbn [year month day hour minute second microsecond].
  { unfold date_ok. repeat split; lia. }
  destruct (Z.ltb_spec 1 da); cbn [year month day hour minute second microsecond].
  { unfold date_ok, _ymd2ord. repeat split; lia. }
  assert (da = 1) as -> by lia. assert (h = 0) as -> by lia.
  destruct (Z.ltb_spec 1 mo); cbn [year month day hour minute second microsecond].
  - assert (Hmo : 1 <= mo - 1 < 12) by lia.
    pose proof (days_before_month_succ y (mo - 1) Hmo) as E.
    replace (mo - 1 + 1) with mo in E by lia.
    rewrite month_length_days_in_month by lia.
    assert (1 <= _days_in_month y (mo - 1)).
    { unfold _days_in_month. assert (Hm' : 1 <= mo - 1 <= 12) by lia.
      revert Hm'. generalize (mo - 1). intros m' Hm'.
      apply month_cases in Hm'. repeat (destruct Hm' as [Hm'|Hm']); subst;
        destruct (_is_leap y); simpl; lia. }
    unfold date_ok, _ymd2ord. repeat split; lia.
  - assert (mo = 1) as -> by lia.
    pose proof (days_before_year_succ (y - 1)) as E.
    replace (y - 1 + 1) with y in E by lia.
    pose proof (days_before_month_last (y - 1)) as E'.
    unfold date_ok, _ymd2ord. rewrite days_before_month_first.
    assert (_days_in_month (y - 1) 12 = 31) as Hd12 by reflexivity.
    rewrite Hd12 in *.
    repeat split; lia.
Qed.

Lemma iter_next_hour (k : nat) (d : datetime) :
  civil_ok d ->
  civil_ok (Nat.iter k Civil.next_hour d) /\
  hour_index (Nat.iter k Civil.next_hour d) = hour_index d + Z.of_nat k /\
  same_minute (Nat.iter k Civil.next_hour d) d.
Proof.
  intros Hd. induction k as [|k (IH1 & IH2 & IH3)].
  - simpl. unfold same_minute. split; [done|]. split; [lia|done].
  - rewrite Nat.iter_succ. destruct (next_hour_spec _ IH1) as (H1 & H2 & H3).
    unfold same_minute in *. split; [done|]. split; [lia|]. destruct H3 as (? & ? & ?), IH3 as (? & ? & ?). repeat split; congruence.
Qed.

Lemma iter_prev_hour (k : nat) (d : datetime) :
  civil_ok d ->
  civil_ok (Nat.iter k Civil.prev_hour d) /\
  hour_index (Nat.iter k Civil.prev_hour d) = hour_index d - Z.of_nat k /\
  same_minute (Nat.iter k Civil.prev_hour d) d.
Proof.
  intros Hd. induction k as [|k (IH1 & IH2 & IH3)].
  - simpl. unfold same_minute. split; [done|]. split; [lia|done].
  - rewrite Nat.iter_succ. destruct (prev_hour_spec _ IH1) as (H1 & H2 & H3).
    unfold same_minute in *. split; [done|]. split; [lia|]. destruct H3 as (? & ? & ?), IH3 as (? & ? & ?). repeat split; congruence.
Qed.

(** Moving by [n] hours on the calendar moves the hour index by [n]. *)
Lemma plus_hours_spec (d : datetime) (n : Z) :
  civil_ok d ->
  civil_ok (Civil.plus_hours d n) /\
  hour_index (Civil.plus_hours d n) = hour_index d + n /\
  same_minute (Civil.plus_hours d n) d.
Proof.
  intros Hd. unfold Civil.plus_hours. destruct (Z.leb_spec 0 n).
  - destruct (iter_next_hour (Z.to_nat n) d Hd) as (H1 & H2 & H3).
    split; [done|]. split; [lia|done].
  - destruct (iter_prev_hour (Z.to_nat (- n)) d Hd) as (H1 & H2 & H3).
    split; [done|]. split; [lia|done].
Qed.

(** * [datetime + timedelta(hours=n)] *)

(** The carry arithmetic of [datetime.__add__] for a whole number of
    hours. *)
Lemma add_hours_arith (o h m s n : Z) :
  0 <= h < 24 -> 0 <= m < 60 -> 0 <= s < 60 ->
  let sum := h * 3600 + m * 60 + s + (n * 3600) mod 86400 in
  o + (n * 3600) / 86400 + sum / 86400 = (o * 24 + h + n) / 24 /\
  sum mod 86400 / 3600 = (o * 24 + h + n) mod 24 /\
  sum mod 86400 mod 3600 / 60 = m /\
  sum mod 86400 mod 3600 mod 60 = s.
Proof.
  intros Hh Hm Hs sum. subst sum.
  Z.div_mod_to_equations. lia.
Qed.

Lemma new_timedelta_normal (d s us : Z) :
  0 <= us < 1000000 ->
  new_timedelta d s us =
  if 999999999 <? Z.abs (d + s / 86400)
  then Raise (OverflowError "timedelta # of days is too large")
  else Ok (mk_td (d + s / 86400) (s mod 86400) us).
Proof.
  intros H. unfold new_timedelta.
  rewrite (Z.div_small us), (Z.mod_small us), Z.add_0_r by lia. reflexivity.
Qed.

Lemma toordinal_bounds (d : datetime) :
  datetime_ok d -> 0 < toordinal d <= _MAXORDINAL.
Proof.
  intros H. apply ymd2ord_year_range; [apply datetime_ok_civil, H|].
  unfold datetime_ok in H. tauto.
Qed.

(** The value of [adjust] when the day of the result is a day of the
    years 1 to 9999. *)
Lemma adjust_in_range (t : datetime) (n : Z) :
  datetime_ok t ->
  0 < (hour_index t + n) / 24 <= _MAXORDINAL ->
  adjust t n =
  let '(y, m, d) := _ord2ymd ((hour_index t + n) / 24) in
  Ok (mk_datetime y m d ((hour_index t + n) mod 24) (minute t) (second t) (microsecond t)).
Proof.
  intros Hok Hr. pose proof (toordinal_bounds t Hok) as Ho.
  destruct Hok as (Hy & Hmo & Hd & Hh & Hmi & Hs & Hus).
  unfold hour_index in *. fold (toordinal t) in *.
  destruct (add_hours_arith (toordinal t) (hour t) (minute t) (second t) n Hh Hmi Hs)
    as (A1 & A2 & A3 & A4). cbv zeta in A1, A2, A3, A4.
  assert (Hn : -999999999 <= n * 3600 / 86400 <= 999999999).
  { unfold _MAXORDINAL in *. Z.div_mod_to_equations. lia. }
  unfold adjust, timedelta_hours.
  rewrite new_timedelta_normal by lia. rewrite Z.add_0_l.
  destruct (Z.ltb_spec 999999999 (Z.abs (n * 3600 / 86400))); [lia|].
  unfold add. rewrite new_timedelta_normal by done.
  assert (Hsmall : (hour t * 3600 + minute t * 60 + second t) / 86400 = 0)
    by (apply Z.div_small; lia).
  rewrite Hsmall, Z.add_0_r.
  destruct (Z.ltb_spec 999999999 (Z.abs (toordinal t))); [unfold _MAXORDINAL in *; lia|].
  cbn [td_days td_seconds td_microseconds].
  rewrite (Z.mod_small (hour t * 3600 + minute t * 60 + second t)) by lia.
  rewrite new_timedelta_normal by lia.
  rewrite A1.
  destruct (Z.ltb_spec 999999999 (Z.abs ((toordinal t * 24 + hour t + n) / 24)));
    [unfold _MAXORDINAL in *; lia|].
  cbn [td_days td_seconds td_microseconds].
  rewrite A2, A3, A4, Z.add_0_r.
  destruct (Z.ltb_spec 0 ((toordinal t * 24 + hour t + n) / 24)); [|lia].
  destruct (Z.leb_spec ((toordinal t * 24 + hour t + n) / 24) _MAXORDINAL); [|lia].
  reflexivity.
Qed.

(** Outside these years the sum raises [OverflowError]. *)
Lemma adjust_out_of_range (t : datetime) (n : Z) :
  datetime_ok t ->
  ~ (0 < (hour_index t + n) / 24 <= _MAXORDINAL) ->
  exists msg, adjust t n = Raise (Exception (lit "OverflowError") msg).
Proof.
  intros Hok Hr. pose proof (toordinal_bounds t Hok) as Ho.
  destruct Hok as (Hy & Hmo & Hd & Hh & Hmi & Hs & Hus).
  unfold hour_index in *. fold (toordinal t) in *.
  destruct (add_hours_arith (toordinal t) (hour t) (minute t) (second t) n Hh Hmi Hs)
    as (A1 & A2 & A3 & A4). cbv zeta in A1, A2, A3, A4.
  unfold adjust, timedelta_hours.
  rewrite new_timedelta_normal by lia. rewrite Z.add_0_l.
  destruct (Z.ltb_spec 999999999 (Z.abs (n * 3600 / 86400))); [by eexists|].
  unfold add. rewrite new_timedelta_normal by done.
  assert (Hsmall : (hour t * 3600 + minute t * 60 + second t) / 86400 = 0)
    by (apply Z.div_small; lia).
  rewrite Hsmall, Z.add_0_r.
  destruct (Z.ltb_spec 999999999 (Z.abs (toordinal t))); [by eexists|].
  cbn [td_days td_seconds td_microseconds].
  rewrite (Z.mod_small (hour t * 3600 + minute t * 60 + second t)) by lia.
  rewrite new_timedelta_normal by lia.
  rewrite A1.
  destruct (Z.ltb_spec 999999999 (Z.abs ((toordinal t * 24 + hour t + n) / 24)));
    [by eexists|].
  cbn [td_days td_seconds td_microseconds].
  destruct (Z.ltb_spec 0 ((toordinal t * 24 + hour t + n) / 24));
    destruct (Z.leb_spec ((toordinal t * 24 + hour t + n) / 24) _MAXORDINAL);
    cbn [andb]; try (by eexists). lia.
Qed.

Lemma civil_index_split (a : datetime) :
  civil_ok a ->
  hour_index a / 24 = toordinal a /\ hour_index a mod 24 = hour a.
Proof.
  intros [_ Hh]. unfold hour_index, toordinal. Z.div_mod_to_equations. lia.
Qed.

(** [adjust] computes the calendar sum whenever that sum lies in the years
    1 to 9999, and raises otherwise. *)
Lemma adjust_plus_hours (t : datetime) (n : Z) :
  datetime_ok t ->
  1 <= year (Civil.plus_hours t n) <= 9999 ->
  adjust t n = Ok (Civil.plus_hours t n).
Proof.
  intros Hok Hy.
  destruct (plus_hours_spec t n (datetime_ok_civil _ Hok)) as (Hc & Hi & Hm & Hs & Hu).
  destruct (civil_index_split _ Hc) as [Hq Hr]. rewrite Hi in Hq, Hr.
  pose proof (proj1 (ymd2ord_year_range _ _ _ (proj1 Hc)) Hy) as Hrange.
  fold (toordinal (Civil.plus_hours t n)) in Hrange.
  rewrite adjust_in_range by (done || lia).
  rewrite Hq, Hr. unfold toordinal. rewrite ord2ymd_ymd2ord by apply Hc.
  rewrite <- Hm, <- Hs, <- Hu. by destruct (Civil.plus_hours t n).
Qed.

Lemma adjust_overflow (t : datetime) (n : Z) :
  datetime_ok t ->
  ~ (1 <= year (Civil.plus_hours t n) <= 9999) ->
  exists msg, adjust t n = Raise (Exception (lit "OverflowError") msg).
Proof.
  intros Hok Hy.
  destruct (plus_hours_spec t n (datetime_ok_civil _ Hok)) as (Hc & Hi & Hm & Hs & Hu).
  destruct (civil_index_split _ Hc) as [Hq Hr]. rewrite Hi in Hq.
  apply adjust_out_of_range; [done|]. rewrite Hq.
  intros Hrange. apply Hy. by apply (ymd2ord_year_range _ _ _ (proj1 Hc)).
Qed.

Lemma plus_hours_ok (t : datetime) (n : Z) :
  datetime_ok t ->
  1 <= year (Civil.plus_hours t n) <= 9999 ->
  datetime_ok (Civil.plus_hours t n) /\
  microsecond (Civil.plus_hours t n) = microsecond t.
Proof.
  intros Hok Hy.
  destruct (plus_hours_spec t n (datetime_ok_civil _ Hok)) as (Hc & Hi & Hm & Hs & Hu).
  destruct Hc as [[? ?] ?]. destruct Hok as (? & ? & ? & ? & ? & ? & ?).
  unfold datetime_ok. rewrite Hm, Hs, Hu. tauto.
Qed.

(** Whatever [adjust] returns is a [datetime] with the microseconds of
    its argument. *)
Lemma adjust_ok (t a : datetime) (n : Z) :
  datetime_ok t -> adjust t n = Ok a ->
  a = Civil.plus_hours t n /\ datetime_ok a /\ microsecond a = microsecond t.
Proof.
  intros Hok E.
  destruct (Z_le_dec 1 (year (Civil.plus_hours t n))) as [L|L];
    [destruct (Z_le_dec (year (Civil.plus_hours t n)) 9999) as [U|U]|].
  - rewrite adjust_plus_hours in E by (done || lia). injection E as <-.
    split; [done|]. apply plus_hours_ok; [done|lia].
  - destruct (adjust_overflow t n Hok) as [msg Hm]; [lia|congruence].
  - destruct (adjust_overflow t n Hok) as [msg Hm]; [lia|congruence].
Qed.

Lemma derive_eq (original_path : str) (t : datetime) (n : Z) :
  derive original_path t n =
  match adjust t n with
  | Ok a =>
      Ok (sanitize_filename
            (isoformat a ++ lit "_" ++ without_timestamp (snd (PosixPath.split original_path))))
  | Raise e => Raise e
  end.
Proof. unfold derive. destruct (adjust t n); [|done]. by rewrite sanitized_new_filename_eq. Qed.

Lemma without_timestamp_prefix (prefix rest : str) :
  Re.match_seq Re.timestamp_pattern prefix = Some [] ->
  without_timestamp (prefix ++ rest) = rest.
Proof.
  intros H. unfold without_timestamp, Re.sub_anchored.
  by rewrite (match_seq_app _ _ _ rest H).
Qed.

Lemma without_timestamp_untagged (name : str) :
  has_timestamp_in_filename name = false -> without_timestamp name = name.
Proof.
  unfold has_timestamp_in_filename, without_timestamp, Re.search_anchored, Re.sub_anchored.
  by destruct (Re.match_seq Re.timestamp_pattern name).
Qed.

Lemma clean_no_sep (s : str) : clean s = true -> ~ In PosixPath.sep s.
Proof.
  unfold clean. rewrite forallb_forall. intros H Hi. specialize (H _ Hi).
  vm_compute in H. discriminate.
Qed.

(** A derived name has no separator: it names an entry of the target
    directory. *)
Lemma sanitized_new_filename_no_sep (original_path : str) (a : datetime) :
  ~ In PosixPath.sep (sanitized_new_filename original_path a).
Proof. rewrite sanitized_new_filename_eq. apply clean_no_sep, sanitize_clean. Qed.

(** Deriving again from a derived name gives the name a first derivation
    with the second time would have given, when the first time has whole
    seconds. *)
Lemma derive_again (original_path : str) (a1 a2 : datetime) :
  datetime_ok a1 -> microsecond a1 = 0 ->
  sanitized_new_filename (sanitized_new_filename original_path a1) a2
  = sanitized_new_filename original_path a2.
Proof.
  intros Hok Hus.
  rewrite (sanitized_new_filename_eq (sanitized_new_filename _ _)).
  rewrite split_no_sep by apply sanitized_new_filename_no_sep. cbn [snd].
  rewrite derived_name_whole_seconds by done.
  rewrite without_timestamp_stamp by done.
  rewrite sanitized_new_filename_eq, !sanitize_app. by rewrite sanitize_idem.
Qed.

(** C7, amended: a file name that begins with a timestamp prefix loses
    exactly that prefix before the new name is composed: the new name is
    built from what follows the prefix, so a second prefix stays; it is
    the name derived from what follows the prefix when the pattern does
    not match there; and for a time with whole seconds the derived name
    is recognised as tagged, and deriving again from it gives what
    deriving from the original path gives: the prefixes do not pile
    up. *)
Theorem C7_strips_one_prefix (original_path prefix rest : str) (t : datetime) (n : Z) :
  snd (PosixPath.split original_path) = prefix ++ rest ->
  Re.match_seq Re.timestamp_pattern prefix = Some [] ->
  derive original_path t n =
    match adjust t n with
    | Ok a => Ok (sanitize_filename (isoformat a ++ lit "_" ++ rest))
    | Raise e => Raise e
    end
  /\ (Re.match_seq Re.timestamp_pattern rest = None ->
      derive original_path t n = derive rest t n)
  /\ (datetime_ok t -> microsecond t = 0 ->
      forall name, derive original_path t n = Ok name ->
        has_timestamp_in_filename name = true
        /\ forall t2 n2, derive name t2 n2 = derive original_path t2 n2).
Proof.
  intros Hname Hp. split; [|split].
  - by rewrite !derive_eq, Hname, without_timestamp_prefix.
  - intros Hrest. rewrite !derive_eq, Hname, without_timestamp_prefix by done.
    assert (Hsep : ~ In PosixPath.sep rest).
    { destruct (PosixPath.split original_path) as [h name] eqn:E. simpl in Hname.
      pose proof (split_tail_no_sep _ _ _ E) as Hn. rewrite Hname in Hn.
      intros Hi. apply Hn, in_or_app. by right. }
    rewrite split_no_sep by done. cbn [snd].
    unfold without_timestamp, Re.sub_anchored. by rewrite Hrest.
  - intros Hok Hus name. unfold derive at 1.
    destruct (adjust t n) as [a|] eqn:Ea; [|discriminate].
    destruct (adjust_ok _ _ _ Hok Ea) as (_ & Hoka & Husa). intros [= <-]. split.
    + rewrite derived_name_whole_seconds by (done || lia).
      unfold has_timestamp_in_filename, Re.search_anchored.
      change (lit "_" ++ ?r) with (ch "_" :: r).
      by rewrite stamp_matches by by apply datetime_ok_fields.
    + intros t2 n2. unfold derive. destruct (adjust t2 n2); [|done].
      by rewrite derive_again by (done || lia).
Qed.

(** C8: [photo.jpg], taken on 2023-05-10 at 14:30:00, with offset 0, is
    copied as [2023-05-10T14-30-00_photo.jpg]. *)
Theorem C8_scenario :
  derive (lit "photo.jpg") (mk_datetime 2023 5 10 14 30 0 0) 0
  = Ok (lit "2023-05-10T14-30-00_photo.jpg").
Proof. vm_compute. reflexivity. Qed.

(** C9: the name derived from the time [t] and the offset of [n] hours
    carries the calendar time [t] plus [n] hours, and there is such a name
    whenever that time lies in the years 1 to 9999 of [datetime]. *)
Theorem C9_adjusted_timestamp (original_path : str) (t : datetime) (n : Z) :
  datetime_ok t ->
  let a := Civil.plus_hours t n in
  (forall name, derive original_path t n = Ok name ->
     Read.embedded_timestamp name
     = Some (year a, month a, day a, hour a, minute a, second a))
  /\ (1 <= year a <= 9999 ->
      derive original_path t n = Ok (sanitized_new_filename original_path a)).
Proof.
  intros Hok a. split.
  - intros name. rewrite derive_eq. destruct (adjust t n) as [a'|] eqn:E; [|discriminate].
    destruct (adjust_ok _ _ _ Hok E) as (-> & Hok' & _). fold a. intros [= <-].
    rewrite sanitize_app, sanitize_isoformat by by apply datetime_ok_fields.
    rewrite <- app_assoc. apply stamp_reads. by apply datetime_ok_fields.
  - intros Hy. unfold derive. by rewrite adjust_plus_hours.
Qed.

(** C6, amended: for a time with whole seconds and an original name that
    has none of the sanitized characters after its own prefix, removing
    the timestamp prefix of the derived name gives back the original name
    without its own prefix. *)
Theorem C6_roundtrip (original_path name : str) (t : datetime) (n : Z) :
  datetime_ok t -> microsecond t = 0 ->
  clean (without_timestamp (snd (PosixPath.split original_path))) = true ->
  derive original_path t n = Ok name ->
  without_timestamp name = without_timestamp (snd (PosixPath.split original_path)).
Proof.
  intros Hok Hus Hclean. unfold derive.
  destruct (adjust t n) as [a|] eqn:E; [|discriminate].
  destruct (adjust_ok _ _ _ Hok E) as (_ & Hok' & Hus').
  intros [= <-]. rewrite derived_name_whole_seconds by (done || lia).
  rewrite without_timestamp_stamp by done. by apply clean_sanitize.
Qed.

(** * The extractor *)

Lemma bind_run {A B} (m : M A) (k : A -> M B) (w : world) :
  (m ≫= k) w =
  match m w with
  | (Ok a, w') => k a w'
  | (Raise e, w') => (Raise e, w')
  end.
Proof. reflexivity. Qed.

Lemma ret_run {A} (a : A) (w : world) : (mret a : M A) w = (Ok a, w).
Proof. reflexivity. Qed.

Ltac run :=
  repeat first
    [ rewrite bind_run
    | rewrite ret_run
    | progress cbn [lift raise node_at print fst snd] ].

(** The [try] block reads the world and leaves it as it is. *)
Lemma get_media_creation_date_try_frame (E : Env) (p : str) (w : world) :
  snd (get_media_creation_date_try E p w) = w.
Proof.
  unfold get_media_creation_date_try.
  destruct (Str.endswith _ _); run.
  - destruct (createParser E p _) as [[ps|]|]; run; try done.
    destruct (extractMetadata E ps) as [[md|]|]; run; try done.
    destruct (metadata_get E md _) as [v|]; run; try done.
    destruct (negb (truthy v)); run; try done.
    destruct v; run; try done; by destruct (strptime E _ _).
  - destruct (Image_open E p _) as [im|]; run; try done.
    destruct (_getexif E im) as [[ex|]|]; run; try done.
    destruct (ex !! EXIF_DateTimeOriginal) as [v|]; run; try done.
    by destruct (strptime E _ _).
Qed.

Lemma get_media_creation_date_try_ok (E : Env) (p : str) (w w' : world) (d : datetime) :
  env_dates_ok E ->
  get_media_creation_date_try E p w = (Ok (Some d), w') -> datetime_ok d.
Proof.
  intros [Hs Hm]. unfold get_media_creation_date_try.
  destruct (Str.endswith _ _); run.
  - destruct (createParser E p _) as [[ps|]|]; run; try done.
    destruct (extractMetadata E ps) as [[md|]|]; run; try done.
    destruct (metadata_get E md _) as [v|] eqn:Ev; run; try done.
    destruct (negb (truthy v)); run; try done.
    destruct v as [|s|d'|b]; run; try done.
    + unfold strptime. destruct (strptime_str E s _) eqn:Es; run; [|done].
      intros [= <- _]. eauto.
    + intros [= <- _]. eauto.
  - destruct (Image_open E p _) as [im|]; run; try done.
    destruct (_getexif E im) as [[ex|]|]; run; try done.
    destruct (ex !! EXIF_DateTimeOriginal) as [v|]; run; try done.
    unfold strptime. destruct v as [|s|d'|b]; run; try done.
    destruct (strptime_str E s _) eqn:Es; run; [|done].
    intros [= <- _]. eauto.
Qed.

Lemma get_media_creation_date_total (E : Env) (p : str) (w : world) :
  exists r, get_media_creation_date E p w = (Ok r, snd (get_media_creation_date E p w)).
Proof.
  unfold get_media_creation_date, try_except.
  destruct (get_media_creation_date_try E p w) as [[r|e] w1]; run; by eexists.
Qed.

(** The extractor changes neither the file system nor the copies. *)
Lemma get_media_creation_date_frame (E : Env) (p : str) (w : world) :
  w_fs (snd (get_media_creation_date E p w)) = w_fs w /\
  w_copies (snd (get_media_creation_date E p w)) = w_copies w.
Proof.
  pose proof (get_media_creation_date_try_frame E p w) as Hf.
  unfold get_media_creation_date, try_except.
  destruct (get_media_creation_date_try E p w) as [[r|e] w1]; simpl in Hf; subst w1;
    run; done.
Qed.

(** C3: [get_media_creation_date] returns, in every world and whatever the
    libraries answer: an exception of its [try] block is printed and
    becomes [None]; a returned time is a well-formed [datetime] when the
    libraries return well-formed ones. *)
Theorem C3_extractor_never_raises (E : Env) (media_path : str) (w : world) :
  (exists r, get_media_creation_date E media_path w
             = (Ok r, snd (get_media_creation_date E media_path w)))
  /\ (forall e w', get_media_creation_date_try E media_path w = (Raise e, w') ->
        get_media_creation_date E media_path w = (Ok None, log_error e w))
  /\ (forall r w', get_media_creation_date_try E media_path w = (Ok r, w') ->
        get_media_creation_date E media_path w = (Ok r, w))
  /\ (env_dates_ok E ->
      forall d w', get_media_creation_date E media_path w = (Ok (Some d), w') ->
        datetime_ok d).
Proof.
  pose proof (get_media_creation_date_try_frame E media_path w) as Hf.
  unfold get_media_creation_date, try_except.
  destruct (get_media_creation_date_try E media_path w) as [[r|e] w1] eqn:Et;
    simpl in Hf; subst w1; run.
  - split; [by eexists|]. split; [done|]. split; [by intros ? ? [= <- <-]|].
    intros HE d w' [= -> <-]. eapply get_media_creation_date_try_ok; eauto.
  - split; [by eexists|]. split; [by intros ? ? [= <- <-]|]. split; [done|].
    intros _ d w'. unfold log_error. run. done.
Qed.

Local Close Scope Z_scope.

(** * Paths and directories *)

Lemma rfind1_app_sep (c : char) (a b : str) :
  ~ In c b -> Str.rfind1 c (a ++ c :: b) = S (length a).
Proof.
  intros Hb. apply rfind1_zero_notin in Hb.
  induction a as [|x a IH]; simpl.
  - by rewrite Hb, N.eqb_refl.
  - by rewrite IH.
Qed.

Lemma rstrip_app_sep (c : char) (s : str) : Str.rstrip c (s ++ [c]) = Str.rstrip c s.
Proof.
  induction s as [|x s IH]; simpl.
  - by rewrite N.eqb_refl.
  - by rewrite IH.
Qed.

Lemma rstrip_app_other (c x : char) (s : str) :
  x <> c -> Str.rstrip c (s ++ [x]) = s ++ [x].
Proof.
  intros Hx. induction s as [|y s IH]; simpl.
  - apply N.eqb_neq in Hx. by rewrite Hx.
  - rewrite IH. by destruct s.
Qed.

(** A string is made of separators only, or it is a string that ends
    with another character followed by separators. *)
Lemma rstrip_cases (c : char) (s : str) :
  (forallb (N.eqb c) s = true /\ Str.rstrip c s = [])
  \/ (exists a x, x <> c /\ Str.rstrip c s = a ++ [x] /\ forallb (N.eqb c) s = false).
Proof.
  induction s as [|y s IH] using rev_ind.
  - by left.
  - destruct (N.eqb_spec c y) as [<-|Hy].
    + rewrite rstrip_app_sep, forallb_app. simpl. rewrite N.eqb_refl, !andb_true_r.
      exact IH.
    + right. exists s, y. split; [congruence|]. split.
      * apply rstrip_app_other. congruence.
      * rewrite forallb_app. simpl. apply N.eqb_neq in Hy. rewrite Hy.
        by rewrite andb_false_r.
Qed.

Lemma forallb_sep_app_other (c x : char) (a : str) :
  x <> c -> forallb (N.eqb c) (a ++ [x]) = false.
Proof.
  intros Hx. rewrite forallb_app. simpl.
  assert (N.eqb c x = false) as -> by (apply N.eqb_neq; congruence).
  by rewrite andb_false_r.
Qed.

Lemma dir_key_idem (d : str) : d <> [] -> Os.dir_key (Os.dir_key d) = Os.dir_key d.
Proof.
  intros Hd.
  assert (E : Str.eqb d [] = false).
  { destruct (Str.eqb d []) eqn:E; [by apply str_eqb_eq in E|done]. }
  destruct (rstrip_cases PosixPath.sep d) as [[Ha Hr]|(a & x & Hx & Hr & Ha)].
  - assert (Os.dir_key d = [PosixPath.sep]) as -> by (unfold Os.dir_key; by rewrite E, Ha).
    reflexivity.
  - assert (Os.dir_key d = a ++ [x]) as -> by (unfold Os.dir_key; by rewrite E, Ha, Hr).
    unfold Os.dir_key.
    destruct (Str.eqb (a ++ [x]) []) eqn:E'; [apply str_eqb_eq in E'; by destruct a|].
    by rewrite forallb_sep_app_other, rstrip_app_other.
Qed.

Lemma split_head_key (h : str) :
  Os.dir_key
    (if negb (Str.eqb h []) && negb (forallb (N.eqb PosixPath.sep) h)
     then Str.rstrip PosixPath.sep h else h)
  = Os.dir_key h.
Proof.
  destruct (Str.eqb h []) eqn:E; [reflexivity|]. simpl.
  assert (Hh : h <> []) by (intros ->; by rewrite str_eqb_refl in E).
  destruct (forallb (N.eqb PosixPath.sep) h) eqn:Ha; [reflexivity|]. simpl.
  rewrite <- (dir_key_idem h Hh). f_equal.
  unfold Os.dir_key. by rewrite E, Ha.
Qed.

Lemma endswith_unfold (c : char) (d : str) :
  Str.endswith [c] d = match rev d with x :: _ => N.eqb c x | [] => false end.
Proof.
  unfold Str.endswith. cbn [rev app Str.startswith].
  destruct (rev d); [done|]. cbn [Str.startswith]. by rewrite andb_true_r.
Qed.

Lemma endswith_sep (d : str) :
  Str.endswith [PosixPath.sep] d = true -> exists d', d = d' ++ [PosixPath.sep].
Proof.
  rewrite endswith_unfold.
  destruct (rev d) as [|x r] eqn:E; [discriminate|].
  intros Hx. apply N.eqb_eq in Hx. subst x.
  exists (rev r). rewrite <- (rev_involutive d), E. reflexivity.
Qed.

Lemma endswith_other (d : str) :
  d <> [] -> Str.endswith [PosixPath.sep] d = false ->
  exists d' x, d = d' ++ [x] /\ x <> PosixPath.sep.
Proof.
  rewrite endswith_unfold. intros Hd.
  destruct (rev d) as [|x r] eqn:E.
  - apply (f_equal (@rev char)) in E. rewrite rev_involutive in E. done.
  - intros Hx. apply N.eqb_neq in Hx.
    exists (rev r), x. split; [|congruence]. rewrite <- (rev_involutive d), E. reflexivity.
Qed.

(** The entry [name] of the directory [d] is where [os.path.join(d, name)]
    leads. *)
Lemma locate_join (d name : str) :
  ~ In PosixPath.sep name ->
  Os.locate (PosixPath.join d name) = (Os.dir_key d, name).
Proof.
  intros Hn. unfold PosixPath.join.
  assert (Str.startswith [PosixPath.sep] name = false) as ->.
  { destruct name as [|x name]; [done|]. simpl. rewrite andb_true_r.
    apply N.eqb_neq. intros <-. apply Hn. by left. }
  unfold Os.locate.
  destruct (Str.eqb d []) eqn:Ed.
  - apply str_eqb_eq in Ed. subst d. cbn [orb app]. by rewrite split_no_sep.
  - cbn [orb]. assert (Hd : d <> []) by (intros ->; by rewrite str_eqb_refl in Ed).
    destruct (Str.endswith [PosixPath.sep] d) eqn:Ee.
    + destruct (endswith_sep _ Ee) as [d' ->].
      unfold PosixPath.split. rewrite <- app_assoc. cbn [app].
      rewrite rfind1_app_sep by done.
      replace (S (length d')) with (length (d' ++ [PosixPath.sep]))
        by (rewrite length_app; simpl; lia).
      rewrite (app_assoc d' [PosixPath.sep] name : d' ++ PosixPath.sep :: name = _).
      rewrite firstn_app, firstn_all, Nat.sub_diag, skipn_app, skipn_all, Nat.sub_diag.
      simpl firstn. simpl skipn. rewrite app_nil_r. simpl app.
      by rewrite split_head_key.
    + destruct (endswith_other _ Hd Ee) as (d' & x & -> & Hx).
      unfold PosixPath.split. rewrite <- app_assoc. cbn [app].
      rewrite (app_assoc d' [x] (PosixPath.sep :: name) : d' ++ x :: _ = _).
      rewrite rfind1_app_sep by done.
      replace (S (length (d' ++ [x]))) with (length ((d' ++ [x]) ++ [PosixPath.sep]))
        by (rewrite !length_app; simpl; lia).
      rewrite (app_assoc (d' ++ [x]) [PosixPath.sep] name
               : (d' ++ [x]) ++ PosixPath.sep :: name = _).
      rewrite firstn_app, firstn_all, Nat.sub_diag, skipn_app, skipn_all, Nat.sub_diag.
      simpl firstn. simpl skipn. rewrite app_nil_r. simpl app.
      rewrite split_head_key. f_equal.
      unfold Os.dir_key.
      destruct (Str.eqb ((d' ++ [x]) ++ [PosixPath.sep]) []) eqn:E1;
        [apply str_eqb_eq in E1; by destruct d'|].
      destruct (Str.eqb (d' ++ [x]) []) eqn:E2;
        [apply str_eqb_eq in E2; by destruct d'|].
      rewrite (forallb_app _ (d' ++ [x])), !forallb_sep_app_other by done. simpl.
      by rewrite rstrip_app_sep.
Qed.

Lemma join_nonempty (d name : str) : name <> [] -> PosixPath.join d name <> [].
Proof.
  intros Hn. unfold PosixPath.join.
  destruct (Str.startswith _ name); [done|].
  destruct (_ || _); intros H; apply app_eq_nil in H as [_ H]; [done|].
  discriminate.
Qed.

(** * File systems that only grow *)

Lemma fs_le_refl (f : fs) : fs_le f f.
Proof. intros k x H. by exists x. Qed.

Lemma fs_le_trans (f1 f2 f3 : fs) : fs_le f1 f2 -> fs_le f2 f3 -> fs_le f1 f3.
Proof.
  intros H12 H23 k x H. destruct (H12 _ _ H) as (x2 & H2 & S2).
  destruct (H23 _ _ H2) as (x3 & H3 & S3). exists x3. split; [done|].
  by transitivity (dir_entries x2).
Qed.

Lemma fs_le_stat (f f' : fs) (q : str) (nd : node) :
  fs_le f f' -> Os.stat f q = Some nd -> Os.stat f' q = Some nd.
Proof.
  intros Hle. unfold Os.stat.
  destruct (Str.eqb q []); [done|].
  destruct (Os.locate q) as [k t].
  destruct (Str.eqb t []).
  - destruct (f !! k) as [x|] eqn:E; [|done]. simpl. intros <-.
    destruct (Hle _ _ E) as (x' & -> & _). done.
  - destruct (f !! k) as [x|] eqn:E; [|done]. simpl. intros Ht.
    destruct (Hle _ _ E) as (x' & -> & Hs). simpl.
    by apply (lookup_weaken _ _ _ _ Ht Hs).
Qed.

Lemma fs_le_write (f : fs) (k t : str) (x : dir) (b : list Byte.byte) :
  f !! k = Some x -> dir_entries x !! t = None ->
  fs_le f (Os.write_file f k t x b).
Proof.
  intros Hk Ht k' x' H'. unfold Os.write_file.
  destruct (decide (k = k')) as [<-|Hne].
  - rewrite lookup_insert_eq. eexists. split; [done|]. simpl.
    assert (x' = x) as -> by congruence. by apply insert_subseteq.
  - rewrite lookup_insert_ne by done. by exists x'.
Qed.

Lemma existsb_names {V} (P : str -> bool) (m : gmap str V) :
  existsb P (map fst (map_to_list m)) = true <->
  exists k v, m !! k = Some v /\ P k = true.
Proof.
  rewrite existsb_exists. split.
  - intros (k & Hin & HP). apply in_map_iff in Hin as ([k' v] & <- & Hin).
    exists k', v. split; [|done]. apply elem_of_map_to_list. by apply list_elem_of_In.
  - intros (k & v & Hk & HP). exists k. split; [|done].
    apply in_map_iff. exists (k, v). split; [done|].
    apply list_elem_of_In. by apply elem_of_map_to_list.
Qed.

(** * The duplicate detector *)

Lemma filename_has_match_frame (d name : str) (w : world) :
  snd (filename_has_match d name w) = w.
Proof.
  unfold filename_has_match. run. unfold Os.listdir.
  destruct (Str.eqb d []); [done|]. by destruct (w_fs w !! Os.dir_key d).
Qed.

(** A match found in [w] is found in every world whose file system has
    grown from that of [w]. *)
Lemma filename_has_match_mono (d name : str) (w w2 : world) :
  fs_le (w_fs w) (w_fs w2) ->
  fst (filename_has_match d name w) = Ok true ->
  filename_has_match d name w2 = (Ok true, w2).
Proof.
  intros Hle. unfold filename_has_match. run. unfold Os.listdir.
  destruct (Str.eqb d []); [done|].
  destruct (w_fs w !! Os.dir_key d) as [x|] eqn:E; [|done].
  destruct (Hle _ _ E) as (x' & -> & Hs). run.
  intros [= H]. f_equal. f_equal.
  apply existsb_names in H as (k & v & Hk & HP).
  apply existsb_names. exists k, v. split; [|done].
  by apply (lookup_weaken _ _ _ _ Hk Hs).
Qed.

(** * The copy *)

Lemma str_eqb_false (a b : str) : a <> b -> Str.eqb a b = false.
Proof. intros H. destruct (Str.eqb a b) eqn:E; [|done]. by apply str_eqb_eq in E. Qed.

Lemma stat_nonempty (f : fs) (p : str) (nd : node) : Os.stat f p = Some nd -> p <> [].
Proof. intros H ->. discriminate. Qed.

(** The node at a path depends on its directory and its entry name
    only. *)
Lemma stat_locate (f : fs) (p q : str) :
  p <> [] -> q <> [] -> Os.locate p = Os.locate q -> Os.stat f p = Os.stat f q.
Proof. intros Hp Hq H. unfold Os.stat. by rewrite !str_eqb_false, H by done. Qed.

(** A file is an entry with a name. *)
Lemma stat_file_name (f : fs) (p : str) (b : list Byte.byte) :
  Os.stat f p = Some (File b) -> snd (Os.locate p) <> [].
Proof.
  unfold Os.stat. destruct (Str.eqb p []); [done|].
  destruct (Os.locate p) as [k t]. simpl.
  destruct (Str.eqb t []) eqn:E.
  - by destruct (f !! k).
  - intros _ ->. by rewrite str_eqb_refl in E.
Qed.

Lemma locate_name_nonempty (p : str) : snd (Os.locate p) <> [] -> p <> [].
Proof. intros H ->. by apply H. Qed.

(** A path that ends with a name is stored under itself. *)
Lemma dir_key_named (p : str) : snd (Os.locate p) <> [] -> Os.dir_key p = p.
Proof.
  unfold Os.locate. destruct (PosixPath.split p) as [h t] eqn:E. simpl. intros Ht.
  pose proof (split_tail_no_sep _ _ _ E) as Hn.
  assert (Hp : exists a, p = a ++ t).
  { revert E. unfold PosixPath.split. intros [= _ <-]. eexists. symmetry.
    apply firstn_skipn. }
  destruct Hp as [a ->].
  destruct (exists_last Ht) as (t' & x & ->).
  assert (Hx : x <> PosixPath.sep).
  { intros ->. apply Hn, in_or_app. right. by left. }
  rewrite app_assoc. unfold Os.dir_key.
  rewrite str_eqb_false by (by destruct (a ++ t')).
  by rewrite forallb_sep_app_other, rstrip_app_other.
Qed.

(** Two paths of which the first names a file and the second ends with
    a name are the same file when they lead to the same entry. *)
Lemma samefile_entries (f : fs) (src dst : str) (b : list Byte.byte) :
  Os.stat f src = Some (File b) -> snd (Os.locate dst) <> [] ->
  Os.samefile f src dst = bool_decide (Os.locate src = Os.locate dst).
Proof.
  intros Hs Ht. unfold Os.samefile.
  rewrite (dir_key_named src) by by eapply stat_file_name.
  rewrite (dir_key_named dst) by done.
  destruct (bool_decide (Os.locate src = Os.locate dst)) eqn:E;
    [|by rewrite andb_false_r].
  apply bool_decide_eq_true in E.
  rewrite <- (stat_locate f src dst)
    by first [done | by eapply stat_nonempty | by apply locate_name_nonempty].
  rewrite Hs. by rewrite !bool_decide_eq_true_2 by by eexists.
Qed.

(** What a call of [copy2] that returns has done. *)
Lemma copy2_ok (src dst : str) (w w' : world) :
  Os.copy2 src dst w = (Ok tt, w') ->
  exists bytes dst' k t x,
    Os.stat (w_fs w) src = Some (File bytes) /\
    dst' = (if Os.isdir (w_fs w) dst
            then PosixPath.join dst (PosixPath.basename src) else dst) /\
    Os.locate dst' = (k, t) /\ t <> [] /\ w_fs w !! k = Some x /\
    Os.locate src <> Os.locate dst' /\
    dir_entries x !! t <> Some Directory /\
    w' = mk_world (Os.write_file (w_fs w) k t x bytes) (w_stdout w)
           (w_copies w ++ [(src, dst')]).
Proof.
  unfold Os.copy2.
  set (dst' := if Os.isdir (w_fs w) dst
               then PosixPath.join dst (PosixPath.basename src) else dst).
  destruct (Os.samefile (w_fs w) src dst') eqn:Hsame; [done|].
  unfold Os.open_rb.
  destruct (Os.stat (w_fs w) src) as [[bytes|]|] eqn:Hsrc; [|done..].
  destruct (Os.open_wb (w_fs w) dst') as [[[k t] x]|e] eqn:Hopen;
    [|by destruct (_ && _)].
  intros [= <-]. revert Hopen. unfold Os.open_wb.
  destruct (Str.eqb dst' []); [done|].
  destruct (Os.locate dst') as [k' t'] eqn:El.
  destruct (w_fs w !! k') as [x'|] eqn:Ek; [|by destruct (_ && _)].
  destruct (Str.eqb t' []) eqn:Et; [done|].
  assert (Ht : t' <> []) by (intros ->; by rewrite str_eqb_refl in Et).
  assert (Hne : Os.locate src <> (k', t')).
  { rewrite (samefile_entries _ _ _ bytes) in Hsame by (done || by rewrite El).
    apply bool_decide_eq_false in Hsame. by rewrite El in Hsame. }
  destruct (dir_entries x' !! t') as [[b0|]|] eqn:Ee;
    [|done|destruct (dir_writable x'); [|done]];
    intros [= <- <- <-]; exists bytes, dst', k', t', x';
    repeat split; try done; try (by rewrite Ee); congruence.
Qed.

(** A call of [copy2] that raises has changed nothing. *)
Lemma copy2_raise (src dst : str) (w w' : world) (e : exn) :
  Os.copy2 src dst w = (Raise e, w') -> w' = w.
Proof.
  unfold Os.copy2.
  destruct (Os.samefile _ _ _); [by intros [= _ <-]|].
  destruct (Os.open_rb _ _); [|by intros [= _ <-]].
  destruct (Os.open_wb _ _) as [[[k t] x]|e']; [done|].
  destruct (_ && _); by intros [= _ <-].
Qed.


Lemma unreachable_class (f : fs) (p : str) :
  exn_class (Os.unreachable f p) = lit "NotADirectoryError"
  \/ exn_class (Os.unreachable f p) = lit "FileNotFoundError".
Proof. unfold Os.unreachable. destruct (Os.through_file _ _ _); [by left|by right]. Qed.

(** [copy2] into a directory that does not exist raises what the system
    answers for the path of the copy. *)
Lemma copy2_unreachable (src dst k t : str) (bytes : list Byte.byte) (w : world) :
  Os.stat (w_fs w) src = Some (File bytes) ->
  Os.locate dst = (k, t) -> t <> [] -> w_fs w !! k = None ->
  Os.copy2 src dst w = (Raise (Os.unreachable (w_fs w) dst), w).
Proof.
  intros Hsrc El Ht Hk.
  assert (Hd : dst <> []) by (apply locate_name_nonempty; by rewrite El).
  assert (Hdst : Os.stat (w_fs w) dst = None).
  { unfold Os.stat. by rewrite str_eqb_false, El, str_eqb_false, Hk by done. }
  unfold Os.copy2, Os.isdir. rewrite Hdst.
  unfold Os.samefile. rewrite Hdst.
  rewrite (bool_decide_eq_false_2 (is_Some None)) by (by intros [? ?]).
  rewrite andb_false_r. cbn [andb negb].
  unfold Os.open_rb. rewrite Hsrc.
  unfold Os.open_wb. rewrite str_eqb_false, El, Hk, str_eqb_false by done.
  cbn [andb].
  destruct (unreachable_class (w_fs w) dst) as [-> | ->]; reflexivity.
Qed.

(** [copy2] of a file onto itself raises [SameFileError]. *)
Lemma copy2_same (src dst : str) (b b' : list Byte.byte) (w : world) :
  Os.stat (w_fs w) src = Some (File b) -> Os.stat (w_fs w) dst = Some (File b') ->
  Os.locate src = Os.locate dst ->
  Os.copy2 src dst w = (Raise (Os.SameFileError src dst), w).
Proof.
  intros Hsrc Hdst Hl. unfold Os.copy2, Os.isdir. rewrite Hdst.
  rewrite (samefile_entries _ _ _ b) by (done || by eapply stat_file_name).
  by rewrite bool_decide_eq_true_2.
Qed.

(** [copy2] to a path where nothing exists either raises and changes
    nothing, or adds one file there and nothing else. *)
Lemma copy2_fresh (src dst : str) (w : world) :
  Os.stat (w_fs w) dst = None ->
  (exists e, Os.copy2 src dst w = (Raise e, w))
  \/ (exists w', Os.copy2 src dst w = (Ok tt, w') /\
        fs_le (w_fs w) (w_fs w') /\ is_Some (Os.stat (w_fs w') dst) /\
        w_stdout w' = w_stdout w /\ w_copies w' = w_copies w ++ [(src, dst)]).
Proof.
  intros Hdst.
  destruct (Os.copy2 src dst w) as [[[]|e] w'] eqn:Hc.
  - right. exists w'. split; [done|].
    destruct (copy2_ok _ _ _ _ Hc)
      as (bytes & dst' & k & t & x & Hsrc & Hd' & El & Ht & Hk & _ & _ & ->).
    unfold Os.isdir in Hd'. rewrite Hdst in Hd'. subst dst'.
    assert (Hd : dst <> []) by (apply locate_name_nonempty; by rewrite El).
    assert (Hent : dir_entries x !! t = None).
    { unfold Os.stat in Hdst.
      rewrite str_eqb_false, El, str_eqb_false, Hk in Hdst by done. exact Hdst. }
    cbn [w_fs w_stdout w_copies].
    split; [by apply fs_le_write|]. split; [|done].
    unfold Os.stat. rewrite str_eqb_false, El, str_eqb_false by done.
    unfold Os.write_file. rewrite lookup_insert_eq. simpl.
    rewrite lookup_insert_eq. by eexists.
  - left. exists e. by rewrite (copy2_raise _ _ _ _ _ Hc).
Qed.

(** * The copy orchestrator *)

(** [save_media_with_datetime] on a file with a time, step by step. *)
Lemma save_eq (p : str) (d : datetime) (dest : option str) (n : Z)
    (sim force : bool) (w : world) :
  save_media_with_datetime p (Some d) dest n sim force w =
  match adjust d n with
  | Raise e => (Raise e, w)
  | Ok a =>
      let np := new_path_of p dest a in
      match (if negb force then
               if bool_decide (is_Some (Os.stat (w_fs w) np)) then (Ok true, w)
               else filename_has_match (target_dir_of p dest) (sanitized_new_filename p a) w
             else (Ok false, w)) with
      | (Raise e, w1) => (Raise e, w1)
      | (Ok true, w1) => (Ok false, w1)
      | (Ok false, w1) =>
          if negb sim then
            match Os.copy2 p np w1 with
            | (Ok _, w2) => (Ok true, printed w2 (copied_line p np))
            | (Raise e, w2) => (Raise e, w2)
            end
          else (Ok true, printed w1 (simulated_line p np))
      end
  end.
Proof.
  unfold save_media_with_datetime. run.
  destruct (adjust d n) as [a|e]; [|done]. cbv zeta. fold (new_path_of p dest a). run.
  destruct (negb force); run.
  - unfold Os.path_exists at 1. run.
    destruct (bool_decide _); run.
    + reflexivity.
    + destruct (filename_has_match _ _ w) as [[[|]|e] w1]; run; try reflexivity.
      destruct (negb sim); run; [|reflexivity].
      by destruct (Os.copy2 _ _ w1) as [[[]|e] w2]; run.
  - destruct (negb sim); run; [|reflexivity].
    by destruct (Os.copy2 _ _ w) as [[[]|e] w2]; run.
Qed.

Lemma save_none (p : str) (dest : option str) (n : Z) (sim force : bool) (w : world) :
  save_media_with_datetime p None dest n sim force w
  = (Ok false,
     printed w (p ++ lit " - File does not contain creation date in metadata.")).
Proof. reflexivity. Qed.

(** C1: without [force], when a file exists at the target path the call
    returns [False] and leaves the world as it is; and whatever the call
    does, every node of the file system stays as it was and every copy it
    makes goes to a path where nothing existed. *)
Theorem C1_never_overwrites (original_path : str) (destination_dir : option str)
    (adjust_hours : Z) (simulate : bool) (w : world) :
  (forall d a,
     adjust d adjust_hours = Ok a ->
     is_Some (Os.stat (w_fs w) (new_path_of original_path destination_dir a)) ->
     save_media_with_datetime original_path (Some d) destination_dir adjust_hours
       simulate false w = (Ok false, w))
  /\ (forall media_creation_date r w',
        save_media_with_datetime original_path media_creation_date destination_dir
          adjust_hours simulate false w = (r, w') ->
        (forall q nd, Os.stat (w_fs w) q = Some nd -> Os.stat (w_fs w') q = Some nd)
        /\ (forall src dst, In (src, dst) (w_copies w') ->
              In (src, dst) (w_copies w) \/ Os.stat (w_fs w) dst = None)).
Proof.
  split.
  - intros d a Ha Hex. rewrite save_eq, Ha. cbv zeta. cbn [negb].
    by rewrite bool_decide_eq_true_2.
  - intros [d|] r w'; [|rewrite save_none; intros [= <- <-]; simpl; auto].
    rewrite save_eq. destruct (adjust d adjust_hours) as [a|e]; [|intros [= <- <-]; auto].
    cbv zeta. cbn [negb].
    destruct (bool_decide (is_Some _)) eqn:Hex; [intros [= <- <-]; auto|].
    apply bool_decide_eq_false in Hex.
    assert (Hnone : Os.stat (w_fs w) (new_path_of original_path destination_dir a) = None)
      by (destruct (Os.stat _ _); [exfalso; apply Hex; by eexists|done]).
    pose proof (filename_has_match_frame (target_dir_of original_path destination_dir)
                  (sanitized_new_filename original_path a) w) as Hf.
    destruct (filename_has_match _ _ w) as [[[|]|e] w1]; simpl in Hf; subst w1;
      try (intros [= <- <-]; auto).
    destruct simulate; cbn [negb]; [intros [= <- <-]; simpl; auto|].
    destruct (copy2_fresh original_path _ w Hnone) as [[e ->]|(w2 & -> & Hle & _ & _ & Hc)].
    + intros [= <- <-]. auto.
    + intros [= <- <-]. simpl. split.
      * intros q nd. by apply fs_le_stat.
      * intros src dst. rewrite Hc, in_app_iff. simpl.
        intros [?|[[= <- <-]|[]]]; auto.
Qed.

Local Open Scope Z_scope.

Lemma save_output (p : str) (md : option datetime) (dest : option str) (n : Z)
    (sim force saved : bool) (w w' : world) :
  save_media_with_datetime p md dest n sim force w = (Ok saved, w') ->
  match outcome_of md sim saved with
  | Copied => exists np, w_stdout w' = w_stdout w ++ [copied_line p np]
  | SimulatedCopy => exists np, w_stdout w' = w_stdout w ++ [simulated_line p np]
  | SkippedDuplicate => w_stdout w' = w_stdout w
  | SkippedNoDate =>
      w_stdout w' = w_stdout w
                    ++ [p ++ lit " - File does not contain creation date in metadata."]
  end.
Proof.
  destruct md as [d|]; [|rewrite save_none; by intros [= <- <-]].
  rewrite save_eq. destruct (adjust d n) as [a|e]; [|done]. cbv zeta.
  set (np := new_path_of p dest a).
  assert (Hskip : forall b w1,
    (if negb force then
       if bool_decide (is_Some (Os.stat (w_fs w) np)) then (Ok true, w)
       else filename_has_match (target_dir_of p dest) (sanitized_new_filename p a) w
     else (Ok false, w)) = (Ok b, w1) -> w1 = w).
  { intros b w1. destruct (negb force); [|by intros [= _ <-]].
    destruct (bool_decide _); [by intros [= _ <-]|].
    intros H. pose proof (filename_has_match_frame (target_dir_of p dest)
                            (sanitized_new_filename p a) w) as Hf.
    rewrite H in Hf. done. }
  destruct (if negb force then _ else _) as [[[|]|e] w1] eqn:Hs; [| |done].
  - rewrite (Hskip _ _ eq_refl). by intros [= <- <-].
  - rewrite (Hskip _ _ eq_refl). destruct sim; cbn [negb].
    + intros [= <- <-]. simpl. by eexists.
    + destruct (Os.copy2 p np w) as [[[]|e] w2] eqn:Hc; [|done].
      intros [= <- <-]. simpl. exists np.
      assert (w_stdout w2 = w_stdout w) as ->; [|done].
      revert Hc. unfold Os.copy2.
      repeat match goal with
             | |- context [match ?x with _ => _ end] => destruct x
             | |- context [if ?x then _ else _] => destruct x
             end; intros [= <-]; done.
Qed.

(** C4, amended: a copy, a simulated copy and a file without a time are
    each reported by one line; a file skipped as a duplicate is reported
    by no line. This holds for [save_media_with_datetime] and for the loop
    body of [process_media], where the line for a file without a time
    follows whatever the extractor printed. *)
Theorem C4_outcome_lines (E : Env) (p : str) (dest : option str) (n : Z)
    (sim force : bool) (w : world) :
  (forall md saved w',
     save_media_with_datetime p md dest n sim force w = (Ok saved, w') ->
     match outcome_of md sim saved with
     | Copied => exists np, w_stdout w' = w_stdout w ++ [copied_line p np]
     | SimulatedCopy => exists np, w_stdout w' = w_stdout w ++ [simulated_line p np]
     | SkippedDuplicate => w_stdout w' = w_stdout w
     | SkippedNoDate =>
         w_stdout w' = w_stdout w
                       ++ [p ++ lit " - File does not contain creation date in metadata."]
     end)
  /\ (forall c c' w',
        process_one E p dest n sim force c w = (Ok c', w') ->
        exists md w1, get_media_creation_date E p w = (Ok md, w1) /\
          match md with
          | None => w_stdout w' = w_stdout w1 ++ [no_date_line p]
          | Some _ =>
              exists saved : bool,
                total_media_processed c'
                = total_media_processed c + (if saved then 1 else 0)
                /\ match outcome_of md sim saved with
                   | Copied => exists np, w_stdout w' = w_stdout w1 ++ [copied_line p np]
                   | SimulatedCopy =>
                       exists np, w_stdout w' = w_stdout w1 ++ [simulated_line p np]
                   | _ => w_stdout w' = w_stdout w1
                   end
          end).
Proof.
  split; [intros md saved w'; apply save_output|].
  intros c c' w'. unfold process_one. run.
  destruct (get_media_creation_date E p w) as [[md|e] w1] eqn:Hget.
  2: { destruct (get_media_creation_date_total E p w) as [r Hr]. congruence. }
  exists md, w1. split; [done|].
  match goal with H : _ = (Ok c', w') |- _ => revert H end.
  destruct md as [d|]; run.
  - destruct (save_media_with_datetime p (Some d) dest n sim force w1)
      as [[saved|e] w2] eqn:Hsave; cbv beta iota; [|done].
    pose proof (save_output _ _ _ _ _ _ _ _ _ Hsave) as Hout.
    destruct saved; run; intros [= <- <-]; simpl.
    + exists true. split; [done|]. simpl in Hout. by destruct sim.
    + exists false. split; [lia|]. exact Hout.
  - intros [= <- <-]. done.
Qed.

(** * Renaming in place *)

(** C10: in place and without [force], a file whose name has none of the
    sanitized characters is to be skipped; with a time that has
    microseconds it is not: the copy is made, because the prefix written
    for that time is not one that the pattern recognises. *)
Theorem C10_copies_in_place_with_microseconds :
  clean (without_timestamp (lit "clip.mp4")) = true
  /\ w_copies (snd (save_media_with_datetime (lit "clip.mp4") (Some t_clip) None 0
                      false false w_clip))
     = [(lit "clip.mp4", lit "./2023-05-10T14-30-00.500000_clip.mp4")].
Proof. vm_compute. split; reflexivity. Qed.

(** A file that exists is listed in its own directory, which is the
    target directory when no destination is given. *)
Lemma source_in_target_dir (p : str) (bytes : list Byte.byte) (f : fs) :
  Os.stat f p = Some (File bytes) ->
  Str.eqb (target_dir_of p None) [] = false /\
  exists x, f !! Os.dir_key (target_dir_of p None) = Some x /\
            dir_entries x !! snd (PosixPath.split p) = Some (File bytes).
Proof.
  unfold Os.stat, Os.locate, target_dir_of.
  destruct (Str.eqb p []); [done|].
  destruct (PosixPath.split p) as [h t]. cbn [snd].
  destruct (Str.eqb t []).
  { destruct (f !! Os.dir_key h); simpl; intros; discriminate. }
  destruct (f !! Os.dir_key h) as [x|] eqn:Ek; [|done]. simpl. intros Ht.
  destruct (Str.eqb h []) eqn:Eh.
  - apply str_eqb_eq in Eh. subst h. split; [done|]. exists x. split; [exact Ek|done].
  - split; [done|]. by exists x.
Qed.

(** In place and without [force], a file that exists, whose name after
    its own prefix has none of the sanitized characters, and whose time has
    whole seconds, is never copied: the call returns [False], or raises
    when the adjusted time overflows, and leaves the world as it is. *)
Lemma in_place_skips (original_path : str) (bytes : list Byte.byte)
    (d : datetime) (adjust_hours : Z) (simulate : bool) (w : world) :
  datetime_ok d -> microsecond d = 0 ->
  Os.stat (w_fs w) original_path = Some (File bytes) ->
  clean (without_timestamp (snd (PosixPath.split original_path))) = true ->
  save_media_with_datetime original_path (Some d) None adjust_hours simulate false w
  = (match adjust d adjust_hours with Ok _ => Ok false | Raise e => Raise e end, w).
Proof.
  intros Hok Hus Hsrc Hclean. rewrite save_eq.
  destruct (adjust d adjust_hours) as [a|e] eqn:Ea; [|done].
  destruct (adjust_ok _ _ _ Hok Ea) as (_ & Hoka & Husa).
  cbv zeta. cbn [negb].
  destruct (bool_decide _); [done|].
  destruct (source_in_target_dir _ _ _ Hsrc) as (Hdir & x & Hx & Hent).
  unfold filename_has_match. run. unfold Os.listdir. rewrite Hdir, Hx. run.
  assert (Hmatch : existsb
            (fun file => Str.eqb (without_timestamp (sanitized_new_filename original_path a))
                           (without_timestamp file))
            (map fst (map_to_list (dir_entries x))) = true).
  { apply existsb_names. eexists _, _. split; [exact Hent|].
    rewrite derived_name_whole_seconds by (done || lia).
    rewrite without_timestamp_stamp by done.
    rewrite clean_sanitize by done. apply str_eqb_refl. }
  by rewrite Hmatch.
Qed.

(** * The batch driver *)

(** The loop body, step by step. *)
Lemma process_one_eq (E : Env) (f : str) (dest : option str) (n : Z)
    (sim force : bool) (c : counters) (w : world) :
  process_one E f dest n sim force c w =
  match get_media_creation_date E f w with
  | (Ok (Some d), w1) =>
      match save_media_with_datetime f (Some d) dest n sim force w1 with
      | (Ok true, w2) => (Ok (count_processed c), w2)
      | (Ok false, w2) => (Ok (count_requested c), w2)
      | (Raise e, w2) => (Raise e, w2)
      end
  | (Ok None, w1) => (Ok (count_no_date c), printed w1 (no_date_line f))
  | (Raise e, w1) => (Raise e, w1)
  end.
Proof.
  unfold process_one. run.
  destruct (get_media_creation_date E f w) as [[[d|]|e] w1]; run; try reflexivity.
  by destruct (save_media_with_datetime _ _ _ _ _ _ w1) as [[[|]|e] w2]; run.
Qed.

Lemma process_files_cons (E : Env) (f : str) (rest : list str) (dest : option str)
    (n : Z) (sim force : bool) (c : counters) (w : world) :
  process_files E (f :: rest) dest n sim force c w =
  match process_one E f dest n sim force c w with
  | (Ok c', w') => process_files E rest dest n sim force c' w'
  | (Raise e, w') => (Raise e, w')
  end.
Proof. reflexivity. Qed.




(** * Running the batch again *)

(** What the extractor returns depends on the node at the path only. *)
Lemma get_media_creation_date_same (E : Env) (p : str) (w w2 : world) :
  Os.stat (w_fs w) p = Os.stat (w_fs w2) p ->
  fst (get_media_creation_date E p w) = fst (get_media_creation_date E p w2).
Proof.
  intros Hs.
  assert (Ht : fst (get_media_creation_date_try E p w)
               = fst (get_media_creation_date_try E p w2)).
  { unfold get_media_creation_date_try.
    destruct (Str.endswith _ _); run; rewrite Hs.
    - destruct (createParser E p _) as [[ps|]|]; run; try done.
      destruct (extractMetadata E ps) as [[md|]|]; run; try done.
      destruct (metadata_get E md _) as [v|]; run; try done.
      destruct (negb (truthy v)); run; try done.
      destruct v; run; try done; by destruct (strptime E _ _).
    - destruct (Image_open E p _) as [im|]; run; try done.
      destruct (_getexif E im) as [[ex|]|]; run; try done.
      destruct (ex !! EXIF_DateTimeOriginal) as [v|]; run; try done.
      by destruct (strptime E _ _). }
  unfold get_media_creation_date, try_except.
  destruct (get_media_creation_date_try E p w) as [[r|e] w1],
           (get_media_creation_date_try E p w2) as [[r2|e2] w12];
    simpl in Ht; try discriminate; run; congruence.
Qed.

Lemma filename_has_match_ok_mono (d name : str) (w w2 : world) (b : bool) :
  fs_le (w_fs w) (w_fs w2) ->
  fst (filename_has_match d name w) = Ok b ->
  exists b2, filename_has_match d name w2 = (Ok b2, w2).
Proof.
  intros Hle. unfold filename_has_match. run. unfold Os.listdir.
  destruct (Str.eqb d []); [done|].
  destruct (w_fs w !! Os.dir_key d) as [x|] eqn:E; [|done].
  destruct (Hle _ _ E) as (x' & -> & Hs). run. by eexists.
Qed.

(** A call of the orchestrator that returns leaves a file system in which,
    and in any that grows from it, the same call returns again without
    copying: once without [simulate] it returns [False]. *)
Lemma save_later (p : str) (d : datetime) (dest : option str) (n : Z) (sim b : bool)
    (w w' : world) :
  save_media_with_datetime p (Some d) dest n sim false w = (Ok b, w') ->
  fs_le (w_fs w) (w_fs w') /\
  forall w2, fs_le (w_fs w') (w_fs w2) ->
    exists b2 w2',
      save_media_with_datetime p (Some d) dest n sim false w2 = (Ok b2, w2') /\
      w_fs w2' = w_fs w2 /\ w_copies w2' = w_copies w2 /\ (sim = false -> b2 = false).
Proof.
  rewrite save_eq. destruct (adjust d n) as [a|e] eqn:Ea; [|done]. cbv zeta. cbn [negb].
  set (np := new_path_of p dest a).
  set (dir := target_dir_of p dest). set (name := sanitized_new_filename p a).
  assert (Hlater : forall w2,
    is_Some (Os.stat (w_fs w2) np) ->
    exists b2 w2',
      save_media_with_datetime p (Some d) dest n sim false w2 = (Ok b2, w2') /\
      w_fs w2' = w_fs w2 /\ w_copies w2' = w_copies w2 /\ (sim = false -> b2 = false)).
  { intros w2 Hex. exists false, w2. rewrite save_eq, Ea. cbv zeta. cbn [negb].
    fold np. by rewrite bool_decide_eq_true_2. }
  destruct (bool_decide (is_Some (Os.stat (w_fs w) np))) eqn:Hex.
  { intros [= <- <-]. split; [apply fs_le_refl|]. intros w2 Hle. apply Hlater.
    apply bool_decide_eq_true in Hex as [nd Hnd]. exists nd. by eapply fs_le_stat. }
  apply bool_decide_eq_false in Hex.
  assert (Hnone : Os.stat (w_fs w) np = None)
    by (destruct (Os.stat _ _); [exfalso; apply Hex; by eexists|done]).
  pose proof (filename_has_match_frame dir name w) as Hf.
  destruct (filename_has_match dir name w) as [[[|]|e] w1] eqn:Hm; simpl in Hf; subst w1;
    [| |done].
  - intros [= <- <-]. split; [apply fs_le_refl|]. intros w2 Hle.
    destruct (decide (is_Some (Os.stat (w_fs w2) np))) as [Hex2|Hex2]; [by apply Hlater|].
    exists false, w2. rewrite save_eq, Ea. cbv zeta. cbn [negb]. fold np dir name.
    rewrite bool_decide_eq_false_2 by done.
    rewrite (filename_has_match_mono dir name w w2 Hle) by (by rewrite Hm). done.
  - assert (Hsim : forall w2, fs_le (w_fs w) (w_fs w2) -> sim = true ->
      exists b2 w2',
        save_media_with_datetime p (Some d) dest n sim false w2 = (Ok b2, w2') /\
        w_fs w2' = w_fs w2 /\ w_copies w2' = w_copies w2 /\ (sim = false -> b2 = false)).
    { intros w2 Hle ->.
      destruct (decide (is_Some (Os.stat (w_fs w2) np))) as [Hex2|Hex2]; [by apply Hlater|].
      destruct (filename_has_match_ok_mono dir name w w2 false Hle) as [b2 Hb2];
        [by rewrite Hm|].
      rewrite save_eq, Ea. cbv zeta. cbn [negb]. fold np dir name.
      rewrite bool_decide_eq_false_2 by done. rewrite Hb2.
      destruct b2; eexists _, _; (split; [reflexivity|]); simpl; done. }
    destruct sim; cbn [negb].
    + intros [= <- <-]. split; [apply fs_le_refl|]. intros w2 Hle. by apply Hsim.
    + destruct (copy2_fresh p np w Hnone) as [[e ->]|(wc & -> & Hle & Hex' & _ & _)];
        [done|].
      intros [= <- <-]. split; [exact Hle|]. intros w2 Hle2. apply Hlater.
      destruct Hex' as [nd Hnd]. exists nd. by eapply fs_le_stat.
Qed.

Lemma process_one_later (E : Env) (f : str) (dest : option str) (n : Z) (sim : bool)
    (c c' : counters) (w w' : world) :
  is_Some (Os.stat (w_fs w) f) ->
  process_one E f dest n sim false c w = (Ok c', w') ->
  fs_le (w_fs w) (w_fs w') /\
  forall w2, fs_le (w_fs w') (w_fs w2) -> quiet E dest n sim f w2.
Proof.
  intros [nd Hnd]. rewrite process_one_eq.
  destruct (get_media_creation_date_frame E f w) as [Hfs _].
  destruct (get_media_creation_date E f w) as [[md|e] w1] eqn:Hget; [|done].
  simpl in Hfs.
  assert (Hsame : forall w2, fs_le (w_fs w) (w_fs w2) ->
            exists w21, get_media_creation_date E f w2 = (Ok md, w21) /\
                        w_fs w21 = w_fs w2 /\ w_copies w21 = w_copies w2).
  { intros w2 Hle.
    pose proof (get_media_creation_date_same E f w w2) as Hs.
    rewrite Hnd, (fs_le_stat _ _ _ _ Hle Hnd), Hget in Hs. specialize (Hs eq_refl).
    destruct (get_media_creation_date_frame E f w2) as [Hfs2 Hc2].
    destruct (get_media_creation_date E f w2) as [r w21]. simpl in *. subst r.
    by exists w21. }
  destruct md as [d|].
  - destruct (save_media_with_datetime f (Some d) dest n sim false w1)
      as [[b|e] w1'] eqn:Hsave; [|by destruct e].
    destruct (save_later _ _ _ _ _ _ _ _ Hsave) as [Hle Hlater].
    rewrite Hfs in Hle.
    intros Hres. assert (w' = w1') as -> by (destruct b; by injection Hres).
    split; [exact Hle|]. intros w2 Hle2 c2.
    destruct (Hsame w2) as (w21 & Hget2 & Hfs2 & Hc2); [by eapply fs_le_trans|].
    destruct (Hlater w21) as (b2 & w2' & Hs2 & Hfs2' & Hc2' & _); [by rewrite Hfs2|].
    rewrite process_one_eq, Hget2, Hs2.
    destruct b2; eexists _, _; (split; [reflexivity|]); split; congruence.
  - intros [= <- <-]. simpl. rewrite Hfs. split; [apply fs_le_refl|].
    intros w2 Hle2 c2.
    destruct (Hsame w2 Hle2) as (w21 & Hget2 & Hfs2 & Hc2).
    rewrite process_one_eq, Hget2. eexists _, _. split; [reflexivity|]. simpl. done.
Qed.

Lemma process_files_later (E : Env) (files : list str) (dest : option str) (n : Z)
    (sim : bool) (c c' : counters) (w w' : world) :
  Forall (fun f => is_Some (Os.stat (w_fs w) f)) files ->
  process_files E files dest n sim false c w = (Ok c', w') ->
  fs_le (w_fs w) (w_fs w') /\
  forall f, In f files -> forall w2, fs_le (w_fs w') (w_fs w2) -> quiet E dest n sim f w2.
Proof.
  revert c w. induction files as [|f rest IH]; intros c w Hall.
  - intros [= <- <-]. split; [apply fs_le_refl|]. intros f [].
  - apply Forall_cons in Hall as [Hf Hrest].
    rewrite process_files_cons.
    destruct (process_one E f dest n sim false c w) as [[c1|e] w1] eqn:Hone; [|done].
    destruct (process_one_later _ _ _ _ _ _ _ _ _ Hf Hone) as [Hle1 Hq1].
    intros Hfiles.
    destruct (IH c1 w1) as [Hle2 Hq2]; [|exact Hfiles|].
    { eapply Forall_impl; [exact Hrest|]. intros g [nd Hg]. exists nd. by eapply fs_le_stat. }
    split; [by eapply fs_le_trans|].
    intros g [<-|Hin] w2 Hle.
    + apply Hq1. by eapply fs_le_trans.
    + by apply Hq2.
Qed.

Lemma process_files_quiet (E : Env) (files : list str) (dest : option str) (n : Z)
    (sim : bool) (f0 : fs) :
  (forall f, In f files -> forall w2, w_fs w2 = f0 -> quiet E dest n sim f w2) ->
  forall c w, w_fs w = f0 ->
    exists c' w', process_files E files dest n sim false c w = (Ok c', w') /\
                  w_fs w' = f0 /\ w_copies w' = w_copies w.
Proof.
  induction files as [|f rest IH]; intros Hq c w Hw.
  - exists c, w. done.
  - destruct (Hq f (or_introl eq_refl) w Hw c) as (c1 & w1 & Hone & Hfs1 & Hc1).
    destruct (IH (fun g Hg => Hq g (or_intror Hg)) c1 w1) as (c' & w' & Hp & Hfs & Hc);
      [congruence|].
    exists c', w'. rewrite process_files_cons, Hone. split; [done|]. split; congruence.
Qed.

(** C2: a second run with the same arguments is to copy nothing; here
    it copies: the pattern also matches the copy that the first run wrote,
    the time has microseconds, so the prefix of that copy is not one that
    the pattern recognises, and the second run copies the copy under a name
    with two timestamps. *)
Theorem C2_second_run_copies_again :
  let run := process_media Demo.env (lit "*/*.mp4") (Some (lit "out")) 0 false false in
  fst (run w_two_dirs) = Ok tt
  /\ w_copies (snd (run w_two_dirs))
     = [(lit "src/clip.mp4", lit "out/2023-05-10T14-30-00.500000_clip.mp4")]
  /\ fst (run (snd (run w_two_dirs))) = Ok tt
  /\ w_copies (snd (run (snd (run w_two_dirs))))
     = [(lit "src/clip.mp4", lit "out/2023-05-10T14-30-00.500000_clip.mp4");
        (lit "out/2023-05-10T14-30-00.500000_clip.mp4",
         lit "out/2023-05-10T14-30-00.500000_2023-05-10T14-30-00.500000_clip.mp4")].
Proof. vm_compute. repeat split; reflexivity. Qed.

(** After a first run that ended without exception, a second run with the
    same arguments and without [force] ends without exception and copies
    nothing, provided the pattern matches the same paths as in the first
    run (it does not match what the first run wrote) and every matched path
    existed. *)
Lemma second_run_copies_nothing (E : Env) (file_spec : str) (dest : option str)
    (n : Z) (sim : bool) (w0 w1 : world) :
  process_media E file_spec dest n sim false w0 = (Ok tt, w1) ->
  glob E (w_fs w1) file_spec = glob E (w_fs w0) file_spec ->
  Forall (fun p => is_Some (Os.stat (w_fs w0) p)) (glob E (w_fs w0) file_spec) ->
  exists w2,
    process_media E file_spec dest n sim false w1 = (Ok tt, w2) /\
    w_copies w2 = w_copies w1 /\ w_fs w2 = w_fs w1.
Proof.
  unfold process_media. intros Hrun Hglob Hall. rewrite Hglob.
  destruct (glob E (w_fs w0) file_spec) as [|f rest] eqn:Hg.
  { cbn [length Nat.eqb] in *. eexists. split; [reflexivity|]. done. }
  cbn [length Nat.eqb] in *. revert Hrun. run.
  destruct (process_files E (f :: rest) dest n sim false (mk_counters 0 0 0) w0)
    as [[c1|e] w1'] eqn:Hp; [|done].
  intros [= <-].
  destruct (process_files_later _ _ _ _ _ _ _ _ _ Hall Hp) as [_ Hq].
  assert (Hq' : forall g, In g (f :: rest) -> forall w2, w_fs w2 = w_fs w1' ->
                 quiet E dest n sim g w2).
  { intros g Hin w2 Hw2. apply Hq; [done|]. rewrite Hw2. apply fs_le_refl. }
  run.
  match goal with
  | |- context [process_files E (f :: rest) dest n sim false ?c0 ?W] =>
      destruct (process_files_quiet E (f :: rest) dest n sim (w_fs w1') Hq' c0 W)
        as (c2 & w2 & Hp2 & Hfs2 & Hc2); [done|]
  end.
  rewrite Hp2. eexists. split; [reflexivity|]. simpl. done.
Qed.

Local Close Scope Z_scope.

(** * Further properties of the file name deriver *)

Lemma sanitize_filename_map (filename : str) :
  sanitize_filename filename
  = map (fun c => if existsb (N.eqb c) invalid_chars then (ch "-") else c) filename.
Proof.
  unfold sanitize_filename, Re.sub_class.
  induction filename as [|c s IH]; [done|]. cbn [flat_map map]. rewrite IH.
  by destruct (existsb (N.eqb c) invalid_chars).
Qed.

Lemma sanitize_filename_length (filename : str) :
  length (sanitize_filename filename) = length filename.
Proof. by rewrite sanitize_filename_map, length_map. Qed.

(** X1: [sanitize_filename] replaces characters one for one: the result
    has the length of its argument, none of the nine characters, and is
    left as it is by a second pass. *)
Theorem X1_sanitize_filename_shape (filename : str) :
  sanitize_filename filename
    = map (fun c => if existsb (N.eqb c) invalid_chars then (ch "-") else c) filename
  /\ length (sanitize_filename filename) = length filename
  /\ clean (sanitize_filename filename) = true
  /\ sanitize_filename (sanitize_filename filename) = sanitize_filename filename.
Proof.
  split; [apply sanitize_filename_map|]. split; [apply sanitize_filename_length|].
  split; [apply sanitize_clean|apply sanitize_idem].
Qed.

(** X2: on a name that [has_timestamp_in_filename] accepts, splitting on
    the underscore, dropping the first segment and joining again removes
    what the substitution of [filename_has_match] removes: the first 20
    characters and nothing else. *)
Theorem X2_split_strip_is_pattern_strip (filename : str) :
  has_timestamp_in_filename filename = true ->
  Str.join (lit "_") (tl (Str.split (ch "_") filename)) = without_timestamp filename
  /\ filename = firstn 20 filename ++ without_timestamp filename
  /\ length filename = (20 + length (without_timestamp filename))%nat.
Proof.
  intros H. split; [by apply strip_by_split|].
  unfold has_timestamp_in_filename, Re.search_anchored in H.
  unfold without_timestamp, Re.sub_anchored.
  destruct (Re.match_seq Re.timestamp_pattern filename) as [r|] eqn:E; [|discriminate].
  destruct (match_seq_prefix _ _ _ E) as (p & -> & Hl).
  change (length Re.timestamp_pattern) with 20%nat in Hl.
  cbn [app]. rewrite length_app, Hl. split; [|done].
  rewrite <- Hl at 1. rewrite firstn_app, firstn_all, Nat.sub_diag. cbn [firstn].
  by rewrite app_nil_r.
Qed.

(** X3: a name derived for a time with whole seconds is recognised as
    tagged, and deriving again from it, for any time and offset, gives what
    deriving from the original path gives: the stamp is replaced, not
    stacked. *)
Theorem X3_retagging_replaces_the_stamp (original_path name : str)
    (t1 : datetime) (n1 : Z) :
  datetime_ok t1 -> microsecond t1 = 0%Z ->
  derive original_path t1 n1 = Ok name ->
  has_timestamp_in_filename name = true
  /\ forall t2 n2, derive name t2 n2 = derive original_path t2 n2.
Proof.
  intros Hok Hus. unfold derive at 1.
  destruct (adjust t1 n1) as [a1|] eqn:Ea; [|discriminate].
  destruct (adjust_ok _ _ _ Hok Ea) as (_ & Hok1 & Hus1). intros [= <-]. split.
  - rewrite derived_name_whole_seconds by (done || lia).
    unfold has_timestamp_in_filename, Re.search_anchored.
    change (lit "_" ++ ?r) with ((ch "_") :: r).
    by rewrite stamp_matches by by apply datetime_ok_fields.
  - intros t2 n2. unfold derive. destruct (adjust t2 n2); [|done].
    by rewrite derive_again by (done || lia).
Qed.

Lemma locate_new_path (original_path : str) (destination_dir : option str)
    (a : datetime) :
  Os.locate (new_path_of original_path destination_dir a)
  = (match destination_dir with
     | Some d => Os.dir_key d
     | None => fst (Os.locate original_path)
     end,
     sanitized_new_filename original_path a).
Proof.
  unfold new_path_of. rewrite locate_join by apply sanitized_new_filename_no_sep.
  f_equal. unfold target_dir_of, Os.locate.
  destruct (PosixPath.split original_path) as [h t]. cbn [fst].
  destruct destination_dir as [d|]; [done|].
  destruct (Str.eqb h []) eqn:E; [|done].
  apply str_eqb_eq in E. by subst h.
Qed.

(** X4: the copy is an entry of the target directory itself, under the
    derived name: of the destination directory when one is given, of the
    directory of the source otherwise. *)
Theorem X4_copy_lands_in_target_directory (original_path : str)
    (destination_dir : option str) (a : datetime) :
  Os.locate (new_path_of original_path destination_dir a)
  = (match destination_dir with
     | Some d => Os.dir_key d
     | None => fst (Os.locate original_path)
     end,
     sanitized_new_filename original_path a).
Proof. apply locate_new_path. Qed.

Local Open Scope Z_scope.

(** * Further properties of the hour offset *)

Lemma plus_hours_plus_hours (t : datetime) (n m : Z) :
  civil_ok t ->
  Civil.plus_hours (Civil.plus_hours t n) m = Civil.plus_hours t (n + m).
Proof.
  intros Ht.
  destruct (plus_hours_spec t n Ht) as (Hc1 & Hi1 & Hm1 & Hs1 & Hu1).
  destruct (plus_hours_spec _ m Hc1) as (Hc2 & Hi2 & Hm2 & Hs2 & Hu2).
  destruct (plus_hours_spec t (n + m) Ht) as (Hc3 & Hi3 & Hm3 & Hs3 & Hu3).
  apply hour_index_inj; [done|done|lia|]. unfold same_minute. repeat split; congruence.
Qed.

Lemma plus_hours_zero (t : datetime) : Civil.plus_hours t 0 = t.
Proof. reflexivity. Qed.

(** X5: offsets add up, and the opposite offset undoes an offset: when
    [t + n] is [a], then [a + m] is whatever [t + (n + m)] is, an
    exception included, and [a + (-n)] is [t]; the offset 0 changes
    nothing. *)
Theorem X5_offsets_compose (t a : datetime) (n : Z) :
  datetime_ok t -> adjust t n = Ok a ->
  (forall m b, adjust a m = Ok b <-> adjust t (n + m) = Ok b)
  /\ adjust a (- n) = Ok t
  /\ adjust t 0 = Ok t.
Proof.
  intros Hok Ea. destruct (adjust_ok _ _ _ Hok Ea) as (-> & Hoka & _).
  pose proof (datetime_ok_civil _ Hok) as Hc.
  assert (Hy : 1 <= year t <= 9999) by (unfold datetime_ok in Hok; tauto).
  split; [|split].
  - intros m b. split; intros Eb.
    + destruct (adjust_ok _ _ _ Hoka Eb) as (-> & Hokb & _).
      rewrite plus_hours_plus_hours in * by done.
      apply adjust_plus_hours; [done|]. unfold datetime_ok in Hokb. tauto.
    + destruct (adjust_ok _ _ _ Hok Eb) as (-> & Hokb & _).
      rewrite <- plus_hours_plus_hours in * by done.
      apply adjust_plus_hours; [done|]. unfold datetime_ok in Hokb. tauto.
  - assert (E : Civil.plus_hours (Civil.plus_hours t n) (- n) = t).
    { rewrite plus_hours_plus_hours by done. by replace (n + - n) with 0 by lia. }
    rewrite <- E at 2. apply adjust_plus_hours; [done|]. by rewrite E.
  - rewrite <- (plus_hours_zero t) at 2. by apply adjust_plus_hours.
Qed.

(** X6: when the adjusted time falls outside the years 1 to 9999, the
    orchestrator raises [OverflowError] before it looks at the file system:
    nothing is printed, nothing is copied, whatever the flags. *)
Theorem X6_offset_overflow_raises (t : datetime) (n : Z) :
  datetime_ok t ->
  ~ (1 <= year (Civil.plus_hours t n) <= 9999) ->
  exists msg, forall original_path destination_dir simulate force w,
    save_media_with_datetime original_path (Some t) destination_dir n simulate force w
    = (Raise (Exception (lit "OverflowError") msg), w).
Proof.
  intros Hok Hy. destruct (adjust_overflow t n Hok Hy) as [msg Hm].
  exists msg. intros. by rewrite save_eq, Hm.
Qed.

Local Close Scope Z_scope.

(** * Further properties of the copy *)

Lemma stat_write_same (f : fs) (k t : str) (x : dir) (b : list Byte.byte) (q : str) :
  Os.locate q = (k, t) -> t <> [] ->
  Os.stat (Os.write_file f k t x b) q = Some (File b).
Proof.
  intros Hl Ht. unfold Os.stat.
  assert (Hq : Str.eqb q [] = false).
  { destruct (Str.eqb q []) eqn:E; [|done]. apply str_eqb_eq in E. subst q.
    vm_compute in Hl. injection Hl as _ <-. done. }
  rewrite Hq, Hl.
  assert (Str.eqb t [] = false) as ->.
  { destruct (Str.eqb t []) eqn:E; [|done]. by apply str_eqb_eq in E. }
  unfold Os.write_file. rewrite lookup_insert_eq. simpl. by rewrite lookup_insert_eq.
Qed.

Lemma stat_write_other (f : fs) (k t : str) (x : dir) (b : list Byte.byte) (q : str) :
  f !! k = Some x -> Os.locate q <> (k, t) ->
  Os.stat (Os.write_file f k t x b) q = Os.stat f q.
Proof.
  intros Hk Hl. unfold Os.stat.
  destruct (Str.eqb q []); [done|].
  destruct (Os.locate q) as [k' t'].
  unfold Os.write_file.
  destruct (decide (k = k')) as [<-|Hne].
  - rewrite lookup_insert_eq, Hk. simpl.
    destruct (Str.eqb t' []); [done|].
    rewrite lookup_insert_ne; [done|]. congruence.
  - by rewrite lookup_insert_ne.
Qed.

(** X9: when the orchestrator, not simulating, reports a copy, the file
    system holds the bytes of the source at the path of the copy, the
    source is as it was, and one copy has been made. The path is the target
    path unless a directory has that name. *)
Theorem X9_copy_holds_source_bytes (original_path : str) (d : datetime)
    (destination_dir : option str) (adjust_hours : Z) (force : bool) (w w' : world) :
  save_media_with_datetime original_path (Some d) destination_dir adjust_hours
    false force w = (Ok true, w') ->
  exists a bytes dst,
    adjust d adjust_hours = Ok a /\
    Os.stat (w_fs w) original_path = Some (File bytes) /\
    Os.stat (w_fs w') dst = Some (File bytes) /\
    Os.stat (w_fs w') original_path = Some (File bytes) /\
    w_copies w' = w_copies w ++ [(original_path, dst)] /\
    (Os.stat (w_fs w) (new_path_of original_path destination_dir a) <> Some Directory ->
     dst = new_path_of original_path destination_dir a).
Proof.
  rewrite save_eq. destruct (adjust d adjust_hours) as [a|e]; [|done]. cbv zeta.
  set (np := new_path_of original_path destination_dir a).
  assert (Hskip : forall b w1,
    (if negb force then
       if bool_decide (is_Some (Os.stat (w_fs w) np)) then (Ok true, w)
       else filename_has_match (target_dir_of original_path destination_dir)
              (sanitized_new_filename original_path a) w
     else (Ok false, w)) = (Ok b, w1) -> w1 = w).
  { intros b w1. destruct (negb force); [|by intros [= _ <-]].
    destruct (bool_decide _); [by intros [= _ <-]|].
    intros H. pose proof (filename_has_match_frame
                            (target_dir_of original_path destination_dir)
                            (sanitized_new_filename original_path a) w) as Hf.
    rewrite H in Hf. done. }
  destruct (if negb force then _ else _) as [[[|]|e] w1] eqn:Hs; [done| |done].
  rewrite (Hskip _ _ eq_refl). cbn [negb].
  destruct (Os.copy2 original_path np w) as [[[]|e] w2] eqn:Hc; [|done].
  intros [= <-].
  destruct (copy2_ok _ _ _ _ Hc)
    as (bytes & dst & k & t & x & Hsrc & Hdst & Hl & Ht & Hk & Hne & _ & ->).
  exists a, bytes, dst. cbn [printed w_fs w_copies].
  split; [done|]. split; [done|].
  split; [by apply stat_write_same|].
  split; [rewrite stat_write_other; [done|done|congruence]|].
  split; [done|].
  intros Hnd. rewrite Hdst. subst np. unfold Os.isdir.
  destruct (Os.stat (w_fs w) (new_path_of _ _ _)) as [[|]|]; congruence.
Qed.

Local Open Scope Z_scope.

(** * What a batch does to the file system *)

Lemma same_kind_refl (nd : node) : same_kind nd nd.
Proof. by destruct nd. Qed.

Lemma same_kind_trans (a b c : node) : same_kind a b -> same_kind b c -> same_kind a c.
Proof. by destruct a, b, c. Qed.

Lemma fs_keeps_refl (f : fs) : fs_keeps f f.
Proof. intros k x H. exists x. split; [done|]. intros t nd Ht. exists nd. split; [done|apply same_kind_refl]. Qed.

Lemma fs_keeps_trans (f1 f2 f3 : fs) : fs_keeps f1 f2 -> fs_keeps f2 f3 -> fs_keeps f1 f3.
Proof.
  intros H12 H23 k x H. destruct (H12 _ _ H) as (x2 & H2 & E2).
  destruct (H23 _ _ H2) as (x3 & H3 & E3). exists x3. split; [done|].
  intros t nd Ht. destruct (E2 _ _ Ht) as (nd2 & Ht2 & K2).
  destruct (E3 _ _ Ht2) as (nd3 & Ht3 & K3). exists nd3. split; [done|].
  by eapply same_kind_trans.
Qed.

Lemma fs_keeps_stat (f f' : fs) (q : str) (nd : node) :
  fs_keeps f f' -> Os.stat f q = Some nd ->
  exists nd', Os.stat f' q = Some nd' /\ same_kind nd nd'.
Proof.
  intros Hk. unfold Os.stat.
  destruct (Str.eqb q []); [done|].
  destruct (Os.locate q) as [k t].
  destruct (f !! k) as [x|] eqn:E; [|by destruct (Str.eqb t [])].
  destruct (Hk _ _ E) as (x' & -> & He). simpl.
  destruct (Str.eqb t []).
  - intros [= <-]. by exists Directory.
  - apply He.
Qed.

Lemma fs_keeps_write (f : fs) (k t : str) (x : dir) (b : list Byte.byte) :
  f !! k = Some x -> dir_entries x !! t <> Some Directory ->
  fs_keeps f (Os.write_file f k t x b).
Proof.
  intros Hk Ht k' x' H'. unfold Os.write_file.
  destruct (decide (k = k')) as [<-|Hne].
  - rewrite lookup_insert_eq. eexists. split; [done|]. simpl.
    assert (x' = x) as -> by congruence.
    intros t' nd Ht'. destruct (decide (t = t')) as [<-|Hnt].
    + rewrite lookup_insert_eq. eexists. split; [done|]. destruct nd; [done|congruence].
    + rewrite lookup_insert_ne by done. exists nd. split; [done|apply same_kind_refl].
  - rewrite lookup_insert_ne by done. exists x'. split; [done|].
    intros t' nd Ht'. exists nd. split; [done|apply same_kind_refl].
Qed.

(** What one call of the orchestrator does to the world, whatever its
    flags and its result. *)
Lemma save_effect (p : str) (md : option datetime) (dest : option str) (n : Z)
    (sim force : bool) (w w' : world) (r : result bool) :
  save_media_with_datetime p md dest n sim force w = (r, w') ->
  fs_keeps (w_fs w) (w_fs w') /\
  (sim = true -> w_fs w' = w_fs w /\ w_copies w' = w_copies w) /\
  length (w_copies w')
  = (length (w_copies w)
     + match r with Ok true => if sim then 0 else 1 | _ => 0 end)%nat.
Proof.
  destruct md as [d|].
  2: { rewrite save_none. intros [= <- <-]. simpl.
       split; [apply fs_keeps_refl|]. split; [done|lia]. }
  rewrite save_eq. destruct (adjust d n) as [a|e].
  2: { intros [= <- <-]. split; [apply fs_keeps_refl|]. split; [done|lia]. }
  cbv zeta. set (np := new_path_of p dest a).
  assert (Hskip : forall r1 w1,
    (if negb force then
       if bool_decide (is_Some (Os.stat (w_fs w) np)) then (Ok true, w)
       else filename_has_match (target_dir_of p dest) (sanitized_new_filename p a) w
     else (Ok false, w)) = (r1, w1) -> w1 = w).
  { intros r1 w1. destruct (negb force); [|by intros [= _ <-]].
    destruct (bool_decide _); [by intros [= _ <-]|].
    intros H. pose proof (filename_has_match_frame (target_dir_of p dest)
                            (sanitized_new_filename p a) w) as Hf.
    rewrite H in Hf. done. }
  destruct (if negb force then _ else _) as [[[|]|e] w1] eqn:Hs;
    rewrite (Hskip _ _ eq_refl).
  - intros [= <- <-]. split; [apply fs_keeps_refl|]. split; [done|lia].
  - destruct sim; cbn [negb].
    + intros [= <- <-]. simpl. split; [apply fs_keeps_refl|]. split; [done|lia].
    + destruct (Os.copy2 p np w) as [[[]|e] w2] eqn:Hc.
      * destruct (copy2_ok _ _ _ _ Hc)
          as (bytes & dst & k & t & x & _ & _ & _ & _ & Hk & _ & Hnd & ->).
        intros [= <- <-]. simpl. split; [by apply fs_keeps_write|]. split; [done|].
        rewrite length_app. simpl. lia.
      * apply copy2_raise in Hc as ->. intros [= <- <-].
        split; [apply fs_keeps_refl|]. split; [done|lia].
  - intros [= <- <-]. split; [apply fs_keeps_refl|]. split; [done|lia].
Qed.

(** The same for the loop body, with the counters. *)
Lemma process_one_effect (E : Env) (f : str) (dest : option str) (n : Z)
    (sim force : bool) (c : counters) (w w' : world) (r : result counters) :
  process_one E f dest n sim force c w = (r, w') ->
  fs_keeps (w_fs w) (w_fs w') /\
  (sim = true -> w_fs w' = w_fs w /\ w_copies w' = w_copies w) /\
  match r with
  | Ok c' =>
      total_media_requested c' = total_media_requested c + 1 /\
      exists dp dn : Z,
        0 <= dp /\ 0 <= dn /\ dp + dn <= 1 /\
        total_media_processed c' = total_media_processed c + dp /\
        total_media_without_dates c' = total_media_without_dates c + dn /\
        length (w_copies w') = (length (w_copies w) + (if sim then 0 else Z.to_nat dp))%nat
  | Raise _ => length (w_copies w') = length (w_copies w)
  end.
Proof.
  rewrite process_one_eq.
  destruct (get_media_creation_date_frame E f w) as [Hfs Hcp].
  destruct (get_media_creation_date E f w) as [[[d|]|e] w1]; simpl in Hfs, Hcp.
  - destruct (save_media_with_datetime f (Some d) dest n sim force w1)
      as [rs w2] eqn:Hsave.
    destruct (save_effect _ _ _ _ _ _ _ _ _ Hsave) as (Hk & Hsim & Hlen).
    rewrite Hfs, Hcp in *.
    destruct rs as [[|]|e]; intros [= <- <-]; (split; [done|]); (split; [done|]).
    + simpl. split; [done|]. exists 1, 0. repeat split; try lia. by destruct sim.
    + simpl. split; [done|]. exists 0, 0. repeat split; try lia. destruct sim; simpl; lia.
    + lia.
  - intros [= <- <-]. simpl. rewrite Hfs, Hcp.
    split; [apply fs_keeps_refl|]. split; [done|]. split; [done|].
    exists 0, 1. repeat split; try lia. destruct sim; simpl; lia.
  - intros [= <- <-]. rewrite Hfs, Hcp. split; [apply fs_keeps_refl|]. done.
Qed.

Lemma process_files_effect (E : Env) (files : list str) (dest : option str) (n : Z)
    (sim force : bool) (c : counters) (w w' : world) (r : result counters) :
  process_files E files dest n sim force c w = (r, w') ->
  fs_keeps (w_fs w) (w_fs w') /\
  (sim = true -> w_fs w' = w_fs w /\ w_copies w' = w_copies w) /\
  match r with
  | Ok c' =>
      total_media_requested c' = total_media_requested c + Z.of_nat (length files) /\
      exists dp dn : Z,
        0 <= dp /\ 0 <= dn /\ dp + dn <= Z.of_nat (length files) /\
        total_media_processed c' = total_media_processed c + dp /\
        total_media_without_dates c' = total_media_without_dates c + dn /\
        length (w_copies w') = (length (w_copies w) + (if sim then 0 else Z.to_nat dp))%nat
  | Raise _ => True
  end.
Proof.
  revert c w. induction files as [|f rest IH]; intros c w.
  - intros [= <- <-]. split; [apply fs_keeps_refl|]. split; [done|].
    split; [simpl; lia|]. exists 0, 0. simpl. repeat split; try lia. destruct sim; simpl; lia.
  - rewrite process_files_cons.
    destruct (process_one E f dest n sim force c w) as [[c1|e] w1] eqn:Hone.
    + destruct (process_one_effect _ _ _ _ _ _ _ _ _ _ Hone)
        as (Hk1 & Hs1 & Hr1 & dp1 & dn1 & ? & ? & ? & Hp1 & Hn1 & Hl1).
      intros Hrest. destruct (IH _ _ Hrest) as (Hk2 & Hs2 & Hres).
      split; [by eapply fs_keeps_trans|].
      split; [intros Hsim; destruct (Hs1 Hsim), (Hs2 Hsim); split; congruence|].
      destruct r as [c'|e]; [|done].
      destruct Hres as (Hr2 & dp2 & dn2 & ? & ? & ? & Hp2 & Hn2 & Hl2).
      split; [cbn [length]; lia|].
      exists (dp1 + dp2), (dn1 + dn2). cbn [length].
      repeat split; try lia. destruct sim; lia.
    + destruct (process_one_effect _ _ _ _ _ _ _ _ _ _ Hone) as (Hk1 & Hs1 & _).
      intros [= <- <-]. done.
Qed.

(** X7: with [simulate], a batch changes nothing in the file system and
    makes no copy, whatever the other flags, and also when it ends with an
    exception. *)
Theorem X7_simulate_changes_nothing (E : Env) (file_spec : str)
    (destination_dir : option str) (adjust_hours : Z) (force : bool) (w : world) :
  w_fs (snd (process_media E file_spec destination_dir adjust_hours true force w))
  = w_fs w
  /\ w_copies (snd (process_media E file_spec destination_dir adjust_hours true force w))
     = w_copies w.
Proof.
  unfold process_media.
  destruct (length (glob E (w_fs w) file_spec) =? 0)%nat; [done|].
  run.
  destruct (process_files E _ destination_dir adjust_hours true force _ w)
    as [[c|e] w1] eqn:Hp;
    destruct (process_files_effect _ _ _ _ _ _ _ _ _ _ Hp) as (_ & Hs & _);
    destruct (Hs eq_refl); done.
Qed.

(** X8: a batch never removes anything: after it, whatever its flags and
    its result, every path that named a file still names a file and every
    path that named a directory still names a directory. *)
Theorem X8_batch_removes_nothing (E : Env) (file_spec : str)
    (destination_dir : option str) (adjust_hours : Z) (simulate force : bool)
    (w w' : world) (r : result unit) :
  process_media E file_spec destination_dir adjust_hours simulate force w = (r, w') ->
  forall q nd, Os.stat (w_fs w) q = Some nd ->
    exists nd', Os.stat (w_fs w') q = Some nd' /\ same_kind nd nd'.
Proof.
  intros Hrun q nd Hq. apply (fs_keeps_stat (w_fs w)); [|done].
  revert Hrun. unfold process_media.
  destruct (length (glob E (w_fs w) file_spec) =? 0)%nat;
    [intros [= _ <-]; apply fs_keeps_refl|].
  run.
  destruct (process_files E _ destination_dir adjust_hours simulate force _ w)
    as [[c|e] w1] eqn:Hp;
    destruct (process_files_effect _ _ _ _ _ _ _ _ _ _ Hp) as (Hk & _);
    intros [= _ <-]; done.
Qed.

(** X10: in the summary of a batch, Input Media is the number of matched
    paths, Processed and No Creation Date are not negative and together at
    most Input Media, so that Already Copied is not negative; and without
    [simulate], Processed is the number of copies the batch made. *)
Theorem X10_summary_counts (E : Env) (file_spec : str) (destination_dir : option str)
    (adjust_hours : Z) (simulate force : bool) (w w' : world) :
  glob E (w_fs w) file_spec <> [] ->
  process_media E file_spec destination_dir adjust_hours simulate force w = (Ok tt, w') ->
  exists c out,
    w_stdout w' = out ++ [summary_line c] /\
    total_media_requested c = Z.of_nat (length (glob E (w_fs w) file_spec)) /\
    0 <= total_media_processed c /\ 0 <= total_media_without_dates c /\
    0 <= total_media_requested c - total_media_processed c - total_media_without_dates c /\
    length (w_copies w')
    = (length (w_copies w)
       + (if simulate then 0 else Z.to_nat (total_media_processed c)))%nat.
Proof.
  intros Hne. unfold process_media.
  destruct (glob E (w_fs w) file_spec) as [|f rest] eqn:Hg; [done|].
  cbn [length Nat.eqb]. run.
  destruct (process_files E (f :: rest) destination_dir adjust_hours simulate force
              (mk_counters 0 0 0) w) as [[c|e] w1] eqn:Hp; [|done].
  destruct (process_files_effect _ _ _ _ _ _ _ _ _ _ Hp)
    as (_ & _ & Hr & dp & dn & ? & ? & ? & Hpc & Hnc & Hl).
  intros [= <-]. exists c, (w_stdout w1). cbn [w_stdout w_copies] in *.
  simpl in Hr, Hpc, Hnc.
  split; [done|]. split; [cbn [length] in *; lia|].
  split; [lia|]. split; [lia|]. split; [cbn [length] in *; lia|].
  rewrite Hl, Hpc. done.
Qed.

(** * Further properties of the duplicate detector and the orchestrator *)

(** The result of the duplicate detector on a directory that exists. *)
Lemma filename_has_match_listed (directory filename : str) (x : dir) (w : world) :
  directory <> [] -> w_fs w !! Os.dir_key directory = Some x ->
  filename_has_match directory filename w
  = (Ok (existsb (fun file => Str.eqb (without_timestamp filename) (without_timestamp file))
           (map fst (map_to_list (dir_entries x)))), w).
Proof.
  intros Hd Hx. unfold filename_has_match. run. unfold Os.listdir.
  rewrite (str_eqb_false _ _ Hd), Hx. by run.
Qed.

Lemma filename_has_match_found (directory filename e : str) (x : dir) (nd : node)
    (w : world) :
  directory <> [] -> w_fs w !! Os.dir_key directory = Some x ->
  dir_entries x !! e = Some nd ->
  without_timestamp e = without_timestamp filename ->
  filename_has_match directory filename w = (Ok true, w).
Proof.
  intros Hd Hx He Hw. rewrite (filename_has_match_listed _ _ x) by done.
  do 2 f_equal. apply existsb_names. exists e, nd. split; [done|].
  rewrite Hw. apply str_eqb_refl.
Qed.

(** X11: the duplicate detector disregards timestamps on both sides: when
    the directory lists [rest], or [rest] under any timestamp prefix, it
    reports a match for [rest] and for [rest] under any other prefix. *)
Theorem X11_match_disregards_timestamps (directory rest p1 p2 e : str) (x : dir)
    (nd : node) (w : world) :
  directory <> [] -> w_fs w !! Os.dir_key directory = Some x ->
  has_timestamp_in_filename rest = false ->
  Re.match_seq Re.timestamp_pattern p1 = Some [] ->
  Re.match_seq Re.timestamp_pattern p2 = Some [] ->
  dir_entries x !! e = Some nd -> e = rest \/ e = p1 ++ rest ->
  filename_has_match directory rest w = (Ok true, w)
  /\ filename_has_match directory (p2 ++ rest) w = (Ok true, w).
Proof.
  intros Hd Hx Hr H1 H2 He Hcases.
  assert (Hw : without_timestamp e = rest).
  { destruct Hcases as [->| ->];
      [by apply without_timestamp_untagged|by apply without_timestamp_prefix]. }
  split; apply (filename_has_match_found _ _ e x nd); try done.
  - by rewrite Hw, without_timestamp_untagged.
  - by rewrite Hw, without_timestamp_prefix.
Qed.

Lemma sanitized_new_filename_nonempty (p : str) (a : datetime) :
  sanitized_new_filename p a <> [].
Proof.
  rewrite sanitized_new_filename_eq. intros H.
  apply (f_equal (@length char)) in H.
  rewrite sanitize_filename_length in H.
  rewrite !length_app in H. simpl in H. lia.
Qed.

(** The node at the target path is the entry of the target directory
    under the derived name. *)
Lemma stat_new_path (p : str) (dest : option str) (a : datetime) (f : fs) :
  Os.stat f (new_path_of p dest a)
  = (x ← f !! Os.dir_key (target_dir_of p dest);
     dir_entries x !! sanitized_new_filename p a).
Proof.
  unfold Os.stat, new_path_of.
  rewrite str_eqb_false by apply join_nonempty, sanitized_new_filename_nonempty.
  rewrite locate_join by apply sanitized_new_filename_no_sep.
  by rewrite str_eqb_false by apply sanitized_new_filename_nonempty.
Qed.

(** X13: without [force], a file is not copied when the target directory
    lists a name that differs from the derived name only by the timestamp
    prefix: the call returns [False] and leaves the world as it is. So a
    file copied once under one offset is not copied again under
    another. *)
Theorem X13_other_stamp_is_a_duplicate (original_path : str) (t a : datetime)
    (destination_dir : option str) (adjust_hours : Z) (simulate : bool)
    (e : str) (x : dir) (nd : node) (w : world) :
  adjust t adjust_hours = Ok a ->
  target_dir_of original_path destination_dir <> [] ->
  w_fs w !! Os.dir_key (target_dir_of original_path destination_dir) = Some x ->
  dir_entries x !! e = Some nd ->
  without_timestamp e = without_timestamp (sanitized_new_filename original_path a) ->
  save_media_with_datetime original_path (Some t) destination_dir adjust_hours
    simulate false w = (Ok false, w).
Proof.
  intros Ha Hd Hx He Hw. rewrite save_eq, Ha. cbv zeta. cbn [negb].
  destruct (bool_decide _); [done|].
  by rewrite (filename_has_match_found _ _ e x nd).
Qed.


(** X15: the orchestrator does not create the target directory: when no
    directory is stored under it, the call raises what the system answers
    for a path that leads nowhere, [NotADirectoryError] when a file stands
    at the target directory or above it and [FileNotFoundError] otherwise,
    and changes nothing: without [force] from the scan of the directory,
    also when simulating, and with [force] when the copy is attempted. *)
Theorem X15_missing_target_directory (original_path : str) (t a : datetime)
    (destination_dir : option str) (adjust_hours : Z) (w : world) :
  adjust t adjust_hours = Ok a ->
  w_fs w !! Os.dir_key (target_dir_of original_path destination_dir) = None ->
  let target_dir := target_dir_of original_path destination_dir in
  let new_path := new_path_of original_path destination_dir a in
  (forall simulate,
     save_media_with_datetime original_path (Some t) destination_dir adjust_hours
       simulate false w
     = (Raise (if Os.through_file (length target_dir) (w_fs w) target_dir
               then Os.NotADirectoryError target_dir
               else Os.FileNotFoundError target_dir), w))
  /\ (forall bytes,
        Os.stat (w_fs w) original_path = Some (File bytes) ->
        save_media_with_datetime original_path (Some t) destination_dir adjust_hours
          false true w
        = (Raise (if Os.through_file (length new_path) (w_fs w) new_path
                  then Os.NotADirectoryError new_path
                  else Os.FileNotFoundError new_path), w)).
Proof.
  intros Ha Hx target_dir new_path. subst target_dir new_path.
  assert (Hloc : Os.locate (new_path_of original_path destination_dir a)
                 = (Os.dir_key (target_dir_of original_path destination_dir),
                    sanitized_new_filename original_path a)).
  { unfold new_path_of. by rewrite locate_join by apply sanitized_new_filename_no_sep. }
  assert (Hnp : Os.stat (w_fs w) (new_path_of original_path destination_dir a) = None)
    by (by rewrite stat_new_path, Hx).
  split.
  - intros simulate. rewrite save_eq, Ha. cbv zeta. cbn [negb].
    rewrite bool_decide_eq_false_2 by (rewrite Hnp; by intros [? ?]).
    unfold filename_has_match. run. unfold Os.listdir. rewrite Hx.
    destruct (Str.eqb (target_dir_of original_path destination_dir) []) eqn:E; [|done].
    apply str_eqb_eq in E. by rewrite E.
  - intros bytes Hsrc. rewrite save_eq, Ha. cbv zeta. cbn [negb].
    by rewrite (copy2_unreachable _ _ _ _ bytes w Hsrc Hloc)
      by (done || apply sanitized_new_filename_nonempty).
Qed.

(** X12: in place, with [force] and without [simulate], a file that
    already carries the stamp of its adjusted time is its own target:
    [shutil.copy2] raises [SameFileError] and nothing changes. *)
Theorem X12_forced_retag_in_place_is_same_file (original_path rest : str)
    (bytes : list Byte.byte) (t a : datetime) (adjust_hours : Z) (w : world) :
  datetime_ok t -> microsecond t = 0 ->
  adjust t adjust_hours = Ok a ->
  Os.stat (w_fs w) original_path = Some (File bytes) ->
  snd (PosixPath.split original_path) = stamp a ++ lit "_" ++ rest ->
  clean rest = true ->
  save_media_with_datetime original_path (Some t) None adjust_hours false true w
  = (Raise (Os.SameFileError original_path (new_path_of original_path None a)), w).
Proof.
  intros Hok Hus Ha Hsrc Hname Hclean.
  destruct (adjust_ok _ _ _ Hok Ha) as (_ & Hoka & Husa).
  assert (Hnew : sanitized_new_filename original_path a = snd (PosixPath.split original_path)).
  { rewrite derived_name_whole_seconds by (done || lia).
    rewrite Hname, without_timestamp_stamp by done. by rewrite clean_sanitize. }
  assert (Hloc : Os.locate (new_path_of original_path None a) = Os.locate original_path).
  { rewrite locate_new_path, Hnew. unfold Os.locate.
    by destruct (PosixPath.split original_path). }
  assert (Hstat : Os.stat (w_fs w) (new_path_of original_path None a)
                  = Some (File bytes)).
  { rewrite <- Hsrc. unfold Os.stat at 1 2. rewrite Hloc.
    rewrite str_eqb_false by apply join_nonempty, sanitized_new_filename_nonempty.
    unfold Os.stat in Hsrc. by destruct (Str.eqb original_path []). }
  rewrite save_eq, Ha. cbv zeta. cbn [negb].
  by rewrite (copy2_same _ _ bytes bytes).
Qed.

Local Close Scope Z_scope.

End properties.

(** * Examples

    The examples run in the example environment, with the example
    Unicode database. *)

#[local] Existing Instance Demo.unicode.

Local Open Scope Z_scope.

(** The claim of C7 as stated fails: a name with two prefixes keeps the
    second one, so its derived name is not the one of the untagged base
    name; and under a time with microseconds the derived name is not
    recognised as tagged, so that deriving again piles up the prefixes. *)
Lemma C7_counterexample :
  let t := mk_datetime 2023 5 10 14 30 0 0 in
  let t_us := mk_datetime 2023 5 10 14 30 0 500000 in
  (derive (lit "2020-01-01T00-00-00_2021-01-01T00-00-00_x.jpg") t 0
     = Ok (lit "2023-05-10T14-30-00_2021-01-01T00-00-00_x.jpg")
   /\ derive (lit "x.jpg") t 0 = Ok (lit "2023-05-10T14-30-00_x.jpg")
   /\ derive (lit "2020-01-01T00-00-00_2021-01-01T00-00-00_x.jpg") t 0
      <> derive (lit "x.jpg") t 0)
  /\ (derive (lit "x.jpg") t_us 0 = Ok (lit "2023-05-10T14-30-00.500000_x.jpg")
      /\ derive (lit "2023-05-10T14-30-00.500000_x.jpg") t_us 0
         = Ok (lit "2023-05-10T14-30-00.500000_2023-05-10T14-30-00.500000_x.jpg")).
Proof. vm_compute. repeat split; discriminate. Qed.

Lemma C7_witness :
  let t := mk_datetime 2024 1 2 3 4 5 0 in
  derive (lit "in/2023-05-10T14-30-00_photo.jpg") t 0 =
    match adjust t 0 with
    | Ok a => Ok (sanitize_filename (isoformat a ++ lit "_" ++ lit "photo.jpg"))
    | Raise e => Raise e
    end
  /\ (Re.match_seq Re.timestamp_pattern (lit "photo.jpg") = None ->
      derive (lit "in/2023-05-10T14-30-00_photo.jpg") t 0 = derive (lit "photo.jpg") t 0)
  /\ (datetime_ok t -> microsecond t = 0 ->
      forall name, derive (lit "in/2023-05-10T14-30-00_photo.jpg") t 0 = Ok name ->
        has_timestamp_in_filename name = true
        /\ forall t2 n2, derive name t2 n2
                         = derive (lit "in/2023-05-10T14-30-00_photo.jpg") t2 n2).
Proof.
  intros t.
  apply (C7_strips_one_prefix (lit "in/2023-05-10T14-30-00_photo.jpg")
           (lit "2023-05-10T14-30-00_") (lit "photo.jpg") t 0); reflexivity.
Defined.

Lemma C9_witness :
  let t := mk_datetime 2023 12 31 23 30 0 0 in
  let a := Civil.plus_hours t 1 in
  datetime_ok t /\
  (forall name, derive (lit "photo.jpg") t 1 = Ok name ->
     Read.embedded_timestamp name
     = Some (year a, month a, day a, hour a, minute a, second a))
  /\ (1 <= year a <= 9999 ->
      derive (lit "photo.jpg") t 1 = Ok (sanitized_new_filename (lit "photo.jpg") a)).
Proof.
  intros t a.
  assert (H : datetime_ok t) by (vm_compute; intuition congruence).
  split; [exact H|]. exact (C9_adjusted_timestamp (lit "photo.jpg") t 1 H).
Defined.

(** The claim of C6 as stated fails: a sanitized character of the
    original name does not come back, and a time with microseconds leaves
    a prefix that the pattern does not match. *)
Lemma C6_counterexample :
  (derive (lit "a:b.jpg") (mk_datetime 2023 5 10 14 30 0 0) 0
     = Ok (lit "2023-05-10T14-30-00_a-b.jpg")
   /\ without_timestamp (lit "2023-05-10T14-30-00_a-b.jpg") <> lit "a:b.jpg")
  /\ (derive (lit "a.jpg") (mk_datetime 2023 5 10 14 30 0 500000) 0
        = Ok (lit "2023-05-10T14-30-00.500000_a.jpg")
      /\ without_timestamp (lit "2023-05-10T14-30-00.500000_a.jpg") <> lit "a.jpg").
Proof. vm_compute. repeat split; discriminate. Qed.

Lemma C6_witness :
  let t := mk_datetime 2023 5 10 14 30 0 0 in
  derive (lit "in/2020-01-01T00-00-00_photo.jpg") t 5
    = Ok (lit "2023-05-10T19-30-00_photo.jpg")
  /\ without_timestamp (lit "2023-05-10T19-30-00_photo.jpg")
     = without_timestamp (snd (PosixPath.split (lit "in/2020-01-01T00-00-00_photo.jpg"))).
Proof.
  intros t.
  assert (E : derive (lit "in/2020-01-01T00-00-00_photo.jpg") t 5
              = Ok (lit "2023-05-10T19-30-00_photo.jpg")) by (vm_compute; reflexivity).
  split; [exact E|].
  apply (C6_roundtrip (lit "in/2020-01-01T00-00-00_photo.jpg") _ t 5).
  - vm_compute. intuition congruence.
  - reflexivity.
  - vm_compute. reflexivity.
  - exact E.
Defined.

Lemma demo_env_dates_ok : env_dates_ok Demo.env.
Proof.
  split.
  - intros s f d. simpl. unfold Demo.demo_strptime.
    destruct (if Str.eqb f _ then _ else _) as [[[[[[[y mo] da] h] mi] se] [|c r]]|]; try done.
    destruct (datetime_okb _) eqn:Hok; [|done]. intros [= <-].
    unfold datetime_okb in Hok. unfold datetime_ok.
    rewrite !andb_true_iff, !Z.leb_le, !Z.ltb_lt in Hok. tauto.
  - intros m k d. simpl. unfold Demo.demo_date.
    destruct m as [|b [|b' m]]; [done| |by destruct b].
    destruct b; try done; intros [= <-]; vm_compute; intuition congruence.
Qed.

Lemma C3_witness :
  env_dates_ok Demo.env /\
  ((exists r, get_media_creation_date Demo.env (lit "a.jpg") (Demo.world_of [])
             = (Ok r, snd (get_media_creation_date Demo.env (lit "a.jpg") (Demo.world_of []))))
  /\ (forall e w', get_media_creation_date_try Demo.env (lit "a.jpg") (Demo.world_of [])
                   = (Raise e, w') ->
        get_media_creation_date Demo.env (lit "a.jpg") (Demo.world_of [])
        = (Ok None, log_error e (Demo.world_of [])))
  /\ (forall r w', get_media_creation_date_try Demo.env (lit "a.jpg") (Demo.world_of [])
                   = (Ok r, w') ->
        get_media_creation_date Demo.env (lit "a.jpg") (Demo.world_of [])
        = (Ok r, Demo.world_of []))
  /\ (env_dates_ok Demo.env ->
      forall d w', get_media_creation_date Demo.env (lit "a.jpg") (Demo.world_of [])
                   = (Ok (Some d), w') ->
        datetime_ok d)).
Proof.
  split; [exact demo_env_dates_ok|].
  exact (C3_extractor_never_raises Demo.env (lit "a.jpg") (Demo.world_of [])).
Defined.

Lemma C1_witness :
  save_media_with_datetime (lit "photo.jpg") (Some t_photo) (Some (lit "out")) 0
    false false w_done = (Ok false, w_done).
Proof.
  apply (proj1 (C1_never_overwrites (lit "photo.jpg") (Some (lit "out")) 0 false w_done)
           t_photo t_photo).
  - vm_compute. reflexivity.
  - vm_compute. eexists. reflexivity.
Defined.

(** The claim of C4 as stated fails: a file skipped as a duplicate
    leaves standard output as it was. *)
Lemma C4_counterexample :
  save_media_with_datetime (lit "photo.jpg") (Some t_photo) (Some (lit "out")) 0
    false false w_done = (Ok false, w_done)
  /\ w_stdout (snd (process_one Demo.env (lit "photo.jpg") (Some (lit "out")) 0
                      false false (mk_counters 0 0 0) w_done)) = [].
Proof. vm_compute. split; reflexivity. Qed.

Lemma C4_witness :
  (exists md w1,
      get_media_creation_date Demo.env (lit "photo.jpg") w_fresh = (Ok md, w1) /\
      match md with
      | None => w_stdout (snd (process_one Demo.env (lit "photo.jpg") (Some (lit "out")) 0
                                 false false (mk_counters 0 0 0) w_fresh))
                = w_stdout w1 ++ [no_date_line (lit "photo.jpg")]
      | Some _ =>
          exists saved : bool,
            total_media_processed
              (mk_counters 1 1 0)
            = total_media_processed (mk_counters 0 0 0) + (if saved then 1 else 0)
            /\ match outcome_of md false saved with
               | Copied =>
                   exists np,
                     w_stdout (snd (process_one Demo.env (lit "photo.jpg")
                                      (Some (lit "out")) 0 false false
                                      (mk_counters 0 0 0) w_fresh))
                     = w_stdout w1 ++ [copied_line (lit "photo.jpg") np]
               | SimulatedCopy =>
                   exists np,
                     w_stdout (snd (process_one Demo.env (lit "photo.jpg")
                                      (Some (lit "out")) 0 false false
                                      (mk_counters 0 0 0) w_fresh))
                     = w_stdout w1 ++ [simulated_line (lit "photo.jpg") np]
               | _ =>
                   w_stdout (snd (process_one Demo.env (lit "photo.jpg")
                                    (Some (lit "out")) 0 false false
                                    (mk_counters 0 0 0) w_fresh))
                   = w_stdout w1
               end
      end).
Proof.
  apply (proj2 (C4_outcome_lines Demo.env (lit "photo.jpg") (Some (lit "out")) 0
                  false false w_fresh) (mk_counters 0 0 0) (mk_counters 1 1 0)).
  vm_compute. reflexivity.
Defined.

Lemma in_place_skips_example :
  save_media_with_datetime (lit "photo.jpg") (Some t_photo) None 1 false false w_fresh
  = (match adjust t_photo 1 with Ok _ => Ok false | Raise e => Raise e end, w_fresh).
Proof.
  apply (in_place_skips (lit "photo.jpg") [Byte.x01] t_photo 1 false w_fresh).
  - vm_compute. intuition congruence.
  - reflexivity.
  - vm_compute. reflexivity.
  - vm_compute. reflexivity.
Defined.



Lemma second_run_example :
  exists w2,
    process_media Demo.env (lit "*.jpg") (Some (lit "out")) 1 false false
      (snd (process_media Demo.env (lit "*.jpg") (Some (lit "out")) 1 false false w_fresh))
    = (Ok tt, w2)
    /\ w_copies w2
       = w_copies (snd (process_media Demo.env (lit "*.jpg") (Some (lit "out")) 1
                          false false w_fresh))
    /\ w_fs w2
       = w_fs (snd (process_media Demo.env (lit "*.jpg") (Some (lit "out")) 1
                      false false w_fresh)).
Proof.
  apply (second_run_copies_nothing Demo.env (lit "*.jpg") (Some (lit "out")) 1 false
           w_fresh).
  - vm_compute. reflexivity.
  - vm_compute. reflexivity.
  - vm_compute. repeat constructor; eexists; reflexivity.
Defined.

Local Close Scope Z_scope.

Lemma X2_witness :
  Str.join (lit "_") (tl (Str.split (ch "_") (lit "2023-05-10T14-30-00_my_photo")))
    = without_timestamp (lit "2023-05-10T14-30-00_my_photo")
  /\ lit "2023-05-10T14-30-00_my_photo"
     = firstn 20 (lit "2023-05-10T14-30-00_my_photo")
       ++ without_timestamp (lit "2023-05-10T14-30-00_my_photo")
  /\ length (lit "2023-05-10T14-30-00_my_photo")
     = (20 + length (without_timestamp (lit "2023-05-10T14-30-00_my_photo")))%nat.
Proof.
  apply (X2_split_strip_is_pattern_strip (lit "2023-05-10T14-30-00_my_photo")).
  reflexivity.
Defined.

Lemma X3_witness :
  has_timestamp_in_filename (lit "2023-05-10T19-30-00_photo.jpg") = true
  /\ forall t2 n2, derive (lit "2023-05-10T19-30-00_photo.jpg") t2 n2
                   = derive (lit "in/photo.jpg") t2 n2.
Proof.
  apply (X3_retagging_replaces_the_stamp (lit "in/photo.jpg") _ t_photo 5).
  - vm_compute. intuition congruence.
  - reflexivity.
  - vm_compute. reflexivity.
Defined.

Local Open Scope Z_scope.

Lemma X5_witness :
  (forall m b, adjust (mk_datetime 2024 1 1 0 59 59 0) m = Ok b
               <-> adjust (mk_datetime 2023 12 31 23 59 59 0) (1 + m) = Ok b)
  /\ adjust (mk_datetime 2024 1 1 0 59 59 0) (- 1) = Ok (mk_datetime 2023 12 31 23 59 59 0)
  /\ adjust (mk_datetime 2023 12 31 23 59 59 0) 0 = Ok (mk_datetime 2023 12 31 23 59 59 0).
Proof.
  apply (X5_offsets_compose (mk_datetime 2023 12 31 23 59 59 0)
           (mk_datetime 2024 1 1 0 59 59 0) 1).
  - vm_compute. intuition congruence.
  - vm_compute. reflexivity.
Defined.

Lemma X6_witness :
  exists msg, forall original_path destination_dir simulate force w,
    save_media_with_datetime original_path (Some (mk_datetime 9999 12 31 23 0 0 0))
      destination_dir 1 simulate force w
    = (Raise (Exception (lit "OverflowError") msg), w).
Proof.
  apply (X6_offset_overflow_raises (mk_datetime 9999 12 31 23 0 0 0) 1).
  - vm_compute. intuition congruence.
  - vm_compute. intros [_ H]. by apply H.
Defined.

Local Close Scope Z_scope.

Lemma X9_witness :
  exists a bytes dst,
    adjust t_photo 0 = Ok a /\
    Os.stat (w_fs w_fresh) (lit "photo.jpg") = Some (File bytes) /\
    Os.stat (w_fs (snd (save_media_with_datetime (lit "photo.jpg") (Some t_photo)
                          (Some (lit "out")) 0 false false w_fresh))) dst
      = Some (File bytes) /\
    Os.stat (w_fs (snd (save_media_with_datetime (lit "photo.jpg") (Some t_photo)
                          (Some (lit "out")) 0 false false w_fresh))) (lit "photo.jpg")
      = Some (File bytes) /\
    w_copies (snd (save_media_with_datetime (lit "photo.jpg") (Some t_photo)
                     (Some (lit "out")) 0 false false w_fresh))
      = w_copies w_fresh ++ [(lit "photo.jpg", dst)] /\
    (Os.stat (w_fs w_fresh) (new_path_of (lit "photo.jpg") (Some (lit "out")) a)
       <> Some Directory ->
     dst = new_path_of (lit "photo.jpg") (Some (lit "out")) a).
Proof.
  apply (X9_copy_holds_source_bytes (lit "photo.jpg") t_photo (Some (lit "out")) 0 false
           w_fresh).
  vm_compute. reflexivity.
Defined.

Local Open Scope Z_scope.

Lemma X8_witness :
  exists nd',
    Os.stat (w_fs (snd (process_media Demo.env (lit "*.jpg") (Some (lit "out")) 0
                          false true w_done)))
      (lit "out/2023-05-10T14-30-00_photo.jpg") = Some nd'
    /\ same_kind (File [Byte.x01]) nd'.
Proof.
  apply (X8_batch_removes_nothing Demo.env (lit "*.jpg") (Some (lit "out")) 0 false true
           w_done _ (fst (process_media Demo.env (lit "*.jpg") (Some (lit "out")) 0
                            false true w_done))).
  - by destruct (process_media Demo.env (lit "*.jpg") (Some (lit "out")) 0 false true
                   w_done).
  - vm_compute. reflexivity.
Defined.

Lemma X10_witness :
  exists c out,
    w_stdout (snd (process_media Demo.env (lit "*.jpg") (Some (lit "out")) 0 false false
                     w_fresh))
    = out ++ [summary_line c] /\
    total_media_requested c
    = Z.of_nat (length (glob Demo.env (w_fs w_fresh) (lit "*.jpg"))) /\
    0 <= total_media_processed c /\ 0 <= total_media_without_dates c /\
    0 <= total_media_requested c - total_media_processed c - total_media_without_dates c /\
    length (w_copies (snd (process_media Demo.env (lit "*.jpg") (Some (lit "out")) 0
                             false false w_fresh)))
    = (length (w_copies w_fresh)
       + (if false then 0 else Z.to_nat (total_media_processed c)))%nat.
Proof.
  apply (X10_summary_counts Demo.env (lit "*.jpg") (Some (lit "out")) 0 false false
           w_fresh).
  - vm_compute. discriminate.
  - vm_compute. reflexivity.
Defined.

Lemma X11_witness :
  filename_has_match (lit "out") (lit "photo.jpg") w_arabic_indic
  = (Ok true, w_arabic_indic)
  /\ filename_has_match (lit "out") (lit "2023-05-10T14-30-00_" ++ lit "photo.jpg")
       w_arabic_indic = (Ok true, w_arabic_indic).
Proof.
  apply (X11_match_disregards_timestamps (lit "out") (lit "photo.jpg")
           (arabic_indic (lit "2020-01-01T00-00-00_")) (lit "2023-05-10T14-30-00_")
           (arabic_indic (lit "2020-01-01T00-00-00_") ++ lit "photo.jpg")
           (mk_dir true
              {[ arabic_indic (lit "2020-01-01T00-00-00_") ++ lit "photo.jpg"
                 := File [Byte.x01] ]})
           (File [Byte.x01]) w_arabic_indic).
  - discriminate.
  - vm_compute. reflexivity.
  - reflexivity.
  - reflexivity.
  - reflexivity.
  - vm_compute. reflexivity.
  - right. reflexivity.
Defined.

Lemma X13_witness :
  save_media_with_datetime (lit "photo.jpg") (Some t_photo) (Some (lit "out")) 3
    false false w_other_stamp = (Ok false, w_other_stamp).
Proof.
  apply (X13_other_stamp_is_a_duplicate (lit "photo.jpg") t_photo
           (mk_datetime 2023 5 10 17 30 0 0) (Some (lit "out")) 3 false
           (lit "2020-01-01T00-00-00_photo.jpg")
           (mk_dir true (Demo.files [("2020-01-01T00-00-00_photo.jpg"%string, Byte.x01)]))
           (File [Byte.x01]) w_other_stamp).
  - vm_compute. reflexivity.
  - discriminate.
  - vm_compute. reflexivity.
  - vm_compute. reflexivity.
  - vm_compute. reflexivity.
Defined.


Lemma X15_witness :
  ((forall simulate,
      save_media_with_datetime (lit "photo.jpg") (Some t_photo) (Some (lit "out")) 0
        simulate false w_no_out
      = (Raise (Os.FileNotFoundError (lit "out")), w_no_out))
   /\ (forall bytes,
         Os.stat (w_fs w_no_out) (lit "photo.jpg") = Some (File bytes) ->
         save_media_with_datetime (lit "photo.jpg") (Some t_photo) (Some (lit "out")) 0
           false true w_no_out
         = (Raise (Os.FileNotFoundError (lit "out/2023-05-10T14-30-00_photo.jpg")),
            w_no_out)))
  /\ ((forall simulate,
         save_media_with_datetime (lit "photo.jpg") (Some t_photo)
           (Some (lit "photo.jpg")) 0 simulate false w_no_out
         = (Raise (Os.NotADirectoryError (lit "photo.jpg")), w_no_out))
      /\ (forall bytes,
            Os.stat (w_fs w_no_out) (lit "photo.jpg") = Some (File bytes) ->
            save_media_with_datetime (lit "photo.jpg") (Some t_photo)
              (Some (lit "photo.jpg")) 0 false true w_no_out
            = (Raise (Os.NotADirectoryError
                        (lit "photo.jpg/2023-05-10T14-30-00_photo.jpg")),
               w_no_out))).
Proof.
  split.
  - apply (X15_missing_target_directory (lit "photo.jpg") t_photo t_photo
             (Some (lit "out")) 0 w_no_out).
    + vm_compute. reflexivity.
    + vm_compute. reflexivity.
  - apply (X15_missing_target_directory (lit "photo.jpg") t_photo t_photo
             (Some (lit "photo.jpg")) 0 w_no_out).
    + vm_compute. reflexivity.
    + vm_compute. reflexivity.
Defined.

Lemma X12_witness :
  save_media_with_datetime (lit "2023-05-10T14-30-00_photo.jpg") (Some t_photo) None 0
    false true w_tagged
  = (Raise (Os.SameFileError (lit "2023-05-10T14-30-00_photo.jpg")
              (lit "./2023-05-10T14-30-00_photo.jpg")), w_tagged).
Proof.
  apply (X12_forced_retag_in_place_is_same_file (lit "2023-05-10T14-30-00_photo.jpg")
           (lit "photo.jpg") [Byte.x01] t_photo t_photo 0 w_tagged).
  - vm_compute. intuition congruence.
  - reflexivity.
  - vm_compute. reflexivity.
  - vm_compute. reflexivity.
  - vm_compute. reflexivity.
  - vm_compute. reflexivity.
Defined.

Local Close Scope Z_scope.
